(** * Mobile-IP style registration and handover: a shallow embedding of
    [main.py] and the properties of its protocol core.

    The Python program keeps its state in class attributes and module-level
    dictionaries.  The embedding threads one [World] value through every
    operation (a state-and-exception monad [M]), keeps the [HomeAgent]
    objects in a store addressed by reference (they are shared between the
    registry and the mobile nodes that point at them), and reads everything
    the program obtains from outside (SHA-256, HMAC, [secrets], the [route]
    subprocess) from parameters of the development. *)

From stdpp Require Import base strings gmap list pretty relations.

(** ** Data model *)

(** A reference to a [HomeAgent] object: its index in the store. *)
Abbreviation loc := nat.

(** The dictionary stored in [HomeAgent.bindings] by [process_registration]. *)
Module Binding.
Record t := mk {
  temp_identity : option string;
  shared_key_mn_fa : string;
  nonce_ha : string;
  coa : string;
  foreign_agent : string }.
End Binding.

(** [class HomeAgent]. *)
Module HomeAgent.
Record t := mk {
  identity : string;
  ip_address : string;
  shared_key_mn_ha : string;
  nonce_ha : string;
  bindings : gmap string Binding.t;
  peers : gset string }.

Definition set_bindings (f : gmap string Binding.t → gmap string Binding.t) (h : t) : t :=
  mk (identity h) (ip_address h) (shared_key_mn_ha h) (nonce_ha h) (f (bindings h)) (peers h).

Definition set_peers (f : gset string → gset string) (h : t) : t :=
  mk (identity h) (ip_address h) (shared_key_mn_ha h) (nonce_ha h) (bindings h) (f (peers h)).
End HomeAgent.

(** [class ForeignAgent]; no attribute is written after construction. *)
Module ForeignAgent.
Record t := mk {
  identity : string;
  ip_address : string;
  nonce_fa : string }.
End ForeignAgent.

(** [class MobileNode].  [shared_key_mn_ha] and [temp_identity] start as
    [None]; the two agents are references. *)
Module MobileNode.
Record t := mk {
  identity : string;
  shared_key_mn_ha : option string;
  temp_identity : option string;
  nonce_mn : string;
  coa : string;
  home_agent : loc;
  original_ha : loc }.
End MobileNode.

(** The [request_data] dictionary built by the three [MobileNode] methods. *)
Module RequestData.
Record t := mk {
  temp_identity : option string;
  nonce_mn : string;
  coa : string }.
End RequestData.

(** [class Registration]. *)
Module Registration.
Record t := mk {
  request_type : string;
  target : loc;
  data : RequestData.t;
  nonce : option string }.

(** [Registration.__init__] *)
Definition init (request_type : string) (target : loc) (data : RequestData.t) : t :=
  mk request_type target data None.

(** [Registration.add_nonce] *)
Definition add_nonce (self : t) (nonce : string) : t :=
  mk (request_type self) (target self) (data self) (Some nonce).
End Registration.

(** The dictionary returned by a successful [process_registration]. *)
Module Response.
Record t := mk {
  status : string;
  binding : Binding.t }.
End Response.

(** What [subprocess.run(command, check=True)] did: it completed, raised
    [CalledProcessError], or raised some other [Exception]; the string is
    the text the exception formats to. *)
Inductive run_result :=
| Completed
| CalledProcessError (e : string)
| OtherError (e : string).

(** Python exceptions raised by the embedded code; all of them are caught
    by [except Exception]. *)
Inductive exn :=
| ValueError (msg : string)
| Exception (msg : string)
| KeyError (key : string)
| IndexError.

(** [str(e)]: the message of the exception; for a [KeyError] the key
    between quotes, and for an index past the end of a list the
    interpreter's text. *)
Definition exn_str (e : exn) : string :=
  match e with
  | ValueError msg | Exception msg => msg
  | KeyError key => "'" +:+ key +:+ "'"
  | IndexError => "list index out of range"
  end.

(** ** The world *)

(** Python dictionaries whose iteration order the program relies on
    ([ha_registry], [fa_registry], [mn_registry]) are association lists in
    insertion order. *)
Section dict.
Context {V : Type}.

Fixpoint dict_get (k : string) (d : list (string * V)) : option V :=
  match d with
  | [] => None
  | (k', v) :: d' => if decide (k = k') then Some v else dict_get k d'
  end.

(** [d[k] = v]: an existing key keeps its position, a new key goes last. *)
Fixpoint dict_set (k : string) (v : V) (d : list (string * V)) : list (string * V) :=
  match d with
  | [] => [(k, v)]
  | (k', v') :: d' => if decide (k = k') then (k, v) :: d' else (k', v') :: dict_set k v d'
  end.
End dict.

Record World := mkWorld {
  assigned_ips : gset string;                       (* NetworkHelper.assigned_ips *)
  heap : list HomeAgent.t;                          (* the HomeAgent objects *)
  ha_registry : list (string * loc);
  fa_registry : list (string * ForeignAgent.t);
  mn_registry : list (string * MobileNode.t);
  stdout : list string;                             (* what print wrote, oldest first *)
  randbelow_calls : nat;                            (* calls of secrets.randbelow so far *)
  token_calls : nat;                                (* calls of secrets.token_hex so far *)
  run_calls : nat }.                                (* calls of subprocess.run so far *)

Definition set_assigned_ips (f : gset string → gset string) (w : World) : World :=
  mkWorld (f (assigned_ips w)) (heap w) (ha_registry w) (fa_registry w) (mn_registry w)
    (stdout w) (randbelow_calls w) (token_calls w) (run_calls w).
Definition set_heap (f : list HomeAgent.t → list HomeAgent.t) (w : World) : World :=
  mkWorld (assigned_ips w) (f (heap w)) (ha_registry w) (fa_registry w) (mn_registry w)
    (stdout w) (randbelow_calls w) (token_calls w) (run_calls w).
Definition set_ha_registry (f : list (string * loc) → list (string * loc)) (w : World) : World :=
  mkWorld (assigned_ips w) (heap w) (f (ha_registry w)) (fa_registry w) (mn_registry w)
    (stdout w) (randbelow_calls w) (token_calls w) (run_calls w).
Definition set_fa_registry
    (f : list (string * ForeignAgent.t) → list (string * ForeignAgent.t)) (w : World) : World :=
  mkWorld (assigned_ips w) (heap w) (ha_registry w) (f (fa_registry w)) (mn_registry w)
    (stdout w) (randbelow_calls w) (token_calls w) (run_calls w).
Definition set_mn_registry
    (f : list (string * MobileNode.t) → list (string * MobileNode.t)) (w : World) : World :=
  mkWorld (assigned_ips w) (heap w) (ha_registry w) (fa_registry w) (f (mn_registry w))
    (stdout w) (randbelow_calls w) (token_calls w) (run_calls w).
Definition set_stdout (f : list string → list string) (w : World) : World :=
  mkWorld (assigned_ips w) (heap w) (ha_registry w) (fa_registry w) (mn_registry w)
    (f (stdout w)) (randbelow_calls w) (token_calls w) (run_calls w).
Definition set_randbelow_calls (f : nat → nat) (w : World) : World :=
  mkWorld (assigned_ips w) (heap w) (ha_registry w) (fa_registry w) (mn_registry w)
    (stdout w) (f (randbelow_calls w)) (token_calls w) (run_calls w).
Definition set_token_calls (f : nat → nat) (w : World) : World :=
  mkWorld (assigned_ips w) (heap w) (ha_registry w) (fa_registry w) (mn_registry w)
    (stdout w) (randbelow_calls w) (f (token_calls w)) (run_calls w).
Definition set_run_calls (f : nat → nat) (w : World) : World :=
  mkWorld (assigned_ips w) (heap w) (ha_registry w) (fa_registry w) (mn_registry w)
    (stdout w) (randbelow_calls w) (token_calls w) (f (run_calls w)).

(** ** The monad of the embedding *)

(** A call returns a value, raises, is still inside a [while] loop when the
    iteration budget of the model is used up, or follows a reference to a
    [HomeAgent] that was never allocated (which no Python run can do). *)
Inductive outcome (A : Type) :=
| Returns (a : A) (w : World)
| Raises (e : exn) (w : World)
| OutOfFuel
| BadRef.
Arguments Returns {A} a w.
Arguments Raises {A} e w.
Arguments OutOfFuel {A}.
Arguments BadRef {A}.

Definition M (A : Type) : Type := World → outcome A.

Global Instance M_ret : MRet M := λ A a w, Returns a w.

Global Instance M_bind : MBind M := λ A B k m w,
  match m w with
  | Returns a w' => k a w'
  | Raises e w' => Raises e w'
  | OutOfFuel => OutOfFuel
  | BadRef => BadRef
  end.

Definition raise {A} (e : exn) : M A := λ w, Raises e w.

Definition gets {A} (f : World → A) : M A := λ w, Returns (f w) w.

Definition modify (f : World → World) : M unit := λ w, Returns tt (f w).

(** [try: body  except Exception as e: handler(e)] *)
Definition try_except {A} (body : M A) (handler : exn → M A) : M A := λ w,
  match body w with
  | Raises e w' => handler e w'
  | o => o
  end.

(** [print(line)]; the prompts written by [input] are not recorded, what
    is typed at them is an argument of the function that asks. *)
Definition print (line : string) : M unit := modify (set_stdout (λ out, out ++ [line])).

(** Reading and writing a [HomeAgent] through a reference. *)
Definition deref (l : loc) : M HomeAgent.t := λ w,
  match heap w !! l with
  | Some h => Returns h w
  | None => BadRef
  end.

Definition update (l : loc) (f : HomeAgent.t → HomeAgent.t) : M unit := λ w,
  match heap w !! l with
  | Some h => Returns tt (set_heap (λ hp, <[l := f h]> hp) w)
  | None => BadRef
  end.

(** Allocating a new object: it goes at the end of the store. *)
Definition new_ha (h : HomeAgent.t) : M loc := λ w,
  Returns (length (heap w)) (set_heap (λ hp, hp ++ [h]) w).

(** [for x in xs: body(x)] *)
Fixpoint for_each {A} (xs : list A) (body : A → M unit) : M unit :=
  match xs with
  | [] => mret tt
  | x :: xs' => body x;; for_each xs' body
  end.

(** The line feed of the Python literals [\n]. *)
Definition nl : string := String (Ascii.ascii_of_nat 10) EmptyString.

(** ** What the program takes from outside *)

Record Env := mkEnv {
  (** [hashlib.sha256(data.encode()).hexdigest()] *)
  sha256_hexdigest : string → string;
  (** [hmac.new(key.encode(), data.encode(), hashlib.sha256).hexdigest()] *)
  hmac_sha256_hexdigest : string → string → string;
  (** the value of the [n]-th call of [secrets.token_hex(16)] *)
  token_hex_16 : nat → string;
  (** the value of the [n]-th call of [secrets.randbelow], made with this
      exclusive upper bound *)
  secrets_randbelow : nat → nat → nat;
  (** what the [n]-th call of [subprocess.run] does on a command line *)
  subprocess_run : nat → list string → run_result;
  (** the text Python prints for a set of strings (the order of the
      elements is the interpreter's) *)
  format_set : gset string → string;
  (** the text Python prints for the dictionary a registration returns *)
  format_response : Response.t → string }.

Section Program.

Variable E : Env.

(** ** [class CryptographicHelper] *)

Definition generate_hash (data : string) : string := sha256_hexdigest E data.

Definition generate_hmac (key data : string) : string := hmac_sha256_hexdigest E key data.

Definition generate_nonce : M string :=
  n ← gets token_calls;
  modify (set_token_calls S);;
  mret (token_hex_16 E n).

(** ** [class NetworkHelper] *)

Definition network_id_map : gmap string string :=
  list_to_map [("mn", "10.1.0"); ("fa", "192.168.2"); ("ha", "192.168.1")].

(** [secrets.randbelow(bound)]; a bound of zero is refused. *)
Definition randbelow (bound : nat) : M nat :=
  match bound with
  | 0 => raise (ValueError "Upper bound must be positive.")
  | S _ =>
      n ← gets randbelow_calls;
      modify (set_randbelow_calls S);;
      mret (secrets_randbelow E n bound)
  end.

(** The [while True] loop of [assign_ip]; [fuel] bounds the iterations the
    model follows. *)
Fixpoint assign_ip_loop (fuel : nat) (network_id entity_type : string) : M string :=
  match fuel with
  | 0 => λ _, OutOfFuel
  | S fuel' =>
      n ← randbelow 255;
      let ip_address := network_id +:+ "." +:+ pretty n in
      ips ← gets assigned_ips;
      if decide (ip_address ∈ ips) then assign_ip_loop fuel' network_id entity_type
      else
        modify (set_assigned_ips (λ s, s ∪ {[ip_address]}));;
        print ("Assigned IP " +:+ ip_address +:+ " to " +:+ entity_type);;
        mret ip_address
  end.

Definition assign_ip (fuel : nat) (entity_type : string) : M string :=
  match network_id_map !! entity_type with
  | None => raise (ValueError ("Unknown entity type: " +:+ entity_type))
  | Some network_id => assign_ip_loop fuel network_id entity_type
  end.

Definition release_ip (ip_address : string) : M unit :=
  ips ← gets assigned_ips;
  if decide (ip_address ∈ ips) then
    modify (set_assigned_ips (λ s, s ∖ {[ip_address]}));;
    print ("Released IP " +:+ ip_address +:+ ".")
  else
    print ("IP " +:+ ip_address +:+ " is not currently assigned.").

(** [add_route] catches every exception of the subprocess and returns
    [None] in all three cases. *)
Definition add_route (destination gateway : string) : M unit :=
  let command := ["sudo"; "route"; "-n"; "add"; destination; gateway] in
  n ← gets run_calls;
  modify (set_run_calls S);;
  match subprocess_run E n command with
  | Completed =>
      print ("Successfully added route to " +:+ destination +:+ " via " +:+ gateway)
  | CalledProcessError e => print ("Failed to add route: " +:+ e)
  | OtherError e => print ("Unexpected error: " +:+ e)
  end.

(** ** [class MobileNode] *)

(** Python's [x if x else y] on an optional string: [None] and the empty
    string are false. *)
Definition truthy (s : option string) : option string :=
  match s with
  | Some s' => if decide (s' = "") then None else Some s'
  | None => None
  end.

(** [MobileNode.__init__] *)
Definition MobileNode_init (fuel : nat) (identity : string) (home_agent : loc) : M MobileNode.t :=
  nonce_mn ← generate_nonce;
  coa ← assign_ip fuel "mn";
  mret (MobileNode.mk identity None None nonce_mn coa home_agent home_agent).

(** The dictionary literal [request_data], written out three times in the
    source with the same three entries. *)
Definition request_data (self : MobileNode.t) : RequestData.t :=
  RequestData.mk (MobileNode.temp_identity self) (MobileNode.nonce_mn self) (MobileNode.coa self).

(** ** [class HomeAgent] *)

(** [HomeAgent.__init__]; the new object is allocated in the store. *)
Definition HomeAgent_init (fuel : nat) (identity : string) (ip_address : option string) : M loc :=
  ip ← match truthy ip_address with
       | Some ip => mret ip
       | None => assign_ip fuel "ha"
       end;
  nonce_ha ← generate_nonce;
  new_ha (HomeAgent.mk identity ip "shared_secret_mn_ha" nonce_ha ∅ ∅).

Definition process_registration (self : loc) (fa : ForeignAgent.t) (mn : MobileNode.t)
    (registration : Registration.t) : M Response.t :=
  let data := Registration.data registration in
  let temp_identity := RequestData.temp_identity data in
  if decide (temp_identity =
             Some (generate_hash (MobileNode.identity mn +:+ RequestData.nonce_mn data))) then
    ha ← deref self;
    let shared_key_mn_fa :=
      generate_hmac (HomeAgent.shared_key_mn_ha ha)
        (RequestData.nonce_mn data +:+ HomeAgent.nonce_ha ha +:+ ForeignAgent.identity fa) in
    let binding :=
      Binding.mk temp_identity shared_key_mn_fa (HomeAgent.nonce_ha ha)
        (RequestData.coa data) (ForeignAgent.ip_address fa) in
    update self (HomeAgent.set_bindings (λ b, <[MobileNode.identity mn := binding]> b));;
    add_route (MobileNode.coa mn) (HomeAgent.ip_address ha);;
    ha' ← deref self;
    match HomeAgent.bindings ha' !! MobileNode.identity mn with
    | Some b => mret (Response.mk "success" b)
    | None => raise (KeyError (MobileNode.identity mn))
    end
  else raise (Exception "Invalid registration data").

(** ** [class ForeignAgent] *)

(** [ForeignAgent.__init__] *)
Definition ForeignAgent_init (fuel : nat) (identity : string) (ip_address : option string)
    : M ForeignAgent.t :=
  ip ← match truthy ip_address with
       | Some ip => mret ip
       | None => assign_ip fuel "fa"
       end;
  nonce_fa ← generate_nonce;
  mret (ForeignAgent.mk identity ip nonce_fa).

(** [add_nonce] writes into the [Registration] object the caller passed;
    the stamped object is handed back next to the authority's answer. *)
Definition handle_registration_request (self : ForeignAgent.t) (mn : MobileNode.t) (ha : loc)
    (registration : Registration.t) : M (Response.t * Registration.t) :=
  let registration := Registration.add_nonce registration (ForeignAgent.nonce_fa self) in
  response ← process_registration ha self mn registration;
  mret (response, registration).

(** ** [MobileNode] methods

    A method that assigns to [self] returns the updated node next to its
    result. *)

Definition re_register_with_original_ha (self : MobileNode.t) (fa : ForeignAgent.t)
    : M (Response.t * Registration.t) :=
  let request_data := request_data self in
  original ← deref (MobileNode.original_ha self);
  print ("Re-registering MN " +:+ MobileNode.identity self +:+ " with original Home Agent "
         +:+ HomeAgent.identity original +:+ ".");;
  let registration :=
    Registration.init "re-registration" (MobileNode.original_ha self) request_data in
  handle_registration_request fa self (MobileNode.original_ha self) registration.

(** The first statement of [initiate_registration]:
    [self.temp_identity = generate_hash(identity ‖ nonce_mn)]. *)
Definition derive_temp_identity (self : MobileNode.t) : MobileNode.t :=
  MobileNode.mk (MobileNode.identity self) (MobileNode.shared_key_mn_ha self)
    (Some (generate_hash (MobileNode.identity self +:+ MobileNode.nonce_mn self)))
    (MobileNode.nonce_mn self) (MobileNode.coa self)
    (MobileNode.home_agent self) (MobileNode.original_ha self).

Definition initiate_registration (self : MobileNode.t) (ha : loc) (fa : ForeignAgent.t)
    : M (Response.t * MobileNode.t) :=
  let self := derive_temp_identity self in
  let registration := Registration.init "registration" ha (request_data self) in
  '(response, _) ← handle_registration_request fa self ha registration;
  mret (response, self).

Definition move_to_new_network (fuel : nat) (self : MobileNode.t) (ha : loc) (fa : ForeignAgent.t)
    : M (Response.t * MobileNode.t) :=
  print ("MobileNode " +:+ MobileNode.identity self +:+ " moving to a new Foreign Network.");;
  coa ← assign_ip fuel "mn";
  nonce_mn ← generate_nonce;
  let self :=
    MobileNode.mk (MobileNode.identity self) (MobileNode.shared_key_mn_ha self)
      (Some (generate_hash (MobileNode.identity self +:+ nonce_mn)))
      nonce_mn coa ha (MobileNode.original_ha self) in
  let registration := Registration.init "registration" ha (request_data self) in
  re_register_with_original_ha self fa;;
  '(response, _) ← handle_registration_request fa self ha registration;
  mret (response, self).

(** ** Module-level functions *)

(** The body of the inner [for] loop of [create_mesh_topology], for the
    agent [ha] registered as [ha_id]. *)
Definition connect_peer (ha_id : string) (ha : loc) (peer : string * loc) : M unit :=
  let '(peer_id, peer_ha) := peer in
  if decide (ha_id ≠ peer_id) then
    update ha (HomeAgent.set_peers (λ s, s ∪ {[peer_id]}));;
    h ← deref ha;
    p ← deref peer_ha;
    print ("HA " +:+ ha_id +:+ " (IP: " +:+ HomeAgent.ip_address h
           +:+ ") connected to HA " +:+ peer_id
           +:+ " (IP: " +:+ HomeAgent.ip_address p +:+ ")")
  else mret tt.

(** The body of its outer loop. *)
Definition rebuild_peers (registry : list (string * loc)) (entry : string * loc) : M unit :=
  let '(ha_id, ha) := entry in
  update ha (HomeAgent.set_peers (λ _, ∅));;
  for_each registry (connect_peer ha_id ha).

Definition create_mesh_topology : M unit :=
  print (nl +:+ "Creating Mesh Topology Between Home Agents...");;
  registry ← gets ha_registry;
  for_each registry (rebuild_peers registry);;
  print ("Mesh topology created successfully." +:+ nl).

(** [add_mobile_node], with the identifier read from the console as
    argument.  The registry holds the node object itself, so what
    [initiate_registration] assigns to the node shows in the registry,
    also when the registration raises.  (The test [if not fa] of the source
    never fires: an object without [__bool__] and [__len__] is true.) *)
Definition add_mobile_node (fuel : nat) (mn_id : string) : M unit :=
  mns ← gets mn_registry;
  match dict_get mn_id mns with
  | Some _ => print "Error: MN already exists."
  | None =>
      has ← gets ha_registry;
      ha_index ← randbelow (length has);
      match has !! ha_index with
      | None => raise IndexError
      | Some (ha_id, ha) =>
          fas ← gets fa_registry;
          match fas !! ha_index with
          | None => raise IndexError
          | Some (fa_id, fa) =>
              h ← deref ha;
              print ("Assigning Home Agent " +:+ ha_id +:+ ": " +:+ HomeAgent.ip_address h
                     +:+ " and corresponding Foreign Agent " +:+ fa_id +:+ ": "
                     +:+ ForeignAgent.ip_address fa +:+ " to MN " +:+ mn_id +:+ ".");;
              mn ← MobileNode_init fuel mn_id ha;
              modify (set_mn_registry (dict_set mn_id mn));;
              try_except
                ('(response, mn') ← initiate_registration mn ha fa;
                 modify (set_mn_registry (dict_set mn_id mn'));;
                 print ("Registration Response: " +:+ format_response E response))
                (λ e,
                 modify (set_mn_registry (dict_set mn_id (derive_temp_identity mn)));;
                 print ("Registration failed: " +:+ exn_str e));;
              print ("Mobile Node " +:+ mn_id
                     +:+ " created, registered, and assigned to network "
                     +:+ ha_id +:+ "-" +:+ fa_id +:+ ".")
          end
      end
  end.

(** [ping_mobile_node], with the two identifiers read from the console as
    arguments. *)
Definition ping_mobile_node (source_id target_id : string) : M unit :=
  mns ← gets mn_registry;
  match dict_get source_id mns with
  | None => print ("Error: Source Mobile Node " +:+ source_id +:+ " not found.")
  | Some source =>
      match dict_get target_id mns with
      | None => print ("Error: Target Mobile Node " +:+ target_id +:+ " not found.")
      | Some target =>
          add_route (MobileNode.coa source) (MobileNode.coa target);;
          print ("Pinging from Mobile Node " +:+ source_id +:+ " (" +:+ MobileNode.coa source
                 +:+ ") to " +:+ target_id +:+ " (" +:+ MobileNode.coa target +:+ ")...");;
          n ← gets run_calls;
          modify (set_run_calls S);;
          match subprocess_run E n ["ping"; "-c"; "4"; MobileNode.coa target] with
          | Completed =>
              print ("Ping to " +:+ target_id +:+ " (" +:+ MobileNode.coa target
                     +:+ ") successful.")
          | CalledProcessError e => print ("Ping failed: " +:+ e)
          | OtherError e => print ("Unexpected error: " +:+ e)
          end
      end
  end.

(** [add_network], with the two identifiers read from the console as
    arguments. *)
Definition add_network (fuel : nat) (ha_id fa_id : string) : M unit :=
  ha_ip ← assign_ip fuel "ha";
  fa_ip ← assign_ip fuel "fa";
  ha ← HomeAgent_init fuel ha_id (Some ha_ip);
  fa ← ForeignAgent_init fuel fa_id (Some fa_ip);
  modify (set_ha_registry (dict_set ha_id ha));;
  modify (set_fa_registry (dict_set fa_id fa));;
  create_mesh_topology;;
  print ("Added Home Agent " +:+ ha_id +:+ " with IP " +:+ ha_ip +:+ ".");;
  print ("Added Foreign Agent " +:+ fa_id +:+ " with IP " +:+ fa_ip +:+ ".").

(** The list comprehension of [move_mobile_node]. *)
Definition available_networks (current_identity : string)
    (has : list (string * loc)) (fas : list (string * ForeignAgent.t))
    : list (string * loc * string * ForeignAgent.t) :=
  omap (λ '((ha_id, ha), (fa_id, fa)),
          if decide (ha_id ≠ current_identity) then Some (ha_id, ha, fa_id, fa) else None)
       (zip has fas).

(** [move_mobile_node], with the identifier read from the console and the
    index returned by the selection menu as arguments (the menu only
    returns positions of the list it shows). *)
Definition move_mobile_node (fuel : nat) (mn_id : string) (selected_index : nat) : M unit :=
  mns ← gets mn_registry;
  match dict_get mn_id mns with
  | None => print "Error: Mobile Node not found."
  | Some mn =>
      let current_ha := MobileNode.home_agent mn in
      cur ← deref current_ha;
      print (nl +:+ "Current Network Details:");;
      print ("  Home Agent: " +:+ HomeAgent.identity cur
             +:+ " (IP: " +:+ HomeAgent.ip_address cur +:+ ")");;
      print ("  Care-of Address (COA): " +:+ MobileNode.coa mn +:+ nl);;
      has ← gets ha_registry;
      fas ← gets fa_registry;
      let available := available_networks (HomeAgent.identity cur) has fas in
      match available with
      | [] => print "No other networks available for movement."
      | _ :: _ =>
          match available !! selected_index with
          | None => raise IndexError
          | Some (new_ha_id, new_ha, new_fa_id, new_fa) =>
              new ← deref new_ha;
              print (nl +:+ "Moving Mobile Node " +:+ mn_id +:+ " to new network:");;
              print ("  New Home Agent: " +:+ new_ha_id
                     +:+ " (IP: " +:+ HomeAgent.ip_address new +:+ ")");;
              print ("  New Foreign Agent: " +:+ new_fa_id
                     +:+ " (IP: " +:+ ForeignAgent.ip_address new_fa +:+ ")" +:+ nl);;
              '(response, mn) ← move_to_new_network fuel mn new_ha new_fa;
              modify (set_mn_registry (dict_set mn_id mn));;
              cur ← deref current_ha;
              (if decide (is_Some (HomeAgent.bindings cur !! mn_id)
                          ∧ current_ha ≠ MobileNode.original_ha mn) then
                 print ("Removing binding for Mobile Node " +:+ mn_id
                        +:+ " from old Home Agent " +:+ HomeAgent.identity cur +:+ ".");;
                 update current_ha (HomeAgent.set_bindings (delete mn_id))
               else
                 print ("Retaining binding for Mobile Node " +:+ mn_id
                        +:+ " in the original Home Agent " +:+ HomeAgent.identity cur +:+ "."));;
              if decide (Response.status response = "success") then
                print ("Mobile Node " +:+ mn_id +:+ " successfully moved to the new network.");;
                print ("New COA: " +:+ MobileNode.coa mn)
              else
                print ("Failed to move Mobile Node " +:+ mn_id +:+ ": Unknown error")
          end
      end
  end.

(** The statements the module runs when it is loaded: the two registry
    literals, the loops that mark their addresses as assigned, and the
    first [create_mesh_topology].  Every agent is given its address, so no
    address is drawn and the fuel plays no part. *)
Definition module_init : M unit :=
  ha1 ← HomeAgent_init 0 "HA123" (Some "192.168.1.1");
  ha2 ← HomeAgent_init 0 "HA456" (Some "192.168.1.2");
  ha3 ← HomeAgent_init 0 "HA789" (Some "192.168.1.3");
  modify (set_ha_registry (λ _, [("HA123", ha1); ("HA456", ha2); ("HA789", ha3)]));;
  fa1 ← ForeignAgent_init 0 "FA123" (Some "192.168.2.1");
  fa2 ← ForeignAgent_init 0 "FA456" (Some "192.168.2.2");
  fa3 ← ForeignAgent_init 0 "FA789" (Some "192.168.2.3");
  modify (set_fa_registry (λ _, [("FA123", fa1); ("FA456", fa2); ("FA789", fa3)]));;
  modify (set_mn_registry (λ _, []));;
  has ← gets ha_registry;
  for_each has (λ '(_, ha),
    h ← deref ha;
    modify (set_assigned_ips (λ s, s ∪ {[HomeAgent.ip_address h]})));;
  fas ← gets fa_registry;
  for_each fas (λ '(_, fa),
    modify (set_assigned_ips (λ s, s ∪ {[ForeignAgent.ip_address fa]})));;
  ips ← gets assigned_ips;
  print ("Initial assigned IPs: " +:+ format_set E ips);;
  create_mesh_topology.

End Program.

(** The state before the module is loaded. *)
Definition empty_world : World := mkWorld ∅ [] [] [] [] [] 0 0 0.

(** ** A concrete outside, for examples

    Stand-ins with the interface of the real functions: the digest of [s]
    is the text [sha256(s)], tokens are numbered, the random draws go round
    the values below the bound in order, every second subprocess fails and
    a set is printed in the order of [elements] and a response is printed
    with its status and care-of address only. *)
Definition demo_env : Env := {|
  sha256_hexdigest s := "sha256(" +:+ s +:+ ")";
  hmac_sha256_hexdigest k s := "hmac(" +:+ k +:+ "," +:+ s +:+ ")";
  token_hex_16 n := "token" +:+ pretty n;
  secrets_randbelow n bound := n `mod` bound;
  subprocess_run n _ :=
    if Nat.even n then Completed else CalledProcessError "Command returned non-zero exit status 1.";
  format_set s := "{" +:+ foldr (λ x acc, "'" +:+ x +:+ "' " +:+ acc) "}" (elements s);
  format_response r :=
    "{'status': '" +:+ Response.status r +:+ "', 'binding': {'coa': '"
    +:+ Binding.coa (Response.binding r) +:+ "'}}"
|}.

Definition demo_world : World :=
  match module_init demo_env empty_world with
  | Returns _ w => w
  | _ => empty_world
  end.


(** ** Notions used to state the properties *)

(** The line [add_route] prints when it is called in world [w]. *)
Definition add_route_line (E : Env) (w : World) (destination gateway : string) : string :=
  match subprocess_run E (run_calls w) ["sudo"; "route"; "-n"; "add"; destination; gateway] with
  | Completed => "Successfully added route to " +:+ destination +:+ " via " +:+ gateway
  | CalledProcessError e => "Failed to add route: " +:+ e
  | OtherError e => "Unexpected error: " +:+ e
  end.

(** The Binding of the specification: the temporary identity, care-of
    address and node nonce come from the request, the home nonce and the
    shared secret from the authority, the relay identity and address from
    the relay; the session key is
    [mac(secret, nonce ‖ homeNonce ‖ relayIdentity)]. *)
Definition spec_binding (E : Env) (ha : HomeAgent.t) (fa : ForeignAgent.t)
    (request : RequestData.t) : Binding.t := {|
  Binding.temp_identity := RequestData.temp_identity request;
  Binding.shared_key_mn_fa :=
    hmac_sha256_hexdigest E (HomeAgent.shared_key_mn_ha ha)
      (RequestData.nonce_mn request +:+ HomeAgent.nonce_ha ha +:+ ForeignAgent.identity fa);
  Binding.nonce_ha := HomeAgent.nonce_ha ha;
  Binding.coa := RequestData.coa request;
  Binding.foreign_agent := ForeignAgent.ip_address fa |}.

(** The temporary identity a node with this identity derives from a nonce:
    [hash(identity ‖ nonce)]. *)
Definition spec_temp_identity (E : Env) (identity nonce : string) : string :=
  sha256_hexdigest E (identity +:+ nonce).

(** The same outside with another behaviour of the [route] subprocess. *)
Definition with_subprocess_run (E : Env) (run : nat → list string → run_result) : Env :=
  mkEnv (sha256_hexdigest E) (hmac_sha256_hexdigest E) (token_hex_16 E) (secrets_randbelow E) run
    (format_set E) (format_response E).

(** A subprocess that fails every time. *)
Definition route_always_fails : nat → list string → run_result :=
  λ _ _, CalledProcessError "Command returned non-zero exit status 1.".

(** The world after the authority at [self], whose state was [ha], has
    accepted [request] for node [mn] through relay [fa]. *)
Definition registered (E : Env) (self : loc) (ha : HomeAgent.t) (fa : ForeignAgent.t)
    (mn : MobileNode.t) (request : RequestData.t) (w : World) : World :=
  set_stdout (λ out, out ++ [add_route_line E w (MobileNode.coa mn) (HomeAgent.ip_address ha)])
    (set_run_calls S
       (set_heap (λ hp, <[self := HomeAgent.set_bindings
                                    (λ b, <[MobileNode.identity mn := spec_binding E ha fa request]> b)
                                    ha]> hp) w)).

(** The node after [move_to_new_network] has given it the care-of address
    [coa], the nonce [nonce] and the new home agent [ha]. *)
Definition moved (E : Env) (mn : MobileNode.t) (ha : loc) (coa nonce : string) : MobileNode.t :=
  MobileNode.mk (MobileNode.identity mn) (MobileNode.shared_key_mn_ha mn)
    (Some (spec_temp_identity E (MobileNode.identity mn) nonce))
    nonce coa ha (MobileNode.original_ha mn).

(** The state of the new authority when the second request of a move
    reaches it: the re-registration has already been stored if the new
    authority is the original one. *)
Definition after_re_registration (E : Env) (fa : ForeignAgent.t) (mn : MobileNode.t)
    (ha : loc) (o n : HomeAgent.t) : HomeAgent.t :=
  if decide (ha = MobileNode.original_ha mn) then
    HomeAgent.set_bindings
      (λ b, <[MobileNode.identity mn := spec_binding E o fa (request_data mn)]> b) o
  else n.

(** [k] calls of [assign_ip] for one class in a row, with no release in
    between; the addresses come back in the order they were given out. *)
Fixpoint assign_many (E : Env) (fuel k : nat) (entity_type : string) : M (list string) :=
  match k with
  | 0 => mret []
  | S k' =>
      ip ← assign_ip E fuel entity_type;
      ips ← assign_many E fuel k' entity_type;
      mret (ip :: ips)
  end.

(** *** The address pool as a transition system

    A caller either asks for an address of some class (with a bound on the
    draws the model follows) or gives an address back.  Next to the world,
    a ledger records which addresses callers hold, and for which class:
    an entry is added when [assign_ip] returns and removed when the address
    is released. *)
Inductive pool_op :=
| Assign (fuel : nat) (entity_type : string)
| Release (ip_address : string).

Inductive pool_step (E : Env) :
    pool_op → World * list (string * string) → World * list (string * string) → Prop :=
| step_assign fuel entity_type w held ip w' :
    assign_ip E fuel entity_type w = Returns ip w' →
    pool_step E (Assign fuel entity_type) (w, held) (w', (entity_type, ip) :: held)
| step_assign_raises fuel entity_type w held e w' :
    assign_ip E fuel entity_type w = Raises e w' →
    pool_step E (Assign fuel entity_type) (w, held) (w', held)
| step_release ip w held w' :
    release_ip ip w = Returns tt w' →
    pool_step E (Release ip) (w, held) (w', filter (λ entry, entry.2 ≠ ip) held).

Inductive pool_run (E : Env) :
    list pool_op → World * list (string * string) → World * list (string * string) → Prop :=
| run_done s : pool_run E [] s s
| run_step op ops s1 s2 s3 :
    pool_step E op s1 s2 → pool_run E ops s2 s3 → pool_run E (op :: ops) s1 s3.

(** The ledger names no address twice and only addresses marked as
    assigned. *)
Definition pool_inv (s : World * list (string * string)) : Prop :=
  NoDup (s.2.*2) ∧ ∀ a, a ∈ s.2.*2 → a ∈ assigned_ips s.1.

(** *** The mesh *)

(** "All others in the given set": the keys of the registry except [k]. *)
Definition others (k : string) (registry : list (string * loc)) : gset string :=
  list_to_set (filter (λ peer_id, k ≠ peer_id) registry.*1).

(** Every registered reference is allocated, and no two entries of the
    registry share an object (each entry was built by its own constructor
    call). *)
Definition registry_wf (w : World) : Prop :=
  NoDup (ha_registry w).*2 ∧ ∀ l, l ∈ (ha_registry w).*2 → l < length (heap w).

(** The authority registered as [a] has [b] among its peers. *)
Definition peers_with (w : World) (a b : string) : Prop :=
  ∃ l h, (a, l) ∈ ha_registry w ∧ heap w !! l = Some h ∧ b ∈ HomeAgent.peers h.

(** The second world differs from the first in the store of authorities
    and in what was printed, at most. *)
Definition frame (w w' : World) : Prop :=
  assigned_ips w' = assigned_ips w
  ∧ ha_registry w' = ha_registry w
  ∧ fa_registry w' = fa_registry w
  ∧ mn_registry w' = mn_registry w
  ∧ randbelow_calls w' = randbelow_calls w
  ∧ token_calls w' = token_calls w
  ∧ run_calls w' = run_calls w.

(** The generator of nonces has been called at least as often in [w'] as
    in [w]: [w'] is not an earlier world than [w]. *)
Definition not_before (w w' : World) : Prop := token_calls w ≤ token_calls w'.

(** The value an outcome returns, if it returns. *)
Definition returned {A} (o : outcome A) : option A :=
  match o with
  | Returns a _ => Some a
  | _ => None
  end.

(** [pool_run] as a function: the state a sequence of pool operations
    ends in, when every call in it ends. *)
Fixpoint pool_exec (E : Env) (ops : list pool_op) (s : World * list (string * string))
    : option (World * list (string * string)) :=
  match ops with
  | [] => Some s
  | Assign fuel entity_type :: ops' =>
      match assign_ip E fuel entity_type s.1 with
      | Returns ip w' => pool_exec E ops' (w', (entity_type, ip) :: s.2)
      | Raises _ w' => pool_exec E ops' (w', s.2)
      | _ => None
      end
  | Release ip :: ops' =>
      match release_ip ip s.1 with
      | Returns _ w' => pool_exec E ops' (w', filter (λ entry, entry.2 ≠ ip) s.2)
      | _ => None
      end
  end.

(** *** What an operation may change

    The four attributes a [HomeAgent] gets from its constructor are never
    assigned again, objects are never removed from the store, and every new
    object carries the constructor's secret.  Beyond that, a footprint
    says which Binding keys an operation may write, and whether it may
    allocate authorities, change [ha_registry] or change [mn_registry]. *)
Definition ha_fixed (h h' : HomeAgent.t) : Prop :=
  HomeAgent.identity h' = HomeAgent.identity h
  ∧ HomeAgent.ip_address h' = HomeAgent.ip_address h
  ∧ HomeAgent.shared_key_mn_ha h' = HomeAgent.shared_key_mn_ha h
  ∧ HomeAgent.nonce_ha h' = HomeAgent.nonce_ha h.

Record footprint := Footprint {
  keys : string → Prop;
  may_allocate : Prop;
  may_register : Prop;
  may_enrol : Prop }.

Definition within (F : footprint) (w w' : World) : Prop :=
  length (heap w) ≤ length (heap w')
  ∧ (∀ l h, heap w !! l = Some h →
       ∃ h', heap w' !! l = Some h' ∧ ha_fixed h h'
             ∧ ∀ k, ¬ keys F k → HomeAgent.bindings h' !! k = HomeAgent.bindings h !! k)
  ∧ (∀ l h', heap w' !! l = Some h' → length (heap w) ≤ l →
       HomeAgent.shared_key_mn_ha h' = "shared_secret_mn_ha")
  ∧ (¬ may_allocate F → length (heap w') = length (heap w))
  ∧ (¬ may_register F → ha_registry w' = ha_registry w)
  ∧ (¬ may_enrol F → mn_registry w' = mn_registry w).

(** Every run of [m] that ends, by returning or by raising, relates the
    world it starts in to the world it ends in. *)
Definition keeps (R : relation World) {A} (m : M A) : Prop :=
  ∀ w, match m w with
       | Returns _ w' | Raises _ w' => R w w'
       | _ => True
       end.

(** *** Invariants of the running program *)

(** Every authority in the store has the secret of the constructor. *)
Definition secrets_constant (w : World) : Prop :=
  ∀ l h, heap w !! l = Some h → HomeAgent.shared_key_mn_ha h = "shared_secret_mn_ha".

(** The node registered as [k] is reachable at home: its original
    authority holds a Binding for it with its current care-of address. *)
Definition node_at_home (w : World) (k : string) (mn : MobileNode.t) : Prop :=
  MobileNode.identity mn = k
  ∧ MobileNode.home_agent mn < length (heap w)
  ∧ ∃ o b, heap w !! MobileNode.original_ha mn = Some o
           ∧ HomeAgent.bindings o !! k = Some b
           ∧ Binding.coa b = MobileNode.coa mn.

Definition world_inv (w : World) : Prop :=
  registry_wf w
  ∧ secrets_constant w
  ∧ NoDup (mn_registry w).*1
  ∧ ∀ k mn, (k, mn) ∈ mn_registry w → node_at_home w k mn.

(** The worlds the menu loop goes through: the module is loaded, then each
    choice runs one of the functions below to its end (an exception leaves
    the loop; the choices that only print change nothing but [stdout]). *)
Inductive reachable (E : Env) : World → Prop :=
| reachable_init w :
    module_init E empty_world = Returns tt w → reachable E w
| reachable_add_mobile_node fuel mn_id w w' :
    reachable E w → add_mobile_node E fuel mn_id w = Returns tt w' → reachable E w'
| reachable_add_network fuel ha_id fa_id w w' :
    reachable E w → add_network E fuel ha_id fa_id w = Returns tt w' → reachable E w'
| reachable_move_mobile_node fuel mn_id selected_index w w' :
    reachable E w →
    move_mobile_node E fuel mn_id selected_index w = Returns tt w' → reachable E w'
| reachable_ping_mobile_node source_id target_id w w' :
    reachable E w → ping_mobile_node E source_id target_id w = Returns tt w' → reachable E w'
| reachable_print lines w :
    reachable E w → reachable E (set_stdout (λ out, out ++ lines) w).

(** The footprints of the menu's operations: the choices that only print,
    a re-registration of the node [k], an enrolment or a move of the node
    [k], and a new network. *)
Definition output_footprint : footprint := Footprint (λ _, False) False False False.

Definition binding_footprint (k : string) : footprint :=
  Footprint (λ k', k' = k) False False False.

Definition node_footprint (k : string) : footprint :=
  Footprint (λ k', k' = k) False False True.

Definition network_footprint : footprint := Footprint (λ _, False) True True False.

(** ** The concrete scenario of the examples *)

(** The world an outcome ends in. *)
Definition world_after {A} (o : outcome A) : World :=
  match o with
  | Returns _ w | Raises _ w => w
  | _ => empty_world
  end.

(** The first authority and the first two relays of the registries, as
    [module_init] builds them in [demo_env]. *)
Definition demo_ha123 : HomeAgent.t :=
  HomeAgent.mk "HA123" "192.168.1.1" "shared_secret_mn_ha" "token0" ∅ {["HA456"; "HA789"]}.

Definition demo_fa123 : ForeignAgent.t := ForeignAgent.mk "FA123" "192.168.2.1" "token3".

Definition demo_fa456 : ForeignAgent.t := ForeignAgent.mk "FA456" "192.168.2.2" "token4".

Definition demo_ha456 : HomeAgent.t :=
  HomeAgent.mk "HA456" "192.168.1.2" "shared_secret_mn_ha" "token1" ∅ {["HA123"; "HA789"]}.

(** The world in which [module_init] builds the first relay: the three
    authorities exist already. *)
Definition demo_world0 : World :=
  world_after (HomeAgent_init demo_env 0 "HA789" (Some "192.168.1.3")
    (world_after (HomeAgent_init demo_env 0 "HA456" (Some "192.168.1.2")
      (world_after (HomeAgent_init demo_env 0 "HA123" (Some "192.168.1.1") empty_world))))).

(** A node [MN1] at home with the first authority: as constructed, and as
    [initiate_registration] leaves it. *)
Definition demo_mn1_new : MobileNode.t :=
  MobileNode.mk "MN1" None None "token6" "10.1.0.0" 0 0.

Definition demo_mn1 : MobileNode.t :=
  MobileNode.mk "MN1" None (Some "sha256(MN1token6)") "token6" "10.1.0.0" 0 0.

Definition demo_request1 : Registration.t :=
  Registration.init "registration" 0 (request_data demo_mn1).

(** The world after [MN1] was constructed, and after it registered through
    the first relay. *)
Definition demo_world1 : World :=
  world_after (MobileNode_init demo_env 1 "MN1" 0 demo_world).

Definition demo_world2 : World :=
  world_after (initiate_registration demo_env demo_mn1_new 0 demo_fa123 demo_world1).

(** A second node [MN2], constructed after that, with the same home. *)
Definition demo_mn2 : MobileNode.t :=
  MobileNode.mk "MN2" None (Some "sha256(MN2token7)") "token7" "10.1.0.1" 0 0.

Definition demo_request2 : Registration.t :=
  Registration.init "registration" 0 (request_data demo_mn2).

Definition demo_world3 : World :=
  world_after (MobileNode_init demo_env 1 "MN2" 0 demo_world2).

(** The first authority once it holds the Binding of [MN1]. *)
Definition demo_ha123_bound : HomeAgent.t :=
  HomeAgent.set_bindings
    (λ b, <["MN1" := spec_binding demo_env demo_ha123 demo_fa123 (request_data demo_mn1)]> b)
    demo_ha123.

(** [MN1] after its first move, to the second authority, and the world
    that move leaves. *)
Definition demo_mn1_moved : MobileNode.t :=
  MobileNode.mk "MN1" None (Some "sha256(MN1token7)") "token7" "10.1.0.1" 1 0.

Definition demo_world4 : World :=
  world_after (move_to_new_network demo_env 5 demo_mn1 1 demo_fa123 demo_world2).

(** Some traffic on the address pool. *)
Definition demo_pool_ops : list pool_op :=
  [Assign 3 "mn"; Assign 5 "ha"; Assign 3 "router"; Release "10.1.0.0"; Assign 300 "mn"].

(** ** The rest of [main.py] *)

Section Console.

Variable E : Env.

(** [NetworkHelper.remove_route]: like [add_route], it catches every
    exception of the subprocess. *)
Definition remove_route (destination : string) : M unit :=
  let command := ["sudo"; "route"; "-n"; "delete"; destination] in
  n ← gets run_calls;
  modify (set_run_calls S);;
  match subprocess_run E n command with
  | Completed => print ("Successfully removed route to " +:+ destination)
  | CalledProcessError e => print ("Failed to remove route: " +:+ e)
  | OtherError e => print ("Unexpected error: " +:+ e)
  end.

End Console.

(** *** [print_mesh_topology]

    Python's [len] of a string counts code points.  The strings of the
    embedding are the UTF-8 bytes of the Python strings, so the code points
    are the bytes that are not continuation bytes (those from 128 to
    191). *)
Fixpoint len (s : string) : nat :=
  match s with
  | EmptyString => 0
  | String a s' =>
      (if decide (128 ≤ Ascii.nat_of_ascii a < 192) then 0 else 1) + len s'
  end.

Fixpoint spaces (n : nat) : string :=
  match n with
  | 0 => ""
  | S n' => " " +:+ spaces n'
  end.

(** [f"{s:>width}"] and [f"{s:<width}"] for a string [s]: padded with
    spaces to the width, never cut. *)
Definition rjust (width : nat) (s : string) : string := spaces (width - len s) +:+ s.

Definition ljust (width : nat) (s : string) : string := s +:+ spaces (width - len s).

(** The row of the table for the authority registered as [ha_id] whose
    peers are [peers]. *)
Definition mesh_row (ha_ids : list string) (ha_id : string) (peers : gset string) : string :=
  ljust 3 ha_id
  +:+ String.concat ""
        ((λ peer_id, if decide (peer_id ∈ peers) then rjust 8 "✓" else rjust 8 " ") <$> ha_ids).

(** [print_mesh_topology].  The calls [print(..., end="")] that build a
    line, up to the [print()] that ends it, are one entry of [stdout]. *)
Definition print_mesh_topology : M unit :=
  has ← gets ha_registry;
  if decide (has = []) then
    print "No Home Agents in the network. Mesh topology is empty."
  else
    print (nl +:+ "Mesh Topology of Home Agents:" +:+ nl);;
    let ha_ids := has.*1 in
    print ("   " +:+ String.concat "" (rjust 8 <$> ha_ids));;
    for_each ha_ids (λ ha_id,
      registry ← gets ha_registry;
      match dict_get ha_id registry with
      | None => raise (KeyError ha_id)
      | Some ha =>
          h ← deref ha;
          print (mesh_row ha_ids ha_id (HomeAgent.peers h))
      end);;
    print (nl +:+ "Legend: ✓ indicates a connection between the Home Agents." +:+ nl).

(** *** The selection menu of [move_mobile_node]

    The key codes [curses] gives to the arrow keys and to the keypad's
    Enter key. *)
Record Curses := mkCurses {
  KEY_UP : Z;
  KEY_DOWN : Z;
  KEY_ENTER : Z }.

(** The [while True] loop of [network_selection_menu], for a list of [n]
    available networks, run on the keys [getch] returns one after the
    other: the index it returns, or [None] while it is still waiting for a
    key.  What the loop draws goes to the terminal screen, not to standard
    output, and is left out. *)
Fixpoint network_selection_loop (C : Curses) (n : nat) (keys : list Z) (selected_index : Z)
    : option Z :=
  match keys with
  | [] => None
  | key :: keys' =>
      if decide (key = KEY_UP C ∧ (selected_index > 0)%Z) then
        network_selection_loop C n keys' (selected_index - 1)
      else if decide (key = KEY_DOWN C ∧ (selected_index < Z.of_nat n - 1)%Z) then
        network_selection_loop C n keys' (selected_index + 1)
      else if decide (key ∈ [KEY_ENTER C; 10%Z; 13%Z]) then Some selected_index
      else network_selection_loop C n keys' selected_index
  end.

Definition network_selection_menu (C : Curses) (n : nat) (keys : list Z) : option Z :=
  network_selection_loop C n keys 0.

(** The key codes of ncurses. *)
Definition ncurses : Curses := mkCurses 259 258 343.

(** The list [move_mobile_node] offers for the node [mn_id] in the world
    [w]: empty when the node is not registered. *)
Definition networks_offered (w : World) (mn_id : string)
    : list (string * loc * string * ForeignAgent.t) :=
  match dict_get mn_id (mn_registry w) with
  | Some mn =>
      match heap w !! MobileNode.home_agent mn with
      | Some cur => available_networks (HomeAgent.identity cur) (ha_registry w) (fa_registry w)
      | None => []
      end
  | None => []
  end.

(** *** More invariants of the running program *)

(** Every registry entry names an allocated authority by the authority's
    own identity. *)
Definition registry_named (w : World) : Prop :=
  ∀ k l, (k, l) ∈ ha_registry w → ∃ h, heap w !! l = Some h ∧ HomeAgent.identity h = k.

(** The mesh is complete: every registered authority peers with all the
    other registered identifiers. *)
Definition mesh_complete (w : World) : Prop :=
  ∀ k l, (k, l) ∈ ha_registry w →
    ∃ h, heap w !! l = Some h ∧ HomeAgent.peers h = others k (ha_registry w).

(** The node registered as [k] has a Binding with its current care-of
    address at the authority it is attached to. *)
Definition node_attached (w : World) (k : string) (mn : MobileNode.t) : Prop :=
  ∃ c b, heap w !! MobileNode.home_agent mn = Some c
         ∧ HomeAgent.bindings c !! k = Some b
         ∧ Binding.coa b = MobileNode.coa mn.

(** No Binding is stale: whatever Binding an authority holds belongs to a
    registered node, the authority is the node's original or its current
    one, and the Binding carries the node's current care-of address. *)
Definition bindings_current (w : World) : Prop :=
  ∀ l h k b, heap w !! l = Some h → HomeAgent.bindings h !! k = Some b →
    ∃ mn, dict_get k (mn_registry w) = Some mn
          ∧ (l = MobileNode.original_ha mn ∨ l = MobileNode.home_agent mn)
          ∧ Binding.coa b = MobileNode.coa mn.

(** The addresses in use: those of the authorities in the store, of the
    registered relays and of the registered nodes. *)
Definition addresses_in_use (w : World) : list string :=
  (HomeAgent.ip_address <$> heap w)
  ++ (ForeignAgent.ip_address <$> (fa_registry w).*2)
  ++ (MobileNode.coa <$> (mn_registry w).*2).

Definition system_inv (w : World) : Prop :=
  registry_named w
  ∧ NoDup (ha_registry w).*1
  ∧ ha_registry w ≠ []
  ∧ mesh_complete w
  ∧ (∀ k mn, (k, mn) ∈ mn_registry w → node_attached w k mn)
  ∧ bindings_current w
  ∧ NoDup (addresses_in_use w)
  ∧ (∀ a, a ∈ addresses_in_use w → a ∈ assigned_ips w).

(** *** More of the scenario

    [MN1] is enrolled through the menu and moved twice; and, from the first
    world again, a network is added under a new authority identifier and
    a registered relay identifier, and [MN1] is enrolled after that. *)
Definition demo_world_enrolled : World :=
  world_after (add_mobile_node demo_env 5 "MN1" demo_world).

Definition demo_world_moved : World :=
  world_after (move_mobile_node demo_env 5 "MN1" 0 demo_world_enrolled).

Definition demo_world_moved_twice : World :=
  world_after (move_mobile_node demo_env 5 "MN1" 1 demo_world_moved).

Definition demo_world_uneven : World :=
  world_after (add_mobile_node demo_env 5 "MN1"
                 (world_after (add_network demo_env 5 "HA999" "FA123" demo_world))).

(** ** Running the monad *)

Section Runs.
Context (E : Env).

Lemma run_bind {A B} (m : M A) (k : A → M B) w :
  (m ≫= k) w = match m w with
               | Returns a w' => k a w'
               | Raises e w' => Raises e w'
               | OutOfFuel => OutOfFuel
               | BadRef => BadRef
               end.
Proof. reflexivity. Qed.

Lemma run_ret {A} (a : A) w : (mret a : M A) w = Returns a w.
Proof. reflexivity. Qed.

Lemma run_gets {A} (f : World → A) w : gets f w = Returns (f w) w.
Proof. reflexivity. Qed.

Lemma run_modify f w : modify f w = Returns tt (f w).
Proof. reflexivity. Qed.

Lemma run_print line w : print line w = Returns tt (set_stdout (λ out, out ++ [line]) w).
Proof. reflexivity. Qed.

Lemma run_deref l h w : heap w !! l = Some h → deref l w = Returns h w.
Proof. intros H. unfold deref. by rewrite H. Qed.

Lemma run_update l f h w :
  heap w !! l = Some h → update l f w = Returns tt (set_heap (λ hp, <[l := f h]> hp) w).
Proof. intros H. unfold update. by rewrite H. Qed.

Lemma run_generate_nonce w :
  generate_nonce E w = Returns (token_hex_16 E (token_calls w)) (set_token_calls S w).
Proof. reflexivity. Qed.

Lemma run_add_route destination gateway w :
  add_route E destination gateway w =
  Returns tt (set_stdout (λ out, out ++ [add_route_line E w destination gateway])
                (set_run_calls S w)).
Proof.
  unfold add_route, add_route_line.
  rewrite run_bind, run_gets, run_bind, run_modify.
  by destruct (subprocess_run _ _ _).
Qed.

End Runs.

(** One step of a run: open the first bind, run the primitive under it. *)
Ltac run :=
  repeat (first [ rewrite run_bind | rewrite run_ret | rewrite run_gets | rewrite run_modify
                | rewrite run_print | rewrite run_generate_nonce | rewrite run_add_route ];
          cbv beta iota).

Section Registration.
Context (E : Env).

(** The world a successful [process_registration] leaves behind. *)
Lemma run_process_registration_ok self ha fa mn registration w :
  heap w !! self = Some ha →
  RequestData.temp_identity (Registration.data registration) =
    Some (spec_temp_identity E (MobileNode.identity mn)
            (RequestData.nonce_mn (Registration.data registration))) →
  process_registration E self fa mn registration w =
  Returns (Response.mk "success" (spec_binding E ha fa (Registration.data registration)))
    (registered E self ha fa mn (Registration.data registration) w).
Proof.
  intros Hself Hid. unfold process_registration.
  rewrite decide_True by exact Hid.
  rewrite run_bind, (run_deref _ _ _ Hself).
  rewrite run_bind, (run_update _ _ _ _ Hself).
  rewrite run_bind, run_add_route.
  assert (Hlen : self < length (heap w)) by (by eapply lookup_lt_Some).
  rewrite run_bind.
  erewrite run_deref; last by (simpl; apply list_lookup_insert_eq).
  simpl. by rewrite lookup_insert_eq.
Qed.

Lemma run_process_registration_fail self fa mn registration w :
  RequestData.temp_identity (Registration.data registration) ≠
    Some (spec_temp_identity E (MobileNode.identity mn)
            (RequestData.nonce_mn (Registration.data registration))) →
  process_registration E self fa mn registration w =
  Raises (Exception "Invalid registration data") w.
Proof.
  intros Hid. unfold process_registration. by rewrite decide_False by exact Hid.
Qed.

(** ** Authentication (C1) *)


(** ** The stored Binding (C2) *)

(** C2.  A registration whose temporary identity checks out returns, stores
    at the authority, under the node identity, the Binding of the
    specification, and hands that same Binding back; its session key is
    the HMAC under the authority's shared secret of the request nonce, the
    authority's own nonce and the relay identity, in this order, and its
    other fields are the request's temporary identity and care-of address,
    the authority's nonce and the relay's address. *)
Theorem registration_stores_spec_binding self ha fa mn registration w :
  heap w !! self = Some ha →
  RequestData.temp_identity (Registration.data registration) =
    Some (spec_temp_identity E (MobileNode.identity mn)
            (RequestData.nonce_mn (Registration.data registration))) →
  ∃ r w' ha',
    process_registration E self fa mn registration w = Returns r w'
    ∧ heap w' !! self = Some ha'
    ∧ HomeAgent.bindings ha' !! MobileNode.identity mn = Some (Response.binding r)
    ∧ Response.binding r = spec_binding E ha fa (Registration.data registration)
    ∧ Binding.shared_key_mn_fa (Response.binding r) =
        generate_hmac E (HomeAgent.shared_key_mn_ha ha)
          (RequestData.nonce_mn (Registration.data registration)
           +:+ HomeAgent.nonce_ha ha +:+ ForeignAgent.identity fa)
    ∧ Response.binding r =
        Binding.mk (RequestData.temp_identity (Registration.data registration))
          (Binding.shared_key_mn_fa (Response.binding r))
          (HomeAgent.nonce_ha ha)
          (RequestData.coa (Registration.data registration))
          (ForeignAgent.ip_address fa).
Proof.
  intros Hself Hid.
  rewrite (run_process_registration_ok _ _ _ _ _ _ Hself Hid).
  eexists _, _, _. split; [reflexivity|]. simpl.
  split; [apply list_lookup_insert_eq; by eapply lookup_lt_Some|].
  simpl. by rewrite lookup_insert_eq.
Qed.

(** ** One Binding per node and authority (C8) *)

(** C8.  When the authority already holds a Binding for the node, a
    successful registration (of either request type: the type is not looked
    at) replaces it.  The response carries the Binding built from this
    request, as [spec_binding] gives it, and the bindings of the authority
    afterwards are the old ones with that Binding written under the node's
    identity: the key set and the number of entries stay as they were, the
    other entries are untouched, and the old Binding, when it differs from
    the new one, is no longer filed under the node's identity.  No other
    authority of the store changes.  The bindings are a dictionary: the
    list of its entries never names a key twice. *)
Theorem registration_replaces_binding self ha fa mn registration w old :
  heap w !! self = Some ha →
  HomeAgent.bindings ha !! MobileNode.identity mn = Some old →
  RequestData.temp_identity (Registration.data registration) =
    Some (spec_temp_identity E (MobileNode.identity mn)
            (RequestData.nonce_mn (Registration.data registration))) →
  ∃ r w' ha',
    process_registration E self fa mn registration w = Returns r w'
    ∧ heap w' !! self = Some ha'
    ∧ Response.binding r = spec_binding E ha fa (Registration.data registration)
    ∧ HomeAgent.bindings ha' =
        <[MobileNode.identity mn := spec_binding E ha fa (Registration.data registration)]>
          (HomeAgent.bindings ha)
    ∧ HomeAgent.bindings ha' !! MobileNode.identity mn = Some (Response.binding r)
    ∧ dom (HomeAgent.bindings ha') = dom (HomeAgent.bindings ha)
    ∧ size (HomeAgent.bindings ha') = size (HomeAgent.bindings ha)
    ∧ (∀ k, k ≠ MobileNode.identity mn →
         HomeAgent.bindings ha' !! k = HomeAgent.bindings ha !! k)
    ∧ (old ≠ Response.binding r →
       ∀ k, HomeAgent.bindings ha' !! k = Some old →
            k ≠ MobileNode.identity mn ∧ HomeAgent.bindings ha !! k = Some old)
    ∧ length (heap w') = length (heap w)
    ∧ (∀ l, l ≠ self → heap w' !! l = heap w !! l)
    ∧ NoDup (map_to_list (HomeAgent.bindings ha')).*1.
Proof.
  intros Hself Hold Hid.
  rewrite (run_process_registration_ok _ _ _ _ _ _ Hself Hid).
  eexists _, _, _. split; [reflexivity|]. simpl.
  split; [apply list_lookup_insert_eq; by eapply lookup_lt_Some|].
  simpl. split; [done|]. split; [done|].
  split; [by rewrite lookup_insert_eq|].
  split; [by apply dom_insert_lookup_L|].
  split; [by erewrite map_size_insert_Some|].
  split; [intros k Hk; by rewrite lookup_insert_ne|].
  split.
  { intros Hne k Hk. destruct (decide (k = MobileNode.identity mn)) as [->|Hk'].
    - rewrite lookup_insert_eq in Hk. by injection Hk as <-.
    - by rewrite lookup_insert_ne in Hk. }
  split; [by rewrite length_insert|].
  split; [intros l Hl; by rewrite list_lookup_insert_ne|].
  apply NoDup_fst_map_to_list.
Qed.

End Registration.

(** ** Route installation does not decide the registration (C9) *)

(** C9.  For a request that passes validation, whatever the [route]
    subprocess does, and also when it fails at every call, the registration
    returns the same success response and leaves the same store of
    authorities, with the Binding in place; only the printed line tells
    the outcomes apart. *)
Theorem binding_stands_without_route (E : Env) self ha fa mn registration w run :
  heap w !! self = Some ha →
  RequestData.temp_identity (Registration.data registration) =
    Some (spec_temp_identity E (MobileNode.identity mn)
            (RequestData.nonce_mn (Registration.data registration))) →
  ∃ r w1 w2 ha',
    process_registration (with_subprocess_run E run) self fa mn registration w = Returns r w1
    ∧ process_registration (with_subprocess_run E route_always_fails) self fa mn registration w
      = Returns r w2
    ∧ Response.status r = "success"
    ∧ heap w1 = heap w2
    ∧ heap w2 !! self = Some ha'
    ∧ HomeAgent.bindings ha' !! MobileNode.identity mn = Some (Response.binding r)
    ∧ stdout w2 = stdout w ++ ["Failed to add route: Command returned non-zero exit status 1."].
Proof.
  intros Hself Hid.
  rewrite (run_process_registration_ok (with_subprocess_run E run) _ _ _ _ _ _ Hself Hid).
  rewrite (run_process_registration_ok (with_subprocess_run E route_always_fails)
             _ _ _ _ _ _ Hself Hid).
  eexists _, _, _, _. split; [reflexivity|]. split; [reflexivity|]. simpl.
  repeat split.
  - apply list_lookup_insert_eq. by eapply lookup_lt_Some.
  - simpl. by rewrite lookup_insert_eq.
Qed.

(** ** Address assignment *)

Section Addresses.
Context (E : Env).

(** What a returning [assign_ip] loop did: it consumed random draws up to
    some count [c], the last of which named an address that was free. *)
Lemma assign_ip_loop_Returns fuel network_id entity_type w ip w' :
  assign_ip_loop E fuel network_id entity_type w = Returns ip w' →
  ∃ c, (randbelow_calls w < c)
       ∧ ip = (network_id +:+ "." +:+ pretty (secrets_randbelow E (pred c) 255))
       ∧ (ip ∉ assigned_ips w)
       ∧ w' = set_stdout (λ out, out ++ ["Assigned IP " +:+ ip +:+ " to " +:+ entity_type])
                (set_assigned_ips (λ s, s ∪ {[ip]}) (set_randbelow_calls (λ _, c) w)).
Proof.
  revert w. induction fuel as [|fuel IH]; intros w; [done|].
  cbn [assign_ip_loop]. unfold randbelow. run.
  case_decide as Hin.
  - intros Hrun. destruct (IH _ Hrun) as (c & Hc & Hip & Hfree & Hw').
    simpl in *. exists c. split; [lia|]. done.
  - run. intros [= <- <-]. exists (S (randbelow_calls w)). split; [lia|]. done.
Qed.

(** The loop raises nothing and follows no reference. *)
Lemma assign_ip_loop_outcome fuel network_id entity_type w :
  (∃ ip w', assign_ip_loop E fuel network_id entity_type w = Returns ip w')
  ∨ assign_ip_loop E fuel network_id entity_type w = OutOfFuel.
Proof.
  revert w. induction fuel as [|fuel IH]; intros w; [by right|].
  cbn [assign_ip_loop]. unfold randbelow. run.
  case_decide; [apply IH|]. run. left. eauto.
Qed.

Lemma assign_ip_Returns fuel entity_type w ip w' :
  assign_ip E fuel entity_type w = Returns ip w' →
  ∃ network_id c,
    network_id_map !! entity_type = Some network_id
    ∧ (randbelow_calls w < c)
    ∧ ip = (network_id +:+ "." +:+ pretty (secrets_randbelow E (pred c) 255))
    ∧ (ip ∉ assigned_ips w)
    ∧ w' = set_stdout (λ out, out ++ ["Assigned IP " +:+ ip +:+ " to " +:+ entity_type])
             (set_assigned_ips (λ s, s ∪ {[ip]}) (set_randbelow_calls (λ _, c) w)).
Proof.
  unfold assign_ip. destruct (network_id_map !! entity_type) as [nid|]; [|done].
  intros Hrun. apply assign_ip_loop_Returns in Hrun as (c & ?). eauto.
Qed.

Lemma assign_ip_known_outcome fuel entity_type network_id w :
  network_id_map !! entity_type = Some network_id →
  (∃ ip w', assign_ip E fuel entity_type w = Returns ip w')
  ∨ assign_ip E fuel entity_type w = OutOfFuel.
Proof. intros Hk. unfold assign_ip. rewrite Hk. apply assign_ip_loop_outcome. Qed.

Lemma network_id_map_mn : network_id_map !! "mn" = Some "10.1.0".
Proof. reflexivity. Qed.

Lemma network_id_map_ha : network_id_map !! "ha" = Some "192.168.1".
Proof. reflexivity. Qed.

Lemma network_id_map_fa : network_id_map !! "fa" = Some "192.168.2".
Proof. reflexivity. Qed.

End Addresses.

(** The loop is still running after [fuel] draws exactly when each of them
    named an address that is held. *)
Lemma assign_ip_loop_OutOfFuel (E : Env) fuel network_id entity_type w :
  assign_ip_loop E fuel network_id entity_type w = OutOfFuel ↔
  ∀ k, k < fuel →
    network_id +:+ "." +:+ pretty (secrets_randbelow E (randbelow_calls w + k) 255) ∈ assigned_ips w.
Proof.
  revert w. induction fuel as [|fuel IH]; intros w.
  { split; [intros _ k Hk; lia|done]. }
  cbn [assign_ip_loop]. unfold randbelow. run.
  case_decide as Hin.
  - rewrite IH. simpl. split.
    + intros Hall [|k] Hk.
      * by rewrite Nat.add_0_r.
      * replace (randbelow_calls w + S k) with (S (randbelow_calls w + k)) by lia.
        apply Hall. lia.
    + intros Hall k Hk.
      replace (S (randbelow_calls w + k)) with (randbelow_calls w + S k) by lia.
      apply Hall. lia.
  - run. split; [done|]. intros Hall. destruct Hin.
    specialize (Hall 0). rewrite Nat.add_0_r in Hall. apply Hall. lia.
Qed.

(** ** Relay and node *)

Section Mobility.
Context (E : Env).

Lemma run_handle_registration_request_ok fa mn ha h registration w :
  heap w !! ha = Some h →
  RequestData.temp_identity (Registration.data registration) =
    Some (spec_temp_identity E (MobileNode.identity mn)
            (RequestData.nonce_mn (Registration.data registration))) →
  handle_registration_request E fa mn ha registration w =
  Returns (Response.mk "success" (spec_binding E h fa (Registration.data registration)),
           Registration.add_nonce registration (ForeignAgent.nonce_fa fa))
    (registered E ha h fa mn (Registration.data registration) w).
Proof.
  intros Hha Hid. unfold handle_registration_request.
  rewrite run_bind.
  by rewrite (run_process_registration_ok E ha h fa mn
                (Registration.add_nonce registration (ForeignAgent.nonce_fa fa)) w Hha Hid).
Qed.

(** Whatever the authority answers, a returned request carries the nonce
    the relay was built with, and no token was drawn. *)
Lemma handle_registration_request_Returns fa mn ha registration w r stamped w' :
  handle_registration_request E fa mn ha registration w = Returns (r, stamped) w' →
  stamped = Registration.add_nonce registration (ForeignAgent.nonce_fa fa)
  ∧ token_calls w' = token_calls w.
Proof.
  unfold handle_registration_request. rewrite run_bind.
  destruct (decide (RequestData.temp_identity (Registration.data registration) =
    Some (spec_temp_identity E (MobileNode.identity mn)
            (RequestData.nonce_mn (Registration.data registration))))) as [Hid|Hne].
  - destruct (heap w !! ha) as [h|] eqn:Hha.
    + rewrite (run_process_registration_ok E ha h fa mn
                 (Registration.add_nonce registration (ForeignAgent.nonce_fa fa)) w Hha Hid).
      run. by intros [= <- <- <-].
    + unfold process_registration. rewrite decide_True by exact Hid.
      rewrite run_bind. unfold deref. by rewrite Hha.
  - by rewrite (run_process_registration_fail E ha fa mn
                  (Registration.add_nonce registration (ForeignAgent.nonce_fa fa)) w Hne).
Qed.

Lemma run_re_register_with_original_ha mn fa o w :
  heap w !! MobileNode.original_ha mn = Some o →
  MobileNode.temp_identity mn =
    Some (spec_temp_identity E (MobileNode.identity mn) (MobileNode.nonce_mn mn)) →
  re_register_with_original_ha E mn fa w =
  Returns (Response.mk "success" (spec_binding E o fa (request_data mn)),
           Registration.add_nonce
             (Registration.init "re-registration" (MobileNode.original_ha mn) (request_data mn))
             (ForeignAgent.nonce_fa fa))
    (registered E (MobileNode.original_ha mn) o fa mn (request_data mn)
       (set_stdout (λ out, out ++ ["Re-registering MN " +:+ MobileNode.identity mn
                                   +:+ " with original Home Agent "
                                   +:+ HomeAgent.identity o +:+ "."]) w)).
Proof.
  intros Ho Hid. unfold re_register_with_original_ha.
  rewrite run_bind, (run_deref _ _ _ Ho). run.
  by rewrite (run_handle_registration_request_ok fa mn _ o).
Qed.

(** A move whose address loop ends returns, and this is the world it
    leaves. *)
Lemma run_move_to_new_network fuel mn ha fa w o n coa w1 :
  heap w !! MobileNode.original_ha mn = Some o →
  heap w !! ha = Some n →
  assign_ip E fuel "mn"
    (set_stdout (λ out, out ++ ["MobileNode " +:+ MobileNode.identity mn
                                +:+ " moving to a new Foreign Network."]) w)
  = Returns coa w1 →
  move_to_new_network E fuel mn ha fa w =
  let mn' := moved E mn ha coa (token_hex_16 E (token_calls w)) in
  let w2 :=
    registered E (MobileNode.original_ha mn) o fa mn' (request_data mn')
      (set_stdout (λ out, out ++ ["Re-registering MN " +:+ MobileNode.identity mn
                                  +:+ " with original Home Agent "
                                  +:+ HomeAgent.identity o +:+ "."])
         (set_token_calls S w1)) in
  Returns (Response.mk "success"
             (spec_binding E (after_re_registration E fa mn' ha o n) fa (request_data mn')), mn')
    (registered E ha (after_re_registration E fa mn' ha o n) fa mn' (request_data mn') w2).
Proof.
  intros Ho Hn Hassign. unfold move_to_new_network. run. rewrite Hassign. cbv beta iota.
  apply assign_ip_Returns in Hassign as (nid & c & _ & _ & _ & _ & ->).
  run. simpl token_calls.
  change (MobileNode.mk _ _ _ _ _ _ _)
    with (moved E mn ha coa (token_hex_16 E (token_calls w))).
  set (mn' := moved E mn ha coa (token_hex_16 E (token_calls w))).
  erewrite (run_re_register_with_original_ha mn' fa o); [|exact Ho|reflexivity].
  cbv beta iota.
  rewrite run_bind.
  erewrite (run_handle_registration_request_ok fa mn' ha (after_re_registration E fa mn' ha o n));
    [|simpl|reflexivity].
  - by run.
  - unfold after_re_registration. case_decide as Heq.
    + rewrite Heq. apply list_lookup_insert_eq. by eapply lookup_lt_Some.
    + rewrite list_lookup_insert_ne by done. exact Hn.
Qed.

(** A move that returns has found a free address and did what
    [run_move_to_new_network] says. *)
Lemma move_to_new_network_Returns fuel mn ha fa w o n r mn' w' :
  heap w !! MobileNode.original_ha mn = Some o →
  heap w !! ha = Some n →
  move_to_new_network E fuel mn ha fa w = Returns (r, mn') w' →
  ∃ coa c,
    (randbelow_calls w < c)
    ∧ coa = ("10.1.0" +:+ "." +:+ pretty (secrets_randbelow E (pred c) 255))
    ∧ (coa ∉ assigned_ips w)
    ∧ mn' = moved E mn ha coa (token_hex_16 E (token_calls w))
    ∧ r = Response.mk "success"
            (spec_binding E (after_re_registration E fa mn' ha o n) fa (request_data mn'))
    ∧ heap w' =
        <[ha := HomeAgent.set_bindings
                  (λ b, <[MobileNode.identity mn :=
                          spec_binding E (after_re_registration E fa mn' ha o n) fa
                            (request_data mn')]> b)
                  (after_re_registration E fa mn' ha o n)]>
          (<[MobileNode.original_ha mn :=
               HomeAgent.set_bindings
                 (λ b, <[MobileNode.identity mn := spec_binding E o fa (request_data mn')]> b) o]>
             (heap w))
    ∧ assigned_ips w' = assigned_ips w ∪ {[coa]}
    ∧ token_calls w' = S (token_calls w).
Proof.
  intros Ho Hn Hrun.
  destruct (assign_ip_known_outcome E fuel "mn" "10.1.0"
              (set_stdout (λ out, out ++ ["MobileNode " +:+ MobileNode.identity mn
                                          +:+ " moving to a new Foreign Network."]) w)
              network_id_map_mn) as [(coa & w1 & Hassign)|Hout].
  - rewrite (run_move_to_new_network fuel mn ha fa w o n coa w1 Ho Hn Hassign) in Hrun.
    cbv zeta in Hrun. injection Hrun as <- <- <-.
    apply assign_ip_Returns in Hassign as (nid & c & Hnid & Hc & Hcoa & Hfree & ->).
    rewrite network_id_map_mn in Hnid. injection Hnid as <-.
    exists coa, c. simpl in *. done.
  - unfold move_to_new_network in Hrun. revert Hrun. run. by rewrite Hout.
Qed.

(** ** Mobility keeps the node reachable at home (C3) *)

(** C3.  A move between valid authorities cannot raise.  It returns unless
    every one of the [fuel] draws of the address loop names a held
    address, and when it returns the node has a care-of address that was
    free before and is held now, the original authority holds a Binding for
    the node with that care-of address (so the re-registration went to the
    original authority, wherever the node attaches now), and so does the
    new authority, whose Binding is the one returned. *)
Theorem move_keeps_home_binding fuel mn ha fa w o n :
  heap w !! MobileNode.original_ha mn = Some o →
  heap w !! ha = Some n →
  match move_to_new_network E fuel mn ha fa w with
  | Returns (r, mn') w' =>
      MobileNode.identity mn' = MobileNode.identity mn
      ∧ MobileNode.original_ha mn' = MobileNode.original_ha mn
      ∧ MobileNode.home_agent mn' = ha
      ∧ (MobileNode.coa mn' ∉ assigned_ips w)
      ∧ MobileNode.coa mn' ∈ assigned_ips w'
      ∧ (∃ o' b, heap w' !! MobileNode.original_ha mn = Some o'
                 ∧ HomeAgent.bindings o' !! MobileNode.identity mn = Some b
                 ∧ Binding.coa b = MobileNode.coa mn')
      ∧ (∃ n' b, heap w' !! ha = Some n'
                 ∧ HomeAgent.bindings n' !! MobileNode.identity mn = Some b
                 ∧ Binding.coa b = MobileNode.coa mn'
                 ∧ Response.binding r = b)
  | Raises _ _ => False
  | OutOfFuel =>
      ∀ k, k < fuel →
        "10.1.0" +:+ "." +:+ pretty (secrets_randbelow E (randbelow_calls w + k) 255) ∈ assigned_ips w
  | BadRef => False
  end.
Proof.
  intros Ho Hn.
  assert (Ho' : MobileNode.original_ha mn < length (heap w)) by (by eapply lookup_lt_Some).
  assert (Hn' : ha < length (heap w)) by (by eapply lookup_lt_Some).
  destruct (assign_ip_known_outcome E fuel "mn" "10.1.0"
              (set_stdout (λ out, out ++ ["MobileNode " +:+ MobileNode.identity mn
                                          +:+ " moving to a new Foreign Network."]) w)
              network_id_map_mn) as [(coa & w1 & Hassign)|Hout].
  - pose proof (run_move_to_new_network fuel mn ha fa w o n coa w1 Ho Hn Hassign) as Hrun.
    cbv zeta in Hrun.
    destruct (move_to_new_network_Returns fuel mn ha fa w o n _ _ _ Ho Hn Hrun)
      as (coa' & c & _ & _ & Hfree & Hmn' & _ & Hheap & Hips & _).
    rewrite Hrun.
    assert (coa' = coa) as -> by (by injection Hmn').
    repeat split; try done.
    + rewrite Hips, elem_of_union, elem_of_singleton. by right.
    + rewrite Hheap. destruct (decide (ha = MobileNode.original_ha mn)) as [->|Hne].
      * eexists _, _. split; [apply list_lookup_insert_eq; by rewrite length_insert|].
        simpl. by rewrite lookup_insert_eq.
      * eexists _, _. rewrite list_lookup_insert_ne by done.
        split; [by apply list_lookup_insert_eq|]. simpl. by rewrite lookup_insert_eq.
    + rewrite Hheap. eexists _, _.
      split; [apply list_lookup_insert_eq; by rewrite length_insert|].
      simpl. by rewrite lookup_insert_eq.
  - assert (move_to_new_network E fuel mn ha fa w = OutOfFuel) as ->.
    { unfold move_to_new_network. run. by rewrite Hout. }
    unfold assign_ip in Hout. rewrite network_id_map_mn in Hout.
    exact (proj1 (assign_ip_loop_OutOfFuel E fuel "10.1.0" "mn" _) Hout).
Qed.

(** ** The constructors *)

Lemma HomeAgent_init_Returns fuel identity ip_address w l w' :
  HomeAgent_init E fuel identity ip_address w = Returns l w' →
  ∃ ip,
    l = length (heap w)
    ∧ heap w' = heap w ++ [HomeAgent.mk identity ip "shared_secret_mn_ha"
                             (token_hex_16 E (token_calls w)) ∅ ∅]
    ∧ token_calls w' = S (token_calls w)
    ∧ ha_registry w' = ha_registry w.
Proof.
  unfold HomeAgent_init. rewrite run_bind.
  destruct (truthy ip_address) as [ip|].
  - run. unfold new_ha. intros [= <- <-]. by exists ip.
  - destruct (assign_ip E fuel "ha" w) as [ip w1| | |] eqn:Hassign; try done.
    apply assign_ip_Returns in Hassign as (nid & c & _ & _ & _ & _ & ->).
    run. unfold new_ha. intros [= <- <-]. by exists ip.
Qed.

Lemma ForeignAgent_init_Returns fuel identity ip_address w fa w' :
  ForeignAgent_init E fuel identity ip_address w = Returns fa w' →
  ForeignAgent.identity fa = identity
  ∧ ForeignAgent.nonce_fa fa = token_hex_16 E (token_calls w)
  ∧ token_calls w' = S (token_calls w)
  ∧ heap w' = heap w
  ∧ ha_registry w' = ha_registry w.
Proof.
  unfold ForeignAgent_init. rewrite run_bind.
  destruct (truthy ip_address) as [ip|].
  - run. by intros [= <- <-].
  - destruct (assign_ip E fuel "fa" w) as [ip w1| | |] eqn:Hassign; try done.
    apply assign_ip_Returns in Hassign as (nid & c & _ & _ & _ & _ & ->).
    run. by intros [= <- <-].
Qed.

Lemma MobileNode_init_Returns fuel identity home_agent w mn w' :
  MobileNode_init E fuel identity home_agent w = Returns mn w' →
  MobileNode.identity mn = identity
  ∧ MobileNode.nonce_mn mn = token_hex_16 E (token_calls w)
  ∧ MobileNode.original_ha mn = home_agent
  ∧ MobileNode.home_agent mn = home_agent
  ∧ (MobileNode.coa mn ∉ assigned_ips w)
  ∧ token_calls w' = S (token_calls w).
Proof.
  unfold MobileNode_init. run.
  destruct (assign_ip E fuel "mn" _) as [ip w1| | |] eqn:Hassign; try done.
  apply assign_ip_Returns in Hassign as (nid & c & _ & _ & _ & Hfree & ->).
  run. by intros [= <- <-].
Qed.

(** ** Where nonces come from (C6, as the code has it) *)

(** A first registration that returns was answered by an allocated
    authority; this is the request the node handed to the relay, stamped,
    and the world the authority left. *)
Lemma initiate_registration_Returns mn ha fa w r mn' w' :
  initiate_registration E mn ha fa w = Returns (r, mn') w' →
  mn' = derive_temp_identity E mn
  ∧ ∃ h, heap w !! ha = Some h
         ∧ handle_registration_request E fa mn' ha
             (Registration.init "registration" ha (request_data mn')) w
           = Returns (r, Registration.add_nonce
                           (Registration.init "registration" ha (request_data mn'))
                           (ForeignAgent.nonce_fa fa)) w'
         ∧ w' = registered E ha h fa mn' (request_data mn') w.
Proof.
  unfold initiate_registration. rewrite run_bind.
  destruct (heap w !! ha) as [h|] eqn:Hha.
  - rewrite (run_handle_registration_request_ok fa (derive_temp_identity E mn) ha h
               (Registration.init "registration" ha (request_data (derive_temp_identity E mn)))
               w Hha eq_refl).
    run. intros [= <- <- <-]. split; [done|]. exists h. split; [done|]. split; [|done].
    by apply run_handle_registration_request_ok.
  - unfold handle_registration_request, process_registration.
    rewrite decide_True by reflexivity.
    rewrite !run_bind. unfold deref. by rewrite Hha.
Qed.

(** The two requests of a move: the re-registration and the registration
    the node hands to the relay, stamped, with the worlds between them. *)
Lemma move_to_new_network_requests fuel mn ha fa w o n r mn' w' :
  heap w !! MobileNode.original_ha mn = Some o →
  heap w !! ha = Some n →
  move_to_new_network E fuel mn ha fa w = Returns (r, mn') w' →
  ∃ w1 w2 r_o,
    token_calls w1 = S (token_calls w)
    ∧ re_register_with_original_ha E mn' fa w1 =
        Returns (r_o, Registration.add_nonce
                        (Registration.init "re-registration" (MobileNode.original_ha mn)
                           (request_data mn'))
                        (ForeignAgent.nonce_fa fa)) w2
    ∧ handle_registration_request E fa mn' ha
        (Registration.init "registration" ha (request_data mn')) w2 =
        Returns (r, Registration.add_nonce
                      (Registration.init "registration" ha (request_data mn'))
                      (ForeignAgent.nonce_fa fa)) w'.
Proof.
  intros Ho Hn Hrun.
  destruct (assign_ip_known_outcome E fuel "mn" "10.1.0"
              (set_stdout (λ out, out ++ ["MobileNode " +:+ MobileNode.identity mn
                                          +:+ " moving to a new Foreign Network."]) w)
              network_id_map_mn) as [(coa & w1 & Hassign)|Hout].
  - rewrite (run_move_to_new_network fuel mn ha fa w o n coa w1 Ho Hn Hassign) in Hrun.
    cbv zeta in Hrun. injection Hrun as <- <- <-.
    apply assign_ip_Returns in Hassign as (nid & c & _ & _ & _ & _ & Hw1).
    set (mn' := moved E mn ha coa (token_hex_16 E (token_calls w))).
    assert (Hheap1 : heap w1 = heap w) by (by rewrite Hw1).
    exists (set_token_calls S w1). eexists _, _.
    split; [by rewrite Hw1|]. split.
    + apply (run_re_register_with_original_ha mn' fa o); [|reflexivity].
      change (heap w1 !! MobileNode.original_ha mn = Some o). by rewrite Hheap1.
    + apply (run_handle_registration_request_ok fa mn' ha
               (after_re_registration E fa mn' ha o n)); [|reflexivity].
      unfold after_re_registration, registered. simpl. rewrite Hheap1. case_decide as Heq.
      * rewrite Heq. apply list_lookup_insert_eq. by eapply lookup_lt_Some.
      * rewrite list_lookup_insert_ne by done. exact Hn.
  - unfold move_to_new_network in Hrun. revert Hrun. run. by rewrite Hout.
Qed.

(** C6, amended.  A relay draws its nonce once, when it is constructed;
    forwarding draws no token and stamps the request with that stored
    nonce, so two requests forwarded by one relay carry the same relay
    nonce.  A node draws one token when it is constructed, and its first
    registration draws none: the request it hands to the relay carries the
    construction nonce, and the Binding the authority stores has the
    temporary identity derived from it.  A move draws one token, before its
    two requests: the re-registration and the registration of the move both
    carry that nonce, and the Bindings at the original and at the new
    authority have the temporary identity derived from it.  With a
    generator that never returns a token twice, the nonce of a move differs
    from the nonce of a node constructed before it and from the nonce of a
    move made before it; [not_before] compares the calls of the generator
    so far, which no operation of the menu lowers. *)
Theorem relay_nonce_fixed_node_nonce_per_move
    fuel0 fa_id fa_ip w0 fa w0'
    mn1 ha1 reg1 w1 r1 stamped1 w1'
    mn2 ha2 reg2 w2 r2 stamped2 w2'
    fuel_c mn_id home w_c mn_c w_c'
    ha_i fa_i w_i r_i mn_i w_i'
    fuel mn ha fa_a o n w r mn' w'
    fuel_b mn_b ha_b fa_b o_b n_b w_b r_b mn_b' w_b' :
  ForeignAgent_init E fuel0 fa_id fa_ip w0 = Returns fa w0' →
  handle_registration_request E fa mn1 ha1 reg1 w1 = Returns (r1, stamped1) w1' →
  handle_registration_request E fa mn2 ha2 reg2 w2 = Returns (r2, stamped2) w2' →
  MobileNode_init E fuel_c mn_id home w_c = Returns mn_c w_c' →
  initiate_registration E mn_c ha_i fa_i w_i = Returns (r_i, mn_i) w_i' →
  heap w !! MobileNode.original_ha mn = Some o →
  heap w !! ha = Some n →
  move_to_new_network E fuel mn ha fa_a w = Returns (r, mn') w' →
  heap w_b !! MobileNode.original_ha mn_b = Some o_b →
  heap w_b !! ha_b = Some n_b →
  move_to_new_network E fuel_b mn_b ha_b fa_b w_b = Returns (r_b, mn_b') w_b' →
  (ForeignAgent.nonce_fa fa = token_hex_16 E (token_calls w0)
   ∧ Registration.nonce stamped1 = Some (ForeignAgent.nonce_fa fa)
   ∧ Registration.nonce stamped2 = Some (ForeignAgent.nonce_fa fa)
   ∧ token_calls w1' = token_calls w1
   ∧ token_calls w2' = token_calls w2)
  ∧ (MobileNode.nonce_mn mn_c = token_hex_16 E (token_calls w_c)
     ∧ token_calls w_c' = S (token_calls w_c))
  ∧ (MobileNode.nonce_mn mn_i = MobileNode.nonce_mn mn_c
     ∧ token_calls w_i' = token_calls w_i
     ∧ (∃ stamped,
          handle_registration_request E fa_i mn_i ha_i
            (Registration.init "registration" ha_i (request_data mn_i)) w_i
          = Returns (r_i, stamped) w_i'
          ∧ RequestData.nonce_mn (Registration.data stamped) = MobileNode.nonce_mn mn_c)
     ∧ (∃ h b, heap w_i' !! ha_i = Some h
               ∧ HomeAgent.bindings h !! mn_id = Some b
               ∧ Binding.temp_identity b =
                   Some (spec_temp_identity E mn_id (MobileNode.nonce_mn mn_c))))
  ∧ (MobileNode.nonce_mn mn' = token_hex_16 E (token_calls w)
     ∧ token_calls w' = S (token_calls w)
     ∧ MobileNode.temp_identity mn' =
         Some (spec_temp_identity E (MobileNode.identity mn) (MobileNode.nonce_mn mn'))
     ∧ (∃ u1 u2 r_o stamped_o stamped_n,
          token_calls u1 = S (token_calls w)
          ∧ re_register_with_original_ha E mn' fa_a u1 = Returns (r_o, stamped_o) u2
          ∧ handle_registration_request E fa_a mn' ha
              (Registration.init "registration" ha (request_data mn')) u2
            = Returns (r, stamped_n) w'
          ∧ Registration.request_type stamped_o = "re-registration"
          ∧ Registration.request_type stamped_n = "registration"
          ∧ RequestData.nonce_mn (Registration.data stamped_o) = MobileNode.nonce_mn mn'
          ∧ RequestData.nonce_mn (Registration.data stamped_n) = MobileNode.nonce_mn mn')
     ∧ (∃ o' b, heap w' !! MobileNode.original_ha mn = Some o'
                ∧ HomeAgent.bindings o' !! MobileNode.identity mn = Some b
                ∧ Binding.temp_identity b = MobileNode.temp_identity mn')
     ∧ (∃ n' b, heap w' !! ha = Some n'
                ∧ HomeAgent.bindings n' !! MobileNode.identity mn = Some b
                ∧ Binding.temp_identity b = MobileNode.temp_identity mn'))
  ∧ ((∀ i j, token_hex_16 E i = token_hex_16 E j → i = j) →
     (not_before w_c' w → MobileNode.nonce_mn mn' ≠ MobileNode.nonce_mn mn_c)
     ∧ (not_before w' w_b → MobileNode.nonce_mn mn_b' ≠ MobileNode.nonce_mn mn')
     ∧ (not_before w_c' w → not_before w' w_b →
        MobileNode.nonce_mn mn_b' ≠ MobileNode.nonce_mn mn_c)).
Proof.
  intros Hfa H1 H2 Hc Hi Ho Hn Hmove Hob Hnb Hmoveb.
  apply ForeignAgent_init_Returns in Hfa as (_ & Hnonce & _ & _ & _).
  apply handle_registration_request_Returns in H1 as [-> Ht1].
  apply handle_registration_request_Returns in H2 as [-> Ht2].
  apply MobileNode_init_Returns in Hc as (Hidc & Hnc & _ & _ & _ & Htc).
  apply initiate_registration_Returns in Hi as (Hmni & h & Hh & Hreq & Hwi).
  assert (Hidi : MobileNode.identity mn_i = mn_id) by (by rewrite Hmni).
  assert (Hni : MobileNode.nonce_mn mn_i = MobileNode.nonce_mn mn_c) by (by rewrite Hmni).
  destruct (move_to_new_network_requests fuel mn ha fa_a w o n r mn' w' Ho Hn Hmove)
    as (u1 & u2 & r_o & Hu1 & Hre & Hnew).
  destruct (move_to_new_network_Returns fuel mn ha fa_a w o n r mn' w' Ho Hn Hmove)
    as (coa & c & _ & _ & _ & Hmn' & _ & Hheap & _ & Htok).
  destruct (move_to_new_network_Returns fuel_b mn_b ha_b fa_b w_b o_b n_b r_b mn_b' w_b'
              Hob Hnb Hmoveb)
    as (coab & cb & _ & _ & _ & Hmnb & _ & _ & _ & Htokb).
  assert (Hn' : MobileNode.nonce_mn mn' = token_hex_16 E (token_calls w)) by (by rewrite Hmn').
  assert (Hnb' : MobileNode.nonce_mn mn_b' = token_hex_16 E (token_calls w_b))
    by (by rewrite Hmnb).
  assert (Ho' : MobileNode.original_ha mn < length (heap w)) by (by eapply lookup_lt_Some).
  assert (Hha' : ha < length (heap w)) by (by eapply lookup_lt_Some).
  split; [done|]. split; [done|]. split; [|split].
  - split; [done|]. split; [by apply handle_registration_request_Returns in Hreq as [_ ?]|].
    split.
    + eexists. split; [exact Hreq|]. simpl. exact Hni.
    + rewrite Hwi. eexists _, _. simpl.
      split; [apply list_lookup_insert_eq; by eapply lookup_lt_Some|].
      rewrite Hidi. simpl. rewrite lookup_insert_eq. split; [done|].
      simpl. rewrite Hmni. simpl. by rewrite Hidc.
  - split; [done|]. split; [done|].
    split; [by rewrite Hmn'|].
    split.
    { eexists u1, u2, r_o, _, _. split; [exact Hu1|].
      split; [exact Hre|]. split; [exact Hnew|]. done. }
    split.
    + rewrite Hheap. destruct (decide (ha = MobileNode.original_ha mn)) as [->|Hne].
      * eexists _, _. split; [apply list_lookup_insert_eq; by rewrite length_insert|].
        simpl. rewrite lookup_insert_eq. by rewrite Hmn'.
      * eexists _, _. rewrite list_lookup_insert_ne by done.
        split; [by apply list_lookup_insert_eq|]. simpl. rewrite lookup_insert_eq.
        by rewrite Hmn'.
    + rewrite Hheap. eexists _, _.
      split; [apply list_lookup_insert_eq; by rewrite length_insert|].
      simpl. rewrite lookup_insert_eq. by rewrite Hmn'.
  - intros Hinj. unfold not_before. rewrite Hn', Hnb', Hnc. repeat split.
    + intros Hle Heq. apply Hinj in Heq. lia.
    + intros Hle Heq. apply Hinj in Heq. lia.
    + intros Hle Hle' Heq. apply Hinj in Heq. lia.
Qed.

(** ** One shared secret for every authority (C10) *)

(** C10.  The constructor gives every authority the same secret, the text
    [shared_secret_mn_ha].  Two authorities built by it, whatever their
    identities, addresses and worlds, accept the same valid request coming
    through the same relay, and the session key each derives is the HMAC
    under that constant of the node nonce, the authority's own nonce and
    the relay identity; with equal own nonces the two keys are equal. *)
Theorem session_key_under_one_secret
    fuel id1 ip1 w1 l1 w1' id2 ip2 w2 l2 w2' fa mn registration :
  HomeAgent_init E fuel id1 ip1 w1 = Returns l1 w1' →
  HomeAgent_init E fuel id2 ip2 w2 = Returns l2 w2' →
  RequestData.temp_identity (Registration.data registration) =
    Some (spec_temp_identity E (MobileNode.identity mn)
            (RequestData.nonce_mn (Registration.data registration))) →
  ∃ h1 h2 r1 u1 r2 u2,
    heap w1' !! l1 = Some h1 ∧ heap w2' !! l2 = Some h2
    ∧ HomeAgent.shared_key_mn_ha h1 = "shared_secret_mn_ha"
    ∧ HomeAgent.shared_key_mn_ha h2 = "shared_secret_mn_ha"
    ∧ process_registration E l1 fa mn registration w1' = Returns r1 u1
    ∧ process_registration E l2 fa mn registration w2' = Returns r2 u2
    ∧ Binding.shared_key_mn_fa (Response.binding r1) =
        generate_hmac E "shared_secret_mn_ha"
          (RequestData.nonce_mn (Registration.data registration)
           +:+ HomeAgent.nonce_ha h1 +:+ ForeignAgent.identity fa)
    ∧ Binding.shared_key_mn_fa (Response.binding r2) =
        generate_hmac E "shared_secret_mn_ha"
          (RequestData.nonce_mn (Registration.data registration)
           +:+ HomeAgent.nonce_ha h2 +:+ ForeignAgent.identity fa)
    ∧ (HomeAgent.nonce_ha h1 = HomeAgent.nonce_ha h2 →
       Binding.shared_key_mn_fa (Response.binding r1) =
       Binding.shared_key_mn_fa (Response.binding r2)).
Proof.
  intros H1 H2 Hid.
  apply HomeAgent_init_Returns in H1 as (a1 & -> & Hheap1 & _ & _).
  apply HomeAgent_init_Returns in H2 as (a2 & -> & Hheap2 & _ & _).
  assert (Hl1 : heap w1' !! length (heap w1) = Some
            (HomeAgent.mk id1 a1 "shared_secret_mn_ha" (token_hex_16 E (token_calls w1)) ∅ ∅))
    by (rewrite Hheap1; apply list_lookup_middle; done).
  assert (Hl2 : heap w2' !! length (heap w2) = Some
            (HomeAgent.mk id2 a2 "shared_secret_mn_ha" (token_hex_16 E (token_calls w2)) ∅ ∅))
    by (rewrite Hheap2; apply list_lookup_middle; done).
  eexists _, _, _, _, _, _.
  split; [exact Hl1|]. split; [exact Hl2|].
  split; [done|]. split; [done|].
  split; [exact (run_process_registration_ok E _ _ fa mn registration _ Hl1 Hid)|].
  split; [exact (run_process_registration_ok E _ _ fa mn registration _ Hl2 Hid)|].
  simpl. split; [done|]. split; [done|]. by intros ->.
Qed.

End Mobility.

(** ** The address pool (C4, C5) *)

Section Pool.
Context (E : Env).

Lemma release_ip_Returns ip w w' :
  release_ip ip w = Returns tt w' →
  ∀ a, a ∈ assigned_ips w' ↔ a ∈ assigned_ips w ∧ a ≠ ip.
Proof.
  unfold release_ip. run. case_decide as Hin; run; intros [= <-] a; simpl.
  - rewrite elem_of_difference, elem_of_singleton. done.
  - split; [|by intros [? _]]. intros Ha. split; [done|]. by intros ->.
Qed.

Lemma pool_step_inv op s s' : pool_inv s → pool_step E op s s' → pool_inv s'.
Proof.
  intros [Hnd Hsub] Hstep. unfold pool_inv in *.
  destruct Hstep as [fuel et w held ip w' Hrun|fuel et w held e w' Hrun|ip w held w' Hrun];
    simpl in *.
  - apply assign_ip_Returns in Hrun as (nid & c & _ & _ & _ & Hfree & ->). simpl. split.
    + apply NoDup_cons. split; [|done]. intros Hin. by apply Hfree, Hsub.
    + intros a [->|Ha]%elem_of_cons; apply elem_of_union; [right|left].
      * by apply elem_of_singleton.
      * by apply Hsub.
  - unfold assign_ip in Hrun. destruct (network_id_map !! et) as [nid|].
    + by destruct (assign_ip_loop_outcome E fuel nid et w) as [(? & ? & Heq)|Heq];
        rewrite Heq in Hrun.
    + injection Hrun as _ <-. done.
  - pose proof (release_ip_Returns ip w w' Hrun) as Hrel. split.
    + clear Hsub Hrel. induction held as [|[c a] held IH]; [constructor|].
      apply NoDup_cons in Hnd as [Hnot Hnd]. rewrite filter_cons. simpl.
      case_decide; [|by apply IH]. simpl. apply NoDup_cons. split; [|by apply IH].
      intros ([c' a'] & -> & [_ Hin]%list_elem_of_filter)%list_elem_of_fmap.
      apply Hnot. apply list_elem_of_fmap. by exists (c', a').
    + intros a ([c' a'] & -> & [Hne Hin]%list_elem_of_filter)%list_elem_of_fmap.
      apply Hrel. split; [|done]. apply Hsub, list_elem_of_fmap. by exists (c', a').
Qed.

Lemma pool_run_inv ops s s' : pool_inv s → pool_run E ops s s' → pool_inv s'.
Proof.
  intros Hinv Hrun. induction Hrun as [|op ops s1 s2 s3 Hstep _ IH]; [done|].
  apply IH. by eapply pool_step_inv.
Qed.

(** C4.  Start from a ledger that names no address twice and only assigned
    addresses (the empty ledger, for one).  After any sequence of
    [assign_ip] and [release_ip] calls, two different entries of the ledger
    never hold the same address, whether their classes are equal or not;
    every held address is marked as assigned; and the next [assign_ip],
    for any class, returns an address that no entry holds: an address is
    given out again only after the [release_ip] that removed its entry. *)
Theorem held_addresses_distinct ops w held w' held' :
  NoDup held.*2 →
  (∀ a, a ∈ held.*2 → a ∈ assigned_ips w) →
  pool_run E ops (w, held) (w', held') →
  (∀ i j c1 a1 c2 a2,
     held' !! i = Some (c1, a1) → held' !! j = Some (c2, a2) → i ≠ j → a1 ≠ a2)
  ∧ (∀ c a, (c, a) ∈ held' → a ∈ assigned_ips w')
  ∧ (∀ fuel entity_type ip w'',
       assign_ip E fuel entity_type w' = Returns ip w'' → ∀ c, (c, ip) ∉ held').
Proof.
  intros Hnd Hsub Hrun.
  destruct (pool_run_inv ops (w, held) (w', held') (conj Hnd Hsub) Hrun) as [Hnd' Hsub'].
  simpl in *. split; [|split].
  - intros i j c1 a1 c2 a2 Hi Hj Hij Heq. apply Hij.
    eapply (NoDup_lookup _ i j a1 Hnd'); rewrite list_lookup_fmap.
    + by rewrite Hi.
    + rewrite Hj. simpl. by rewrite Heq.
  - intros c a Hin. apply Hsub', list_elem_of_fmap. by exists (c, a).
  - intros fuel et ip w'' Hassign c Hin.
    apply assign_ip_Returns in Hassign as (nid & k & _ & _ & _ & Hfree & _).
    apply Hfree, Hsub', list_elem_of_fmap. by exists (c, ip).
Qed.

(** What [k] assignments in a row give out. *)
Lemma assign_many_Returns fuel k entity_type w ips w' :
  assign_many E fuel k entity_type w = Returns ips w' →
  length ips = k
  ∧ NoDup ips
  ∧ (∀ ip, ip ∈ ips → ip ∉ assigned_ips w)
  ∧ (∀ ip, ip ∈ assigned_ips w' ↔ ip ∈ assigned_ips w ∨ ip ∈ ips)
  ∧ (∀ network_id, network_id_map !! entity_type = Some network_id →
       ∃ draws, ips = (λ n, network_id +:+ "." +:+ pretty n) <$> draws
                ∧ ∀ n, n ∈ draws → ∃ i, n = secrets_randbelow E i 255).
Proof.
  revert w ips w'. induction k as [|k IH]; intros w ips w'.
  { simpl. rewrite run_ret. intros [= <- <-].
    split; [done|]. split; [constructor|].
    split; [intros ip Hin; by apply elem_of_nil in Hin|].
    split; [intros ip; rewrite elem_of_nil; tauto|].
    intros nid _. exists []. split; [done|]. intros n Hn. by apply elem_of_nil in Hn. }
  cbn [assign_many]. rewrite run_bind.
  destruct (assign_ip E fuel entity_type w) as [ip w1| | |] eqn:Hassign; try done.
  rewrite run_bind.
  destruct (assign_many E fuel k entity_type w1) as [rest w2| | |] eqn:Hmany; try done.
  run. intros [= <- <-].
  destruct (IH _ _ _ Hmany) as (Hlen & Hnd & Hfree & Hips & Hdraws).
  apply assign_ip_Returns in Hassign as (nid & c & Hnid & _ & Hip & Hfree1 & ->).
  simpl in *. split; [by rewrite Hlen|]. split; [|split; [|split]].
  - apply NoDup_cons. split; [|done]. intros Hin. apply (Hfree _ Hin).
    apply elem_of_union. right. by apply elem_of_singleton.
  - intros a [->|Ha]%elem_of_cons; [done|]. intros Hin. apply (Hfree _ Ha).
    apply elem_of_union. by left.
  - intros a. rewrite Hips, elem_of_union, elem_of_singleton, elem_of_cons. tauto.
  - intros nid' Hnid'. rewrite Hnid in Hnid'. injection Hnid' as <-.
    destruct (Hdraws _ Hnid) as (draws & -> & Hall).
    exists (secrets_randbelow E (pred c) 255 :: draws). split; [by rewrite Hip|].
    intros n [->|Hn]%elem_of_cons; [by eexists|by apply Hall].
Qed.

(** C5.  The random draws lie below 255.  After 255 successful
    [assign_ip] calls for one class with no release in between, all 255
    addresses of the class are held, and the next [assign_ip] for that
    class is still drawing after any number of iterations: it neither
    returns nor raises. *)
Theorem exhausted_pool_loops_forever fuel entity_type network_id w ips w' :
  (∀ i, secrets_randbelow E i 255 < 255) →
  network_id_map !! entity_type = Some network_id →
  assign_many E fuel 255 entity_type w = Returns ips w' →
  (∀ n, n < 255 → network_id +:+ "." +:+ pretty n ∈ assigned_ips w')
  ∧ ∀ fuel', assign_ip E fuel' entity_type w' = OutOfFuel.
Proof.
  intros Hbound Hnid Hmany.
  destruct (assign_many_Returns _ _ _ _ _ _ Hmany) as (Hlen & Hnd & _ & Hips & Hdraws).
  destruct (Hdraws _ Hnid) as (draws & -> & Hall).
  rewrite length_fmap in Hlen. apply NoDup_fmap_1 in Hnd.
  assert (Hperm : draws ≡ₚ seq 0 255).
  { apply submseteq_length_Permutation; [|by rewrite length_seq, Hlen].
    apply NoDup_submseteq; [done|]. intros n Hn. apply elem_of_seq.
    destruct (Hall _ Hn) as [i ->]. specialize (Hbound i). lia. }
  assert (Hfull : ∀ n, n < 255 → network_id +:+ "." +:+ pretty n ∈ assigned_ips w').
  { intros n Hn. apply Hips. right. apply list_elem_of_fmap. exists n. split; [done|].
    rewrite Hperm. apply elem_of_seq. lia. }
  split; [done|]. intros fuel'. unfold assign_ip. rewrite Hnid.
  apply assign_ip_loop_OutOfFuel. intros k _. apply Hfull, Hbound.
Qed.

End Pool.

(** ** The mesh (C7) *)

Lemma frame_refl w : frame w w.
Proof. by repeat split. Qed.

Lemma frame_trans w1 w2 w3 : frame w1 w2 → frame w2 w3 → frame w1 w3.
Proof.
  unfold frame. intros (?&?&?&?&?&?&?) (?&?&?&?&?&?&?). repeat split; congruence.
Qed.

Lemma set_peers_set_peers f g h :
  HomeAgent.set_peers f (HomeAgent.set_peers g h) = HomeAgent.set_peers (λ s, f (g s)) h.
Proof. reflexivity. Qed.

Lemma set_peers_ext f g h :
  f (HomeAgent.peers h) = g (HomeAgent.peers h) → HomeAgent.set_peers f h = HomeAgent.set_peers g h.
Proof. unfold HomeAgent.set_peers. by intros ->. Qed.

Lemma set_peers_id f h : f (HomeAgent.peers h) = HomeAgent.peers h → HomeAgent.set_peers f h = h.
Proof. destruct h. unfold HomeAgent.set_peers. simpl. by intros ->. Qed.

(** The inner loop adds to the peers of [ha] the keys of the entries it
    walks over, except [ha_id]. *)
Lemma connect_peers_run ha_id ha ps w h :
  heap w !! ha = Some h →
  (∀ l, l ∈ ps.*2 → l < length (heap w)) →
  ∃ w', for_each ps (connect_peer ha_id ha) w = Returns tt w'
        ∧ heap w' = <[ha := HomeAgent.set_peers
                              (λ s, s ∪ list_to_set (filter (λ k, ha_id ≠ k) ps.*1)) h]> (heap w)
        ∧ frame w w'.
Proof.
  revert w h. induction ps as [|[k l] ps IH]; intros w h Hh Hval.
  - exists w. split; [done|]. split; [|apply frame_refl].
    symmetry. apply list_insert_id. rewrite Hh. f_equal. symmetry.
    apply set_peers_id. simpl. by rewrite union_empty_r_L.
  - assert (Hlen : ha < length (heap w)) by (by eapply lookup_lt_Some).
    assert (Hl : l < length (heap w)) by (apply Hval; simpl; apply elem_of_cons; by left).
    cbn [for_each]. rewrite run_bind. unfold connect_peer at 1.
    rewrite fmap_cons. simpl fst. case_decide as Hne.
    + rewrite run_bind, (run_update _ _ _ _ Hh). cbv beta iota.
      set (h1 := HomeAgent.set_peers (λ s, s ∪ {[k]}) h).
      rewrite run_bind, (run_deref ha h1); [|by apply list_lookup_insert_eq]. cbv beta iota.
      destruct (lookup_lt_is_Some_2 (<[ha := h1]> (heap w)) l) as [p Hp];
        [by rewrite length_insert|].
      rewrite run_bind, (run_deref l p); [|exact Hp]. run.
      match goal with |- context [for_each _ _ ?w0] =>
        destruct (IH w0 h1) as (w' & Hrun & Hheap & Hframe)
      end.
      { by apply list_lookup_insert_eq. }
      { intros l' Hl'. simpl. rewrite length_insert. apply Hval. simpl.
        apply elem_of_cons. by right. }
      exists w'. split; [exact Hrun|]. split.
      * rewrite Hheap. simpl. rewrite list_insert_insert_eq. f_equal.
        subst h1. rewrite set_peers_set_peers. apply set_peers_ext.
        rewrite filter_cons_True by done. simpl. by rewrite (assoc_L (∪)).
      * eapply frame_trans; [|exact Hframe]. by repeat split.
    + run. destruct (IH w h Hh) as (w' & Hrun & Hheap & Hframe).
      { intros l' Hl'. apply Hval. simpl. apply elem_of_cons. by right. }
      exists w'. split; [exact Hrun|]. split; [|done].
      rewrite Hheap. f_equal. apply set_peers_ext. cbv beta.
      by rewrite filter_cons_False by (by intros ?).
Qed.

(** The outer loop gives each entry it walks over the keys of all the
    others, and touches nothing else in the store. *)
Lemma rebuild_all_run registry rs w :
  NoDup rs.*2 →
  (∀ l, l ∈ rs.*2 → l < length (heap w)) →
  (∀ l, l ∈ registry.*2 → l < length (heap w)) →
  ∃ w', for_each rs (rebuild_peers registry) w = Returns tt w'
        ∧ length (heap w') = length (heap w)
        ∧ (∀ l, l ∉ rs.*2 → heap w' !! l = heap w !! l)
        ∧ (∀ k l, (k, l) ∈ rs →
             ∃ h, heap w !! l = Some h
                  ∧ heap w' !! l = Some (HomeAgent.set_peers (λ _, others k registry) h))
        ∧ frame w w'.
Proof.
  revert w. induction rs as [|[k l] rs IH]; intros w Hnd Hrs Hreg.
  - exists w. split; [done|]. split; [done|]. split; [done|].
    split; [|apply frame_refl]. intros k l Hin. by apply elem_of_nil in Hin.
  - rewrite fmap_cons in Hnd. simpl in Hnd. apply NoDup_cons in Hnd as [Hfresh Hnd].
    assert (Hl : l < length (heap w)) by (apply Hrs; simpl; apply elem_of_cons; by left).
    destruct (lookup_lt_is_Some_2 _ _ Hl) as [h Hh].
    cbn [for_each]. rewrite run_bind. unfold rebuild_peers at 1.
    rewrite run_bind, (run_update _ _ _ _ Hh). cbv beta iota.
    set (h0 := HomeAgent.set_peers (λ _, ∅) h).
    destruct (connect_peers_run k l registry (set_heap (λ hp, <[l := h0]> hp) w) h0)
      as (w1 & Hrun1 & Hheap1 & Hframe1).
    { by apply list_lookup_insert_eq. }
    { intros l' Hl'. simpl. rewrite length_insert. by apply Hreg. }
    rewrite Hrun1. cbv beta iota. simpl in Hheap1. rewrite list_insert_insert_eq in Hheap1.
    assert (Hlen1 : length (heap w1) = length (heap w)) by (by rewrite Hheap1, length_insert).
    destruct (IH w1 Hnd) as (w' & Hrun & Hlen & Hother & Hmesh & Hframe).
    { intros l' Hl'. rewrite Hlen1. apply Hrs. simpl. apply elem_of_cons. by right. }
    { intros l' Hl'. rewrite Hlen1. by apply Hreg. }
    exists w'. split; [exact Hrun|]. split; [congruence|]. split; [|split].
    + intros l' Hl'. simpl in Hl'. apply not_elem_of_cons in Hl' as [Hne Hl'].
      rewrite (Hother _ Hl'), Hheap1. by apply list_lookup_insert_ne.
    + intros k' l' [Heq|Hin]%elem_of_cons.
      * injection Heq as -> ->. exists h. split; [done|].
        rewrite (Hother _ Hfresh), Hheap1, list_lookup_insert_eq by done. f_equal.
        subst h0. rewrite set_peers_set_peers. apply set_peers_ext.
        unfold others. by rewrite union_empty_l_L.
      * assert (Hl' : l' ∈ rs.*2) by (apply list_elem_of_fmap; by exists (k', l')).
        destruct (Hmesh _ _ Hin) as (h' & Hh' & Hw').
        exists h'. split; [|done]. rewrite <- Hh', Hheap1.
        symmetry. apply list_lookup_insert_ne. by intros ->.
    + eapply frame_trans; [|exact Hframe]. eapply frame_trans; [|exact Hframe1].
      by repeat split.
Qed.

Lemma create_mesh_topology_run w :
  registry_wf w →
  ∃ w', create_mesh_topology w = Returns tt w'
        ∧ length (heap w') = length (heap w)
        ∧ (∀ l, l ∉ (ha_registry w).*2 → heap w' !! l = heap w !! l)
        ∧ (∀ k l, (k, l) ∈ ha_registry w →
             ∃ h, heap w !! l = Some h
                  ∧ heap w' !! l =
                      Some (HomeAgent.set_peers (λ _, others k (ha_registry w)) h))
        ∧ frame w w'.
Proof.
  intros [Hnd Hval]. unfold create_mesh_topology. run.
  match goal with |- context [for_each _ _ ?w0] =>
    destruct (rebuild_all_run (ha_registry w) (ha_registry w) w0 Hnd Hval Hval)
      as (w1 & Hrun & Hlen & Hother & Hmesh & Hframe)
  end.
  simpl ha_registry. rewrite Hrun. run.
  eexists. split; [reflexivity|]. simpl. split; [done|]. split; [done|]. split; [done|].
  destruct Hframe as (?&?&?&?&?&?&?). by repeat split.
Qed.

(** C7.  When the registry is well formed, [create_mesh_topology] returns
    and leaves a full mesh over the registered identifiers: two different
    registered identifiers peer with each other in both directions,
    [peers_with] holds of nothing else (so it is symmetric and no
    authority peers with itself), and a second rebuild of the same registry
    returns and changes no authority. *)
Theorem rebuild_gives_full_mesh w :
  registry_wf w →
  ∃ w',
    create_mesh_topology w = Returns tt w'
    ∧ ha_registry w' = ha_registry w
    ∧ (∀ a b, peers_with w' a b ↔
              a ∈ (ha_registry w).*1 ∧ b ∈ (ha_registry w).*1 ∧ a ≠ b)
    ∧ (∀ a b, peers_with w' a b ↔ peers_with w' b a)
    ∧ (∀ a, ¬ peers_with w' a a)
    ∧ ∃ w'', create_mesh_topology w' = Returns tt w''
             ∧ heap w'' = heap w'
             ∧ ha_registry w'' = ha_registry w'.
Proof.
  intros Hwf.
  destruct (create_mesh_topology_run w Hwf) as (w' & Hrun & Hlen & Hother & Hmesh & Hframe).
  assert (Hreg : ha_registry w' = ha_registry w) by apply Hframe.
  assert (Hchar : ∀ a b, peers_with w' a b ↔
            a ∈ (ha_registry w).*1 ∧ b ∈ (ha_registry w).*1 ∧ a ≠ b).
  { intros a b. unfold peers_with. rewrite Hreg. split.
    - intros (l & h & Hin & Hh & Hb).
      destruct (Hmesh _ _ Hin) as (h0 & _ & Hh'). rewrite Hh' in Hh. injection Hh as <-.
      simpl in Hb. unfold others in Hb.
      apply elem_of_list_to_set, list_elem_of_filter in Hb as [Hne Hb].
      split; [|done]. apply list_elem_of_fmap. by exists (a, l).
    - intros (([a' l] & -> & Hin)%list_elem_of_fmap & Hb & Hne).
      destruct (Hmesh _ _ Hin) as (h0 & _ & Hh').
      eexists l, _. split; [done|]. split; [exact Hh'|].
      simpl. unfold others. by apply elem_of_list_to_set, list_elem_of_filter. }
  assert (Hwf' : registry_wf w').
  { destruct Hwf as [Hnd Hval]. unfold registry_wf. rewrite Hreg, Hlen. done. }
  destruct (create_mesh_topology_run w' Hwf')
    as (w'' & Hrun' & Hlen' & Hother' & Hmesh' & Hframe').
  exists w'. split; [done|]. split; [done|]. split; [done|]. split; [|split].
  - intros a b. rewrite !Hchar. split; intros (? & ? & ?); repeat split; congruence.
  - intros a Ha. apply Hchar in Ha as (_ & _ & Hne). by apply Hne.
  - exists w''. split; [done|]. split; [|apply Hframe'].
    apply list_eq. intros l.
    destruct (decide (l ∈ (ha_registry w').*2)) as [Hin|Hout]; [|by apply Hother'].
    apply list_elem_of_fmap in Hin as ([k l'] & -> & Hin). simpl.
    destruct (Hmesh' _ _ Hin) as (h1 & Hh1 & ->). rewrite Hh1. f_equal.
    rewrite Hreg in Hin. destruct (Hmesh _ _ Hin) as (h0 & _ & Hh0).
    rewrite Hh0 in Hh1. injection Hh1 as <-. by rewrite Hreg.
Qed.

(** ** The registry stays well formed *)

Section Orchestration.
Context (E : Env).

Lemma dict_get_set_eq {V} k (v : V) d : dict_get k (dict_set k v d) = Some v.
Proof.
  induction d as [|[k' v'] d IH]; simpl.
  - by rewrite decide_True.
  - case_decide; simpl; [by rewrite decide_True|by rewrite decide_False].
Qed.

Lemma dict_get_elem_of {V} k (v : V) d : dict_get k d = Some v → (k, v) ∈ d.
Proof.
  induction d as [|[k' v'] d IH]; simpl; [done|].
  case_decide as Heq.
  - intros [= ->]. subst k'. apply list_elem_of_here.
  - intros Hget. apply list_elem_of_further. by apply IH.
Qed.

Lemma dict_set_values {V} k (v : V) d x : x ∈ (dict_set k v d).*2 → x = v ∨ x ∈ d.*2.
Proof.
  induction d as [|[k' v'] d IH]; simpl.
  - intros [->|Hin%elem_of_nil]%elem_of_cons; [by left|done].
  - case_decide; simpl.
    + intros [->|Hin]%elem_of_cons; [by left|]. right. by apply list_elem_of_further.
    + intros [->|Hin]%elem_of_cons; [right; apply list_elem_of_here|].
      destruct (IH Hin) as [->|Hin']; [by left|]. right. by apply list_elem_of_further.
Qed.

Lemma dict_set_NoDup_values {V} k (v : V) d :
  v ∉ d.*2 → NoDup d.*2 → NoDup (dict_set k v d).*2.
Proof.
  induction d as [|[k' v'] d IH]; simpl; intros Hfresh Hnd.
  - apply NoDup_singleton.
  - apply not_elem_of_cons in Hfresh as [Hne Hfresh]. apply NoDup_cons in Hnd as [Hnot Hnd].
    case_decide; simpl; apply NoDup_cons.
    + done.
    + split; [|by apply IH]. intros [->|Hin]%dict_set_values; done.
Qed.

(** The constructors called with an address. *)
Lemma run_HomeAgent_init_given fuel identity ip w :
  ip ≠ "" →
  HomeAgent_init E fuel identity (Some ip) w =
  Returns (length (heap w))
    (set_heap (λ hp, hp ++ [HomeAgent.mk identity ip "shared_secret_mn_ha"
                              (token_hex_16 E (token_calls w)) ∅ ∅])
       (set_token_calls S w)).
Proof.
  intros Hip. unfold HomeAgent_init, truthy. rewrite decide_False by done. by run.
Qed.

Lemma run_ForeignAgent_init_given fuel identity ip w :
  ip ≠ "" →
  ForeignAgent_init E fuel identity (Some ip) w =
  Returns (ForeignAgent.mk identity ip (token_hex_16 E (token_calls w))) (set_token_calls S w).
Proof.
  intros Hip. unfold ForeignAgent_init, truthy. rewrite decide_False by done. by run.
Qed.

(** Worlds kept in normal form while a long run is followed. *)
Ltac wsimpl :=
  cbn [assigned_ips heap ha_registry fa_registry mn_registry stdout
       randbelow_calls token_calls run_calls
       set_assigned_ips set_heap set_ha_registry set_fa_registry set_mn_registry
       set_stdout set_randbelow_calls set_token_calls set_run_calls
       length app].

Ltac wsimpl_in H :=
  cbn [assigned_ips heap ha_registry fa_registry mn_registry stdout
       randbelow_calls token_calls run_calls
       set_assigned_ips set_heap set_ha_registry set_fa_registry set_mn_registry
       set_stdout set_randbelow_calls set_token_calls set_run_calls
       length app] in H.

(** The registry that [module_init] leaves is well formed, whatever the
    outside. *)
Lemma module_init_registry_wf :
  ∃ w, module_init E empty_world = Returns tt w
       ∧ registry_wf w
       ∧ ha_registry w = [("HA123", 0); ("HA456", 1); ("HA789", 2)]
       ∧ mn_registry w = [].
Proof.
  unfold module_init, empty_world.
  do 3 (rewrite run_bind, run_HomeAgent_init_given by done; cbv beta iota; wsimpl).
  rewrite run_bind, run_modify; cbv beta iota; wsimpl.
  do 3 (rewrite run_bind, run_ForeignAgent_init_given by done; cbv beta iota; wsimpl).
  do 2 (rewrite run_bind, run_modify; cbv beta iota; wsimpl).
  rewrite run_bind, run_gets; cbv beta iota; wsimpl.
  rewrite run_bind. cbn [for_each].
  do 3 (rewrite run_bind, run_bind; erewrite run_deref; [|wsimpl; reflexivity];
        cbv beta iota; rewrite run_modify; cbv beta iota; wsimpl).
  rewrite run_ret; cbv beta iota.
  rewrite run_bind, run_gets; cbv beta iota; wsimpl.
  rewrite run_bind. cbn [for_each].
  do 3 (rewrite run_bind, run_modify; cbv beta iota; wsimpl).
  rewrite run_ret; cbv beta iota.
  rewrite run_bind, run_gets; cbv beta iota; wsimpl.
  rewrite run_bind, run_print; cbv beta iota; wsimpl.
  match goal with |- context [create_mesh_topology ?w0] =>
    destruct (create_mesh_topology_run w0) as (w & Hrun & Hlen & _ & _ & Hframe)
  end.
  { split; wsimpl.
    - change (NoDup (seq 0 3)). apply NoDup_seq.
    - intros l Hl. change (l ∈ seq 0 3) in Hl. apply elem_of_seq in Hl. simpl. lia. }
  exists w. split; [exact Hrun|].
  destruct Hframe as (_ & Hreg & _ & Hmns & _). wsimpl_in Hreg. wsimpl_in Hmns.
  wsimpl_in Hlen. split; [|by split].
  split; rewrite Hreg.
  - change (NoDup (seq 0 3)). apply NoDup_seq.
  - rewrite Hlen. intros l Hl. change (l ∈ seq 0 3) in Hl. apply elem_of_seq in Hl.
    simpl. lia.
Qed.
(** [add_network] keeps it well formed: the authority it registers is a
    new object. *)
Lemma add_network_registry_wf fuel ha_id fa_id w w' :
  registry_wf w →
  add_network E fuel ha_id fa_id w = Returns tt w' →
  registry_wf w' ∧ dict_get ha_id (ha_registry w') = Some (length (heap w)).
Proof.
  intros [Hnd Hval]. unfold add_network. rewrite run_bind.
  destruct (assign_ip E fuel "ha" w) as [ha_ip w1| | |] eqn:H1; try done.
  apply assign_ip_Returns in H1 as (? & ? & _ & _ & _ & _ & ->). cbv beta iota.
  rewrite run_bind.
  destruct (assign_ip E fuel "fa" _) as [fa_ip w2| | |] eqn:H2; try done.
  apply assign_ip_Returns in H2 as (? & ? & _ & _ & _ & _ & ->). cbv beta iota.
  rewrite run_bind.
  destruct (HomeAgent_init E fuel ha_id (Some ha_ip) _) as [l w3| | |] eqn:H3; try done.
  apply HomeAgent_init_Returns in H3 as (ip & -> & Hheap3 & _ & Hreg3). cbv beta iota.
  simpl in Hheap3, Hreg3. rewrite run_bind.
  destruct (ForeignAgent_init E fuel fa_id (Some fa_ip) w3) as [fa w4| | |] eqn:H4; try done.
  apply ForeignAgent_init_Returns in H4 as (_ & _ & _ & Hheap4 & Hreg4). run.
  match goal with |- context [create_mesh_topology ?w0] =>
    destruct (create_mesh_topology_run w0) as (w5 & Hrun & Hlen & _ & _ & Hframe)
  end.
  { split; simpl; rewrite Hreg4, Hreg3.
    - apply dict_set_NoDup_values; [|done]. intros Hin. specialize (Hval _ Hin). lia.
    - intros l [->|Hin]%dict_set_values; rewrite Hheap4, Hheap3, length_app; simpl; [lia|].
      specialize (Hval _ Hin). lia. }
  rewrite Hrun. run. intros [= <-].
  destruct Hframe as (_ & Hreg & _). simpl in Hreg, Hlen. simpl.
  split; [split; simpl|]; rewrite Hreg, Hreg4, Hreg3.
  - apply dict_set_NoDup_values; [|done]. intros Hin. specialize (Hval _ Hin). lia.
  - rewrite Hlen, Hheap4, Hheap3, length_app. simpl.
    intros l [->|Hin]%dict_set_values; [lia|]. specialize (Hval _ Hin). lia.
  - apply dict_get_set_eq.
Qed.

(** Every candidate network pairs registered agents. *)
Lemma available_networks_elem current has fas ha_id ha fa_id (fa : ForeignAgent.t) :
  (ha_id, ha, fa_id, fa) ∈ available_networks current has fas →
  (ha_id, ha) ∈ has ∧ (fa_id, fa) ∈ fas ∧ ha_id ≠ current.
Proof.
  unfold available_networks. intros ([[k l] [k' f]] & Hin & Hsome)%list_elem_of_omap.
  case_decide; [|done]. injection Hsome as <- <- <- <-.
  split; [by eapply elem_of_zip_l|]. split; [by eapply elem_of_zip_r|done].
Qed.

(** The orchestration around a move: when [move_mobile_node] returns after
    a move, the node in the registry is the moved one and its original
    authority still holds its Binding with the new care-of address: the
    clean-up only ever deletes at an authority other than the original. *)
Lemma move_mobile_node_keeps_home_binding fuel mn_id selected_index w mn cur o w' :
  registry_wf w →
  dict_get mn_id (mn_registry w) = Some mn →
  MobileNode.identity mn = mn_id →
  heap w !! MobileNode.home_agent mn = Some cur →
  heap w !! MobileNode.original_ha mn = Some o →
  available_networks (HomeAgent.identity cur) (ha_registry w) (fa_registry w) ≠ [] →
  move_mobile_node E fuel mn_id selected_index w = Returns tt w' →
  ∃ mn' o' b,
    dict_get mn_id (mn_registry w') = Some mn'
    ∧ MobileNode.original_ha mn' = MobileNode.original_ha mn
    ∧ (MobileNode.coa mn' ∉ assigned_ips w)
    ∧ heap w' !! MobileNode.original_ha mn = Some o'
    ∧ HomeAgent.bindings o' !! mn_id = Some b
    ∧ Binding.coa b = MobileNode.coa mn'.
Proof.
  intros [_ Hval] Hget Hid Hcur Ho Havail. unfold move_mobile_node.
  rewrite run_bind, run_gets. cbv beta iota. rewrite Hget.
  rewrite run_bind, (run_deref _ _ _ Hcur). run.
  simpl ha_registry. simpl fa_registry.
  destruct (available_networks _ _ _) as [|net nets] eqn:Hnets; [done|].
  destruct ((net :: nets) !! selected_index) as [[[[new_ha_id new_ha] new_fa_id] new_fa]|]
    eqn:Hsel; [|done].
  assert (Hnew : new_ha < length (heap w)).
  { apply Hval. apply list_elem_of_lookup_2 in Hsel. rewrite <- Hnets in Hsel.
    apply available_networks_elem in Hsel as (Hin & _ & _).
    apply list_elem_of_fmap. by exists (new_ha_id, new_ha). }
  destruct (lookup_lt_is_Some_2 _ _ Hnew) as [n Hn].
  rewrite run_bind, (run_deref new_ha n); [|exact Hn]. run.
  destruct (move_to_new_network E fuel mn new_ha new_fa _) as [[r mn'] w1| | |] eqn:Hmove;
    try done.
  apply (move_to_new_network_Returns E fuel mn new_ha new_fa _ o n) in Hmove
    as (coa & c & _ & _ & Hfree & -> & -> & Hheap & _ & _); [|exact Ho|exact Hn].
  simpl in Hfree, Hheap. run.
  set (mn' := moved E mn new_ha coa _) in *.
  assert (Ho1 : ∃ o' b, heap w1 !! MobileNode.original_ha mn = Some o'
                        ∧ HomeAgent.bindings o' !! mn_id = Some b
                        ∧ Binding.coa b = coa).
  { assert (MobileNode.original_ha mn < length (heap w)) by (by eapply lookup_lt_Some).
    rewrite Hheap, <- Hid.
    destruct (decide (new_ha = MobileNode.original_ha mn)) as [->|Hne].
    - eexists _, _. split; [apply list_lookup_insert_eq; by rewrite length_insert|].
      simpl. by rewrite lookup_insert_eq.
    - eexists _, _. rewrite list_lookup_insert_ne by done.
      split; [by apply list_lookup_insert_eq|]. simpl. by rewrite lookup_insert_eq. }
  destruct Ho1 as (o' & b & Ho' & Hb & Hcoa).
  assert (Hcur1 : MobileNode.home_agent mn < length (heap w1)).
  { rewrite Hheap, !length_insert. by eapply lookup_lt_Some. }
  destruct (lookup_lt_is_Some_2 _ _ Hcur1) as [cur1 Hcur1'].
  rewrite (run_deref _ cur1); [|exact Hcur1']. cbv beta iota.
  rewrite run_bind. case_decide as Hclean.
  - destruct Hclean as [_ Hne]. run. rewrite (run_update _ _ cur1); [|exact Hcur1'].
    cbv beta iota. rewrite decide_True by done. run. intros [= <-]. simpl.
    exists mn', o', b. rewrite dict_get_set_eq.
    split; [done|]. split; [done|]. split; [done|].
    split; [by rewrite list_lookup_insert_ne|]. done.
  - run. rewrite decide_True by done. run. intros [= <-]. simpl.
    exists mn', o', b. rewrite dict_get_set_eq. done.
Qed.
End Orchestration.

(** ** Footprints

    [within F] is a preorder, so the footprint of a sequence of operations
    is the footprint of its parts; the lemmas below give the footprint of
    each primitive change of the world. *)

Lemma ha_fixed_refl h : ha_fixed h h.
Proof. by repeat split. Qed.

Lemma ha_fixed_trans h1 h2 h3 : ha_fixed h1 h2 → ha_fixed h2 h3 → ha_fixed h1 h3.
Proof. unfold ha_fixed. intros (?&?&?&?) (?&?&?&?). repeat split; congruence. Qed.

Global Instance within_preorder F : PreOrder (within F).
Proof.
  split.
  - intros w. split; [done|]. split; [|split; [|done]].
    + intros l h Hl. exists h. split; [done|]. split; [apply ha_fixed_refl|done].
    + intros l h' Hl Hge. apply lookup_lt_Some in Hl. lia.
  - intros w1 w2 w3 (Hlen12 & Hfix12 & Hnew12 & Ha12 & Hr12 & He12)
                    (Hlen23 & Hfix23 & Hnew23 & Ha23 & Hr23 & He23).
    split; [lia|]. split; [|split; [|split; [|split]]].
    + intros l h1 Hl. destruct (Hfix12 _ _ Hl) as (h2 & Hl2 & Hf12 & Hb12).
      destruct (Hfix23 _ _ Hl2) as (h3 & Hl3 & Hf23 & Hb23).
      exists h3. split; [done|]. split; [by eapply ha_fixed_trans|].
      intros k Hk. by rewrite Hb23, Hb12.
    + intros l h3 Hl3 Hge. destruct (decide (l < length (heap w2))) as [Hlt|Hnlt].
      * destruct (lookup_lt_is_Some_2 _ _ Hlt) as [h2 Hl2].
        destruct (Hfix23 _ _ Hl2) as (h3' & Hl3' & (_ & _ & Hkey & _) & Hb23).
        rewrite Hl3 in Hl3'. injection Hl3' as <-.
        rewrite Hkey. exact (Hnew12 _ _ Hl2 Hge).
      * apply (Hnew23 _ _ Hl3). lia.
    + intros Hno. rewrite Ha23, Ha12; done.
    + intros Hno. rewrite Hr23, Hr12; done.
    + intros Hno. rewrite He23, He12; done.
Qed.

Lemma within_same_store F w w' :
  heap w' = heap w → ha_registry w' = ha_registry w → mn_registry w' = mn_registry w →
  within F w w'.
Proof.
  intros Hheap Hreg Hmn. unfold within. rewrite Hheap.
  split; [done|]. split; [|split; [|done]].
  - intros l h Hl. exists h. split; [done|]. split; [apply ha_fixed_refl|done].
  - intros l h' Hl Hge. apply lookup_lt_Some in Hl. lia.
Qed.

Lemma within_update F l f h w :
  ha_fixed h (f h) →
  (∀ k, ¬ keys F k → HomeAgent.bindings (f h) !! k = HomeAgent.bindings h !! k) →
  heap w !! l = Some h →
  within F w (set_heap (λ hp, <[l := f h]> hp) w).
Proof.
  intros Hfix Hkeys Hl. unfold within. simpl. rewrite length_insert.
  split; [done|]. split; [|split; [|done]].
  - intros l' h' Hl'. destruct (decide (l = l')) as [<-|Hne].
    + rewrite Hl in Hl'. injection Hl' as <-. exists (f h).
      split; [|done]. apply list_lookup_insert_eq. by eapply lookup_lt_Some.
    + exists h'. rewrite list_lookup_insert_ne by done.
      split; [done|]. split; [apply ha_fixed_refl|done].
  - intros l' h' Hl' Hge. apply lookup_lt_Some in Hl'. rewrite length_insert in Hl'. lia.
Qed.

Lemma within_new_ha (F : footprint) identity ip nonce w :
  may_allocate F →
  within F w (set_heap (λ hp, hp ++ [HomeAgent.mk identity ip "shared_secret_mn_ha" nonce ∅ ∅]) w).
Proof.
  intros Hmay. unfold within. simpl. rewrite length_app. simpl.
  split; [lia|]. split; [|split; [|done]].
  - intros l h Hl. exists h. rewrite lookup_app_l by (by eapply lookup_lt_Some).
    split; [done|]. split; [apply ha_fixed_refl|done].
  - intros l h' Hl Hge. rewrite lookup_app_r in Hl by done.
    apply list_lookup_singleton_Some in Hl as [_ <-]. done.
Qed.

Lemma within_set_ha_registry (F : footprint) g w :
  may_register F → within F w (set_ha_registry g w).
Proof.
  intros Hmay. unfold within. simpl.
  split; [done|]. split; [|split; [|done]].
  - intros l h Hl. exists h. split; [done|]. split; [apply ha_fixed_refl|done].
  - intros l h' Hl Hge. apply lookup_lt_Some in Hl. lia.
Qed.

Lemma within_set_mn_registry (F : footprint) g w :
  may_enrol F → within F w (set_mn_registry g w).
Proof.
  intros Hmay. unfold within. simpl.
  split; [done|]. split; [|split; [|done]].
  - intros l h Hl. exists h. split; [done|]. split; [apply ha_fixed_refl|done].
  - intros l h' Hl Hge. apply lookup_lt_Some in Hl. lia.
Qed.

(** The combinators of the monad keep any preorder their parts keep,
    whether the run returns or raises. *)
Section Keeps.
Context (R : relation World) `{!PreOrder R}.

Lemma keeps_ret {A} (a : A) : keeps R (mret a : M A).
Proof. intros w. simpl. reflexivity. Qed.

Lemma keeps_raise {A} e : keeps R (raise e : M A).
Proof. intros w. simpl. reflexivity. Qed.

Lemma keeps_gets {A} (f : World → A) : keeps R (gets f).
Proof. intros w. simpl. reflexivity. Qed.

Lemma keeps_deref l : keeps R (deref l).
Proof. intros w. unfold deref. destruct (heap w !! l); [reflexivity|done]. Qed.

Lemma keeps_modify f : (∀ w, R w (f w)) → keeps R (modify f).
Proof. intros Hf w. apply Hf. Qed.

Lemma keeps_bind {A B} (m : M A) (k : A → M B) :
  keeps R m → (∀ a, keeps R (k a)) → keeps R (m ≫= k).
Proof.
  intros Hm Hk w. rewrite run_bind. specialize (Hm w).
  destruct (m w) as [a w1|e w1| |]; try done.
  specialize (Hk a w1). destruct (k a w1); try done; by etrans.
Qed.

Lemma keeps_try_except {A} (body : M A) handler :
  keeps R body → (∀ e, keeps R (handler e)) → keeps R (try_except body handler).
Proof.
  intros Hm Hk w. unfold try_except. specialize (Hm w).
  destruct (body w) as [a w1|e w1| |]; try done.
  specialize (Hk e w1). destruct (handler e w1); try done; by etrans.
Qed.

Lemma keeps_for_each {A} (xs : list A) body :
  (∀ x, keeps R (body x)) → keeps R (for_each xs body).
Proof.
  intros Hbody. induction xs as [|x xs IH]; [apply keeps_ret|].
  apply keeps_bind; [apply Hbody|]. intros _. apply IH.
Qed.
End Keeps.

Lemma keeps_update F l f :
  (∀ h, ha_fixed h (f h)
        ∧ ∀ k, ¬ keys F k → HomeAgent.bindings (f h) !! k = HomeAgent.bindings h !! k) →
  keeps (within F) (update l f).
Proof.
  intros Hf w. unfold update. destruct (heap w !! l) as [h|] eqn:Hl; [|done].
  destruct (Hf h). by apply within_update.
Qed.

(** One step of a footprint proof, chosen by the head of the program. *)
Ltac keeps_step :=
  lazymatch goal with
  | |- keeps ?R (_ ≫= _) => apply (keeps_bind R); [|intros ?]
  | |- keeps ?R (try_except _ _) => apply (keeps_try_except R); [|intros ?]
  | |- keeps ?R (mret _) => apply (keeps_ret R)
  | |- keeps ?R (raise _) => apply (keeps_raise R)
  | |- keeps ?R (gets _) => apply (keeps_gets R)
  | |- keeps ?R (deref _) => apply (keeps_deref R)
  | |- keeps ?R (print _) => apply (keeps_modify R); intros ?; by apply within_same_store
  | |- keeps ?R (for_each _ _) => apply (keeps_for_each R); intros ?
  | |- keeps ?R (modify _) =>
      apply (keeps_modify R); intros ?;
      first [ by apply within_same_store
            | by apply within_set_ha_registry
            | by apply within_set_mn_registry ]
  | |- keeps _ (update _ (HomeAgent.set_peers _)) =>
      apply keeps_update; intros ?; by repeat split
  | |- keeps _ (match decide _ with _ => _ end) => case_decide
  | |- keeps _ (match ?x with _ => _ end) => destruct x
  end.

(** The footprint of each function of the program.  A function that
    writes the Binding of a node needs the node's identifier among the
    keys, one that builds an authority needs [may_allocate], one that
    writes a registry needs [may_register] or [may_enrol]. *)
Section Ops.
Context (E : Env) (F : footprint).

Lemma keeps_generate_nonce : keeps (within F) (generate_nonce E).
Proof. unfold generate_nonce. repeat keeps_step. Qed.

Lemma keeps_add_route d g : keeps (within F) (add_route E d g).
Proof. unfold add_route. repeat keeps_step. Qed.

Lemma keeps_assign_ip fuel et : keeps (within F) (assign_ip E fuel et).
Proof.
  unfold assign_ip. keeps_step; [|keeps_step].
  induction fuel as [|fuel IH]; [done|].
  cbn [assign_ip_loop]. unfold randbelow. repeat keeps_step. apply IH.
Qed.

Lemma keeps_release_ip ip : keeps (within F) (release_ip ip).
Proof. unfold release_ip. repeat keeps_step. Qed.

Lemma keeps_set_binding l k b :
  keys F k → keeps (within F) (update l (HomeAgent.set_bindings (λ m, <[k := b]> m))).
Proof.
  intros Hk. apply keeps_update. intros h. split; [by repeat split|].
  intros k' Hk'. simpl. apply lookup_insert_ne. by intros ->.
Qed.

Lemma keeps_delete_binding l k :
  keys F k → keeps (within F) (update l (HomeAgent.set_bindings (delete k))).
Proof.
  intros Hk. apply keeps_update. intros h. split; [by repeat split|].
  intros k' Hk'. simpl. apply lookup_delete_ne. by intros ->.
Qed.

Lemma keeps_process_registration self fa mn registration :
  keys F (MobileNode.identity mn) →
  keeps (within F) (process_registration E self fa mn registration).
Proof.
  intros Hk. unfold process_registration.
  repeat keeps_step; first [by apply keeps_set_binding | apply keeps_add_route].
Qed.

Lemma keeps_handle_registration_request fa mn ha registration :
  keys F (MobileNode.identity mn) →
  keeps (within F) (handle_registration_request E fa mn ha registration).
Proof.
  intros Hk. unfold handle_registration_request. repeat keeps_step.
  by apply keeps_process_registration.
Qed.

Lemma keeps_re_register_with_original_ha mn fa :
  keys F (MobileNode.identity mn) →
  keeps (within F) (re_register_with_original_ha E mn fa).
Proof.
  intros Hk. unfold re_register_with_original_ha. repeat keeps_step.
  by apply keeps_handle_registration_request.
Qed.

Lemma keeps_initiate_registration mn ha fa :
  keys F (MobileNode.identity mn) →
  keeps (within F) (initiate_registration E mn ha fa).
Proof.
  intros Hk. unfold initiate_registration. repeat keeps_step.
  by apply keeps_handle_registration_request.
Qed.

Lemma keeps_move_to_new_network fuel mn ha fa :
  keys F (MobileNode.identity mn) →
  keeps (within F) (move_to_new_network E fuel mn ha fa).
Proof.
  intros Hk. unfold move_to_new_network.
  repeat keeps_step;
    first [ apply keeps_assign_ip | apply keeps_generate_nonce
          | by apply keeps_re_register_with_original_ha
          | by apply keeps_handle_registration_request ].
Qed.

Lemma keeps_MobileNode_init fuel identity home_agent :
  keeps (within F) (MobileNode_init E fuel identity home_agent).
Proof.
  unfold MobileNode_init.
  repeat keeps_step; first [ apply keeps_assign_ip | apply keeps_generate_nonce ].
Qed.

Lemma keeps_ForeignAgent_init fuel identity ip :
  keeps (within F) (ForeignAgent_init E fuel identity ip).
Proof.
  unfold ForeignAgent_init.
  repeat keeps_step; first [ apply keeps_assign_ip | apply keeps_generate_nonce ].
Qed.

Lemma keeps_HomeAgent_init fuel identity ip :
  may_allocate F → keeps (within F) (HomeAgent_init E fuel identity ip).
Proof.
  intros Hmay. unfold HomeAgent_init.
  repeat keeps_step; try first [ apply keeps_assign_ip | apply keeps_generate_nonce ].
  all: intros w; unfold new_ha; by apply within_new_ha.
Qed.

Lemma keeps_create_mesh_topology : keeps (within F) create_mesh_topology.
Proof.
  unfold create_mesh_topology, rebuild_peers, connect_peer. repeat keeps_step.
Qed.

Lemma keeps_ping_mobile_node source_id target_id :
  keeps (within F) (ping_mobile_node E source_id target_id).
Proof.
  unfold ping_mobile_node. repeat keeps_step. all: apply keeps_add_route.
Qed.

Lemma keeps_add_network fuel ha_id fa_id :
  may_allocate F → may_register F → keeps (within F) (add_network E fuel ha_id fa_id).
Proof.
  intros Ha Hr. unfold add_network.
  repeat keeps_step;
    first [ apply keeps_assign_ip | by apply keeps_HomeAgent_init
          | apply keeps_ForeignAgent_init | apply keeps_create_mesh_topology ].
Qed.

Lemma keeps_module_init :
  may_allocate F → may_register F → may_enrol F → keeps (within F) (module_init E).
Proof.
  intros Ha Hr He. unfold module_init.
  repeat keeps_step;
    first [ by apply keeps_HomeAgent_init | apply keeps_ForeignAgent_init
          | apply keeps_create_mesh_topology ].
Qed.

Lemma keeps_add_mobile_node fuel mn_id :
  (∀ k, keys F k) → may_enrol F → keeps (within F) (add_mobile_node E fuel mn_id).
Proof.
  intros Hk He. unfold add_mobile_node, randbelow.
  repeat keeps_step;
    first [ apply keeps_MobileNode_init | by apply keeps_initiate_registration ].
Qed.

Lemma keeps_move_mobile_node fuel mn_id selected_index :
  (∀ k, keys F k) → may_enrol F →
  keeps (within F) (move_mobile_node E fuel mn_id selected_index).
Proof.
  intros Hk He. unfold move_mobile_node.
  repeat keeps_step;
    first [ by apply keeps_move_to_new_network | by apply keeps_delete_binding ].
Qed.

End Ops.

(** ** The counter of the generator never goes back *)

Global Instance not_before_preorder : PreOrder not_before.
Proof. split; [intros w|intros w1 w2 w3]; unfold not_before; lia. Qed.

Lemma not_before_update l f : keeps not_before (update l f).
Proof. intros w. unfold update. destruct (heap w !! l); [|done]. unfold not_before. simpl. lia. Qed.

Lemma not_before_new_ha h : keeps not_before (new_ha h).
Proof. intros w. unfold new_ha, not_before. simpl. lia. Qed.

(** One step of a proof that a program never lowers the counter. *)
Ltac counter_step :=
  lazymatch goal with
  | |- keeps ?R (_ ≫= _) => apply (keeps_bind R); [|intros ?]
  | |- keeps ?R (try_except _ _) => apply (keeps_try_except R); [|intros ?]
  | |- keeps ?R (mret _) => apply (keeps_ret R)
  | |- keeps ?R (raise _) => apply (keeps_raise R)
  | |- keeps ?R (gets _) => apply (keeps_gets R)
  | |- keeps ?R (deref _) => apply (keeps_deref R)
  | |- keeps ?R (print _) => apply (keeps_modify R); intros ?; unfold not_before; simpl; lia
  | |- keeps ?R (for_each _ _) => apply (keeps_for_each R); intros ?
  | |- keeps ?R (modify _) => apply (keeps_modify R); intros ?; unfold not_before; simpl; lia
  | |- keeps _ (update _ _) => apply not_before_update
  | |- keeps _ (new_ha _) => apply not_before_new_ha
  | |- keeps _ (match decide _ with _ => _ end) => case_decide
  | |- keeps _ (match ?x with _ => _ end) => destruct x
  end.

Section Counter.
Context (E : Env).

Lemma not_before_generate_nonce : keeps not_before (generate_nonce E).
Proof. unfold generate_nonce. repeat counter_step. Qed.

Lemma not_before_add_route d g : keeps not_before (add_route E d g).
Proof. unfold add_route. repeat counter_step. Qed.

Lemma not_before_assign_ip fuel et : keeps not_before (assign_ip E fuel et).
Proof.
  unfold assign_ip. counter_step; [|counter_step].
  induction fuel as [|fuel IH]; [done|].
  cbn [assign_ip_loop]. unfold randbelow. repeat counter_step. apply IH.
Qed.

Lemma not_before_process_registration self fa mn registration :
  keeps not_before (process_registration E self fa mn registration).
Proof. unfold process_registration. repeat counter_step; apply not_before_add_route. Qed.

Lemma not_before_handle_registration_request fa mn ha registration :
  keeps not_before (handle_registration_request E fa mn ha registration).
Proof.
  unfold handle_registration_request. repeat counter_step.
  apply not_before_process_registration.
Qed.

Lemma not_before_re_register_with_original_ha mn fa :
  keeps not_before (re_register_with_original_ha E mn fa).
Proof.
  unfold re_register_with_original_ha. repeat counter_step.
  apply not_before_handle_registration_request.
Qed.

Lemma not_before_initiate_registration mn ha fa :
  keeps not_before (initiate_registration E mn ha fa).
Proof.
  unfold initiate_registration. repeat counter_step.
  apply not_before_handle_registration_request.
Qed.

Lemma not_before_move_to_new_network fuel mn ha fa :
  keeps not_before (move_to_new_network E fuel mn ha fa).
Proof.
  unfold move_to_new_network.
  repeat counter_step;
    first [ apply not_before_assign_ip | apply not_before_generate_nonce
          | apply not_before_re_register_with_original_ha
          | apply not_before_handle_registration_request ].
Qed.

Lemma not_before_MobileNode_init fuel identity home_agent :
  keeps not_before (MobileNode_init E fuel identity home_agent).
Proof.
  unfold MobileNode_init.
  repeat counter_step; first [ apply not_before_assign_ip | apply not_before_generate_nonce ].
Qed.

Lemma not_before_ForeignAgent_init fuel identity ip :
  keeps not_before (ForeignAgent_init E fuel identity ip).
Proof.
  unfold ForeignAgent_init.
  repeat counter_step; first [ apply not_before_assign_ip | apply not_before_generate_nonce ].
Qed.

Lemma not_before_HomeAgent_init fuel identity ip :
  keeps not_before (HomeAgent_init E fuel identity ip).
Proof.
  unfold HomeAgent_init.
  repeat counter_step; first [ apply not_before_assign_ip | apply not_before_generate_nonce ].
Qed.

Lemma not_before_create_mesh_topology : keeps not_before create_mesh_topology.
Proof. unfold create_mesh_topology, rebuild_peers, connect_peer. repeat counter_step. Qed.

(** Whatever the menu runs, the counter of the generator does not go
    back: a world reached later is not before the earlier one. *)
Lemma menu_not_before :
  (∀ fuel mn_id, keeps not_before (add_mobile_node E fuel mn_id))
  ∧ (∀ fuel ha_id fa_id, keeps not_before (add_network E fuel ha_id fa_id))
  ∧ (∀ fuel mn_id selected_index,
       keeps not_before (move_mobile_node E fuel mn_id selected_index))
  ∧ (∀ source_id target_id, keeps not_before (ping_mobile_node E source_id target_id)).
Proof.
  split; [|split; [|split]].
  - intros fuel mn_id. unfold add_mobile_node, randbelow.
    repeat counter_step;
      first [ apply not_before_MobileNode_init | apply not_before_initiate_registration ].
  - intros fuel ha_id fa_id. unfold add_network.
    repeat counter_step;
      first [ apply not_before_assign_ip | apply not_before_HomeAgent_init
            | apply not_before_ForeignAgent_init | apply not_before_create_mesh_topology ].
  - intros fuel mn_id selected_index. unfold move_mobile_node.
    repeat counter_step; apply not_before_move_to_new_network.
  - intros source_id target_id. unfold ping_mobile_node.
    repeat counter_step. all: apply not_before_add_route.
Qed.

End Counter.

(** ** Consequences of a footprint *)

Lemma within_secrets_constant F w w' :
  within F w w' → secrets_constant w → secrets_constant w'.
Proof.
  intros (_ & Hfix & Hnew & _) Hsecret l h' Hl.
  destruct (decide (l < length (heap w))) as [Hlt|Hge].
  - destruct (lookup_lt_is_Some_2 _ _ Hlt) as [h Hh].
    destruct (Hfix _ _ Hh) as (h'' & Hl' & (_ & _ & Hkey & _) & _).
    rewrite Hl in Hl'. injection Hl' as <-. rewrite Hkey. by eapply Hsecret.
  - apply (Hnew _ _ Hl). lia.
Qed.

Lemma within_registry_wf F w w' :
  ¬ may_register F → within F w w' → registry_wf w → registry_wf w'.
Proof.
  intros Hno (Hlen & _ & _ & _ & Hreg & _) [Hnd Hval]. specialize (Hreg Hno).
  split; rewrite Hreg; [done|]. intros l Hl. specialize (Hval _ Hl). lia.
Qed.

Lemma within_node_at_home F w w' k mn :
  ¬ keys F k → within F w w' → node_at_home w k mn → node_at_home w' k mn.
Proof.
  intros Hk (Hlen & Hfix & _) (Hid & Hhome & o & b & Ho & Hb & Hcoa).
  split; [done|]. split; [lia|].
  destruct (Hfix _ _ Ho) as (o' & Ho' & _ & Hkeep).
  exists o', b. split; [done|]. split; [|done]. by rewrite Hkeep.
Qed.

Lemma within_proper F w w1 w2 :
  heap w2 = heap w1 → ha_registry w2 = ha_registry w1 → mn_registry w2 = mn_registry w1 →
  within F w w1 → within F w w2.
Proof. unfold within. by intros -> -> ->. Qed.

(** A smaller footprint is within a larger one. *)
Lemma within_mono (F G : footprint) w w' :
  (∀ k, keys F k → keys G k) →
  (may_allocate F → may_allocate G) →
  (may_register F → may_register G) →
  (may_enrol F → may_enrol G) →
  within F w w' → within G w w'.
Proof.
  intros Hk Ha Hr He (Hlen & Hold & Hnew & Halloc & Hreg & Henrol).
  split; [done|]. split.
  { intros l h Hl. destruct (Hold l h Hl) as (h' & Hl' & Hfix & Hb).
    exists h'. split; [done|]. split; [done|]. intros k Hnk. apply Hb. by intros ?%Hk. }
  split; [done|]. split; [by intros ?; apply Halloc; intros ?%Ha|].
  split; [by intros ?; apply Hreg; intros ?%Hr|]. by intros ?; apply Henrol; intros ?%He.
Qed.

(** ** Dictionaries in insertion order *)

Lemma dict_get_None {V} k (d : list (string * V)) : dict_get k d = None ↔ k ∉ d.*1.
Proof.
  induction d as [|[k' v'] d IH]; simpl.
  - split; [intros _; apply not_elem_of_nil|done].
  - rewrite not_elem_of_cons. case_decide; [|by rewrite IH; intuition]. split; [done|].
    by intros [? _].
Qed.

Lemma dict_set_keys {V} k (v : V) d :
  (dict_set k v d).*1 = if decide (k ∈ d.*1) then d.*1 else d.*1 ++ [k].
Proof.
  induction d as [|[k' v'] d IH].
  - rewrite decide_False by apply not_elem_of_nil. done.
  - cbn [dict_set]. destruct (decide (k = k')) as [->|Hne].
    + rewrite decide_True by (rewrite fmap_cons; apply list_elem_of_here). done.
    + rewrite !fmap_cons, IH. cbn [fst]. destruct (decide (k ∈ d.*1)) as [Hin|Hout].
      * rewrite decide_True by (by apply list_elem_of_further). done.
      * rewrite decide_False by (by intros [?|?]%elem_of_cons). done.
Qed.

Lemma dict_set_NoDup_keys {V} k (v : V) d : NoDup d.*1 → NoDup (dict_set k v d).*1.
Proof.
  intros Hnd. rewrite dict_set_keys. case_decide as Hin; [done|].
  apply NoDup_app. split; [done|]. split; [|apply NoDup_singleton].
  intros x Hx ->%list_elem_of_singleton. done.
Qed.

Lemma dict_set_elem_of {V} k (v : V) d k' v' :
  NoDup d.*1 → (k', v') ∈ dict_set k v d → (k' = k ∧ v' = v) ∨ (k' ≠ k ∧ (k', v') ∈ d).
Proof.
  induction d as [|[k0 v0] d IH]; simpl; intros Hnd.
  - intros [[= -> ->]|Hin%elem_of_nil]%elem_of_cons; [by left|done].
  - apply NoDup_cons in Hnd as [Hfresh Hnd]. case_decide as Heq.
    + subst k0. intros [[= -> ->]|Hin]%elem_of_cons; [by left|]. right.
      split; [|by apply list_elem_of_further]. intros ->. apply Hfresh.
      apply list_elem_of_fmap. by exists (k, v').
    + intros [[= -> ->]|Hin]%elem_of_cons.
      * right. split; [by intros ->|apply list_elem_of_here].
      * destruct (IH Hnd Hin) as [?|[? ?]]; [by left|]. right.
        split; [done|by apply list_elem_of_further].
Qed.

Lemma dict_set_dict_set {V} k (v v0 : V) d : dict_set k v (dict_set k v0 d) = dict_set k v d.
Proof.
  induction d as [|[k' v'] d IH]; cbn [dict_set].
  - by rewrite decide_True.
  - case_decide; cbn [dict_set]; [by rewrite decide_True|].
    rewrite decide_False by done. by rewrite IH.
Qed.

(** ** The invariant of the running program *)

Section Invariant.
Context (E : Env).

(** A first registration at an allocated authority returns [success]. *)
Lemma run_initiate_registration mn ha h fa w :
  heap w !! ha = Some h →
  initiate_registration E mn ha fa w =
  Returns (Response.mk "success"
             (spec_binding E h fa (request_data (derive_temp_identity E mn))),
           derive_temp_identity E mn)
    (registered E ha h fa (derive_temp_identity E mn)
       (request_data (derive_temp_identity E mn)) w).
Proof.
  intros Hha. unfold initiate_registration. rewrite run_bind.
  erewrite (run_handle_registration_request_ok E fa (derive_temp_identity E mn) ha h);
    [by run|exact Hha|reflexivity].
Qed.

(** [add_mobile_node], when it returns: either the identifier was taken and
    only a line was printed, or the node is in the registry under its
    identifier and its home authority holds its Binding; nothing but that
    Binding and the registry of nodes changed. *)
Lemma add_mobile_node_Returns fuel mn_id w w' :
  registry_wf w →
  add_mobile_node E fuel mn_id w = Returns tt w' →
  within output_footprint w w'
  ∨ (within (node_footprint mn_id) w w'
     ∧ dict_get mn_id (mn_registry w) = None
     ∧ ∃ mn', mn_registry w' = dict_set mn_id mn' (mn_registry w)
              ∧ node_at_home w' mn_id mn').
Proof.
  intros [_ Hval]. unfold add_mobile_node. rewrite run_bind, run_gets. cbv beta iota.
  destruct (dict_get mn_id (mn_registry w)) as [?|] eqn:Hget.
  { rewrite run_print. intros [= <-]. left. by apply within_same_store. }
  rewrite run_bind, run_gets. cbv beta iota. rewrite run_bind. unfold randbelow.
  destruct (length (ha_registry w)) as [|n] eqn:Hn; [done|]. run.
  destruct (ha_registry w !! _) as [[ha_id ha]|] eqn:Hha; [|done].
  rewrite run_bind, run_gets. cbv beta iota.
  change (fa_registry (set_randbelow_calls S w)) with (fa_registry w).
  destruct (fa_registry w !! _) as [[fa_id fa]|] eqn:Hfa; [|done].
  assert (Hlt : ha < length (heap w)).
  { apply Hval. apply list_elem_of_lookup_2 in Hha. apply list_elem_of_fmap.
    by exists (ha_id, ha). }
  destruct (lookup_lt_is_Some_2 _ _ Hlt) as [h Hh].
  rewrite run_bind, (run_deref ha h); [|exact Hh]. run.
  unfold MobileNode_init. run.
  destruct (assign_ip E fuel "mn" _) as [coa w1| | |] eqn:Hassign; try done.
  apply assign_ip_Returns in Hassign as (? & ? & _ & _ & _ & _ & ->). run.
  unfold try_except. rewrite run_bind.
  erewrite run_initiate_registration; [|exact Hh]. run. intros [= <-].
  set (mn := MobileNode.mk mn_id None None _ coa ha ha).
  right. split; [|split; [done|]].
  - eapply within_proper; [..|etrans;
      [apply (within_update (node_footprint mn_id) ha
                (HomeAgent.set_bindings
                   (λ b, <[mn_id := spec_binding E h fa
                                      (request_data (derive_temp_identity E mn))]> b))
                h w); [by repeat split| |exact Hh]
      |apply (within_set_mn_registry (node_footprint mn_id)
                (dict_set mn_id (derive_temp_identity E mn))); done]]; try reflexivity.
    + simpl. by rewrite dict_set_dict_set.
    + intros k Hk. simpl. apply lookup_insert_ne. by intros ->.
  - exists (derive_temp_identity E mn). simpl. split; [by rewrite dict_set_dict_set|].
    split; [done|]. simpl. rewrite length_insert. split; [done|].
    eexists _, _. split; [by apply list_lookup_insert_eq|]. simpl.
    by rewrite lookup_insert_eq.
Qed.

(** [move_mobile_node], when it returns: either nothing moved and only
    lines were printed, or the moved node replaces the old one in the
    registry and is reachable at home; only Bindings of that node and the
    registry of nodes changed. *)
Lemma move_mobile_node_Returns fuel mn_id selected_index w w' :
  registry_wf w →
  (∀ mn, dict_get mn_id (mn_registry w) = Some mn → node_at_home w mn_id mn) →
  move_mobile_node E fuel mn_id selected_index w = Returns tt w' →
  within output_footprint w w'
  ∨ (within (node_footprint mn_id) w w'
     ∧ ∃ mn', mn_registry w' = dict_set mn_id mn' (mn_registry w)
              ∧ node_at_home w' mn_id mn').
Proof.
  intros [_ Hval] Hhome. unfold move_mobile_node.
  rewrite run_bind, run_gets. cbv beta iota.
  destruct (dict_get mn_id (mn_registry w)) as [mn|] eqn:Hget.
  2: { rewrite run_print. intros [= <-]. left. by apply within_same_store. }
  destruct (Hhome mn eq_refl) as (Hid & Hcurlt & o & b0 & Ho & _ & _).
  destruct (lookup_lt_is_Some_2 _ _ Hcurlt) as [cur Hcur].
  rewrite run_bind, (run_deref _ _ _ Hcur). run.
  simpl ha_registry. simpl fa_registry.
  destruct (available_networks _ _ _) as [|net nets] eqn:Hnets.
  { rewrite run_print. intros [= <-]. left. by apply within_same_store. }
  destruct ((net :: nets) !! selected_index) as [[[[new_ha_id new_ha] new_fa_id] new_fa]|]
    eqn:Hsel; [|done].
  assert (Hnew : new_ha < length (heap w)).
  { apply Hval. apply list_elem_of_lookup_2 in Hsel. rewrite <- Hnets in Hsel.
    apply available_networks_elem in Hsel as (Hin & _ & _).
    apply list_elem_of_fmap. by exists (new_ha_id, new_ha). }
  destruct (lookup_lt_is_Some_2 _ _ Hnew) as [n Hn].
  rewrite run_bind, (run_deref new_ha n); [|exact Hn]. run.
  match goal with
  | |- context [move_to_new_network E fuel mn new_ha new_fa ?w0] =>
      pose proof (keeps_move_to_new_network E (binding_footprint mn_id) fuel mn new_ha
                    new_fa Hid w0) as Hw;
      assert (Hw0 : within (binding_footprint mn_id) w w0) by (by apply within_same_store)
  end.
  destruct (move_to_new_network E fuel mn new_ha new_fa _) as [[r mn'] w1| | |] eqn:Hmove;
    try done.
  assert (Hw1 : within (binding_footprint mn_id) w w1) by (by etrans).
  clear Hw Hw0.
  assert (Hmns : mn_registry w1 = mn_registry w) by (apply Hw1; simpl; tauto).
  apply (within_mono _ (node_footprint mn_id)) in Hw1; [|done..].
  apply (move_to_new_network_Returns E fuel mn new_ha new_fa _ o n) in Hmove
    as (coa & c & _ & _ & _ & -> & -> & Hheap & _ & _); [|exact Ho|exact Hn].
  simpl in Hheap. run.
  set (mn' := moved E mn new_ha coa _) in *.
  assert (Ho1 : ∃ o' b, heap w1 !! MobileNode.original_ha mn = Some o'
                        ∧ HomeAgent.bindings o' !! mn_id = Some b
                        ∧ Binding.coa b = coa).
  { assert (MobileNode.original_ha mn < length (heap w)) by (by eapply lookup_lt_Some).
    rewrite Hheap, <- Hid.
    destruct (decide (new_ha = MobileNode.original_ha mn)) as [->|Hne].
    - eexists _, _. split; [apply list_lookup_insert_eq; by rewrite length_insert|].
      simpl. by rewrite lookup_insert_eq.
    - eexists _, _. rewrite list_lookup_insert_ne by done.
      split; [by apply list_lookup_insert_eq|]. simpl. by rewrite lookup_insert_eq. }
  destruct Ho1 as (o' & b & Ho' & Hb & Hcoa).
  assert (Hlen : length (heap w1) = length (heap w)) by (by rewrite Hheap, !length_insert).
  assert (Hcur1 : MobileNode.home_agent mn < length (heap w1)) by (by rewrite Hlen).
  destruct (lookup_lt_is_Some_2 _ _ Hcur1) as [cur1 Hcur1'].
  rewrite (run_deref _ cur1); [|exact Hcur1']. cbv beta iota.
  rewrite run_bind. case_decide as Hclean.
  - destruct Hclean as [_ Hne]. run. rewrite (run_update _ _ cur1); [|exact Hcur1'].
    cbv beta iota. rewrite decide_True by done. run. intros [= <-]. right. split.
    + etrans; [exact Hw1|].
      eapply within_proper; [..|etrans;
        [apply (within_update (node_footprint mn_id) (MobileNode.home_agent mn)
                  (HomeAgent.set_bindings (delete mn_id)) cur1 w1);
           [by repeat split| |exact Hcur1']
        |apply (within_set_mn_registry (node_footprint mn_id) (dict_set mn_id mn')); done]];
        try reflexivity.
      intros k Hk. simpl. apply lookup_delete_ne. by intros ->.
    + exists mn'. unfold node_at_home. simpl. split; [by rewrite Hmns|]. split; [done|].
      rewrite length_insert, Hlen. split; [exact Hnew|].
      exists o', b. by rewrite list_lookup_insert_ne.
  - run. rewrite decide_True by done. run. intros [= <-]. right. split.
    + etrans; [exact Hw1|].
      eapply within_proper;
        [..|apply (within_set_mn_registry (node_footprint mn_id) (dict_set mn_id mn')); done];
        reflexivity.
    + exists mn'. unfold node_at_home. simpl. split; [by rewrite Hmns|]. split; [done|].
      rewrite Hlen. split; [exact Hnew|].
      by exists o', b.
Qed.

(** An operation that stays within a footprint without Bindings and
    without enrolment keeps the invariant, once the registry of
    authorities is known to be well formed afterwards. *)
Lemma world_inv_within (F : footprint) w w' :
  (∀ k, ¬ keys F k) → ¬ may_enrol F →
  within F w w' → registry_wf w' → world_inv w → world_inv w'.
Proof.
  intros Hk He Hw Hwf (_ & Hsecret & Hnd & Hnodes).
  assert (Hmns : mn_registry w' = mn_registry w) by (by apply Hw).
  split; [done|]. split; [by eapply within_secrets_constant|]. rewrite Hmns.
  split; [done|]. intros k mn Hin. eapply within_node_at_home; [apply Hk|done|by apply Hnodes].
Qed.

(** An operation that enrols or moves the node [k] and stays within its
    footprint keeps the invariant when the node it leaves in the registry
    is reachable at home. *)
Lemma world_inv_node k mn' w w' :
  within (node_footprint k) w w' →
  mn_registry w' = dict_set k mn' (mn_registry w) →
  node_at_home w' k mn' →
  world_inv w → world_inv w'.
Proof.
  intros Hw Hmns Hhome (Hwf & Hsecret & Hnd & Hnodes).
  split; [eapply within_registry_wf; [|done..]; simpl; tauto|].
  split; [by eapply within_secrets_constant|]. rewrite Hmns.
  split; [by apply dict_set_NoDup_keys|]. intros k0 mn0 Hin.
  apply dict_set_elem_of in Hin as [[-> ->]|[Hne Hin]]; [done| |done].
  eapply within_node_at_home; [|done|by apply Hnodes]. simpl. done.
Qed.

(** Every world the menu loop goes through satisfies the invariant: the
    registry of authorities names distinct, allocated authorities (so the
    rebuilt mesh is complete, C7), every authority holds the one constant
    secret (C10), and every node of the registry has, at its original
    authority, a Binding with its current care-of address (C3). *)
Theorem reachable_world_inv w : reachable E w → world_inv w.
Proof.
  induction 1 as [w Hinit|fuel mn_id w w' _ IH Hrun|fuel ha_id fa_id w w' _ IH Hrun
                  |fuel mn_id i w w' _ IH Hrun|source_id target_id w w' _ IH Hrun
                  |lines w _ IH].
  - destruct (module_init_registry_wf E) as (w0 & Hrun & Hwf & _ & Hmns).
    rewrite Hinit in Hrun. injection Hrun as ->.
    pose proof (keeps_module_init E (Footprint (λ _, True) True True True) I I I empty_world)
      as Hw. rewrite Hinit in Hw.
    split; [done|]. split.
    { eapply within_secrets_constant; [exact Hw|]. intros l h Hl. done. }
    rewrite Hmns. split; [apply NoDup_nil_2|]. by intros k mn ?%elem_of_nil.
  - apply add_mobile_node_Returns in Hrun as [Hw|(Hw & _ & mn' & Hmns & Hhome)];
      [| |apply IH].
    + eapply (world_inv_within output_footprint); [by intros ? ?|by intros ?|done| |done].
      eapply within_registry_wf; [|done|apply IH]. by intros ?.
    + by eapply world_inv_node.
  - pose proof (keeps_add_network E network_footprint fuel ha_id fa_id I I w) as Hw.
    rewrite Hrun in Hw.
    eapply (world_inv_within network_footprint); [by intros ? ?|by intros ?|done| |done].
    eapply add_network_registry_wf; [apply IH|done].
  - apply move_mobile_node_Returns in Hrun as [Hw|(Hw & mn' & Hmns & Hhome)]; [| |apply IH|].
    + eapply (world_inv_within output_footprint); [by intros ? ?|by intros ?|done| |done].
      eapply within_registry_wf; [|done|apply IH]. by intros ?.
    + by eapply world_inv_node.
    + intros mn Hget. apply IH. by apply dict_get_elem_of.
  - pose proof (keeps_ping_mobile_node E output_footprint source_id target_id w) as Hw.
    rewrite Hrun in Hw.
    eapply (world_inv_within output_footprint); [by intros ? ?|by intros ?|done| |done].
    eapply within_registry_wf; [|done|apply IH]. by intros ?.
  - eapply (world_inv_within output_footprint); [by intros ? ?|by intros ?| |by apply IH|done].
    by apply within_same_store.
Qed.
End Invariant.

(** ** Outcomes read back *)

Lemma returned_Some {A} (o : outcome A) a : returned o = Some a → ∃ w, o = Returns a w.
Proof. destruct o; intros [= <-]. eauto. Qed.

Lemma returned_is_Some {A} (o : outcome A) : is_Some (returned o) → ∃ a w, o = Returns a w.
Proof. intros [a Ha]. apply returned_Some in Ha as [w ->]. eauto. Qed.

Lemma pool_exec_run E ops s s' : pool_exec E ops s = Some s' → pool_run E ops s s'.
Proof.
  revert s. induction ops as [|[fuel et|ip] ops IH]; intros [w held]; simpl.
  - intros [= <-]. constructor.
  - destruct (assign_ip E fuel et w) as [a w1|e w1| |] eqn:Hassign; try done; intros Hexec.
    + eapply run_step; [by apply step_assign|by apply IH].
    + eapply run_step; [by eapply step_assign_raises|by apply IH].
  - destruct (release_ip ip w) as [[] w1| | |] eqn:Hrel; try done; intros Hexec.
    eapply run_step; [by apply step_release|by apply IH].
Qed.

(** ** The scenario, checked *)

Lemma demo_world_store :
  heap demo_world1 !! 0 = Some demo_ha123
  ∧ heap demo_world2 !! 0 = Some demo_ha123_bound
  ∧ fa_registry demo_world = [("FA123", demo_fa123); ("FA456", demo_fa456);
                              ("FA789", ForeignAgent.mk "FA789" "192.168.2.3" "token5")]
  ∧ MobileNode_init demo_env 1 "MN1" 0 demo_world = Returns demo_mn1_new demo_world1
  ∧ MobileNode_init demo_env 1 "MN2" 0 demo_world2 =
      Returns (MobileNode.mk "MN2" None None "token7" "10.1.0.1" 0 0) demo_world3.
Proof. repeat split; vm_compute; reflexivity. Qed.

Lemma demo_request1_valid :
  RequestData.temp_identity (Registration.data demo_request1) =
  Some (spec_temp_identity demo_env (MobileNode.identity demo_mn1)
          (RequestData.nonce_mn (Registration.data demo_request1))).
Proof. reflexivity. Qed.


Lemma registration_stores_spec_binding_witness :
  heap demo_world1 !! 0 = Some demo_ha123
  ∧ ∃ r w' ha',
      process_registration demo_env 0 demo_fa123 demo_mn1 demo_request1 demo_world1 = Returns r w'
      ∧ heap w' !! 0 = Some ha'
      ∧ HomeAgent.bindings ha' !! "MN1" = Some (Response.binding r)
      ∧ Binding.shared_key_mn_fa (Response.binding r) =
          "hmac(shared_secret_mn_ha,token6token0FA123)".
Proof.
  assert (H : heap demo_world1 !! 0 = Some demo_ha123) by (vm_compute; reflexivity).
  split; [exact H|].
  destruct (registration_stores_spec_binding demo_env 0 demo_ha123 demo_fa123 demo_mn1
              demo_request1 demo_world1 H demo_request1_valid)
    as (r & w' & ha' & Hrun & Hha' & Hb & _ & Hkey & _).
  exists r, w', ha'. repeat split; [exact Hrun|exact Hha'|exact Hb|exact Hkey].
Defined.

Lemma move_keeps_home_binding_witness :
  heap demo_world2 !! MobileNode.original_ha demo_mn1 = Some demo_ha123_bound
  ∧ heap demo_world2 !! 1 = Some demo_ha456
  ∧ ∃ r mn' w' o' b,
      move_to_new_network demo_env 5 demo_mn1 1 demo_fa456 demo_world2 = Returns (r, mn') w'
      ∧ heap w' !! 0 = Some o'
      ∧ HomeAgent.bindings o' !! "MN1" = Some b
      ∧ Binding.coa b = MobileNode.coa mn'.
Proof.
  assert (Ho : heap demo_world2 !! MobileNode.original_ha demo_mn1 = Some demo_ha123_bound)
    by (vm_compute; reflexivity).
  assert (Hn : heap demo_world2 !! 1 = Some demo_ha456) by (vm_compute; reflexivity).
  split; [exact Ho|]. split; [exact Hn|].
  pose proof (move_keeps_home_binding demo_env 5 demo_mn1 1 demo_fa456 demo_world2
                demo_ha123_bound demo_ha456 Ho Hn) as H.
  destruct (move_to_new_network demo_env 5 demo_mn1 1 demo_fa456 demo_world2)
    as [[r mn'] w'|e w'| |] eqn:Hrun.
  - destruct H as (_ & _ & _ & _ & _ & (o' & b & Ho' & Hb & Hcoa) & _).
    exists r, mn', w', o', b. repeat split; [exact Ho'|exact Hb|exact Hcoa].
  - destruct H.
  - vm_compute in Hrun. discriminate Hrun.
  - destruct H.
Defined.

Lemma held_addresses_distinct_witness :
  ∃ w' held',
    pool_run demo_env demo_pool_ops (demo_world, []) (w', held')
    ∧ held'.*2 = ["10.1.0.5"; "192.168.1.4"]
    ∧ ∀ i j c1 a1 c2 a2,
        held' !! i = Some (c1, a1) → held' !! j = Some (c2, a2) → i ≠ j → a1 ≠ a2.
Proof.
  assert (Hheld : (λ s, s.2.*2) <$> pool_exec demo_env demo_pool_ops (demo_world, [])
                  = Some ["10.1.0.5"; "192.168.1.4"]) by (vm_compute; reflexivity).
  destruct (pool_exec demo_env demo_pool_ops (demo_world, [])) as [[w' held']|] eqn:Hexec;
    [|discriminate Hheld].
  injection Hheld as Hheld. apply pool_exec_run in Hexec.
  exists w', held'. split; [exact Hexec|]. split; [exact Hheld|].
  apply (held_addresses_distinct demo_env demo_pool_ops demo_world [] w' held').
  - constructor.
  - intros a Ha. destruct (proj1 (elem_of_nil a) Ha).
  - exact Hexec.
Defined.

Lemma demo_draws_below_255 : ∀ i, secrets_randbelow demo_env i 255 < 255.
Proof. intros i. change (i `mod` 255 < 255). apply Nat.mod_upper_bound. discriminate. Qed.

Lemma exhausted_pool_loops_forever_witness :
  ∃ ips w',
    assign_many demo_env 1 255 "mn" demo_world = Returns ips w'
    ∧ ∀ fuel', assign_ip demo_env fuel' "mn" w' = OutOfFuel.
Proof.
  assert (Hmany : is_Some (returned (assign_many demo_env 1 255 "mn" demo_world))).
  { apply (bool_decide_unpack _). vm_compute. reflexivity. }
  apply returned_is_Some in Hmany as (ips & w' & Hmany).
  exists ips, w'. split; [exact Hmany|].
  exact (proj2 (exhausted_pool_loops_forever demo_env 1 "mn" "10.1.0" demo_world ips w'
                  demo_draws_below_255 (network_id_map_mn) Hmany)).
Defined.

(** C6 as stated fails: [MN1] and [MN2] register one after the other
    through the relay [FA123].  The two requests differ (they carry the
    nonces of two nodes), both are accepted, and both come back stamped
    with the same relay nonce, the one [FA123] drew when it was built. *)
Lemma relay_nonce_reused :
  ∃ r1 stamped1 w1 r2 stamped2 w2,
    handle_registration_request demo_env demo_fa123 demo_mn1 0 demo_request1 demo_world1
      = Returns (r1, stamped1) w1
    ∧ handle_registration_request demo_env demo_fa123 demo_mn2 0 demo_request2 demo_world3
      = Returns (r2, stamped2) w2
    ∧ RequestData.nonce_mn (Registration.data stamped1)
      ≠ RequestData.nonce_mn (Registration.data stamped2)
    ∧ Registration.nonce stamped1 = Some "token3"
    ∧ Registration.nonce stamped2 = Some "token3".
Proof.
  eexists _, _, _, _, _, _.
  split; [vm_compute; reflexivity|]. split; [vm_compute; reflexivity|].
  split; [discriminate|]. split; reflexivity.
Qed.

(** The generator of the scenario never repeats a token. *)
Lemma demo_token_hex_inj i j : token_hex_16 demo_env i = token_hex_16 demo_env j → i = j.
Proof.
  change (token_hex_16 demo_env i) with ("token" +:+ pretty i).
  change (token_hex_16 demo_env j) with ("token" +:+ pretty j).
  intros H. apply (inj (String.app "token")) in H. by apply (inj pretty) in H.
Qed.

(** The life of [MN1] in the scenario: constructed, registered, moved to
    the second authority and then to the third. *)
Lemma demo_mn1_life :
  MobileNode_init demo_env 1 "MN1" 0 demo_world = Returns demo_mn1_new demo_world1
  ∧ (∃ r, initiate_registration demo_env demo_mn1_new 0 demo_fa123 demo_world1
          = Returns (r, demo_mn1) demo_world2)
  ∧ (∃ r, move_to_new_network demo_env 5 demo_mn1 1 demo_fa123 demo_world2
          = Returns (r, demo_mn1_moved) demo_world4)
  ∧ (∃ r mn'' w, move_to_new_network demo_env 5 demo_mn1_moved 2 demo_fa456 demo_world4
                 = Returns (r, mn'') w)
  ∧ (∃ o n, heap demo_world4 !! MobileNode.original_ha demo_mn1_moved = Some o
            ∧ heap demo_world4 !! 2 = Some n).
Proof.
  split; [vm_compute; reflexivity|].
  split; [eexists; vm_compute; reflexivity|].
  split; [eexists; vm_compute; reflexivity|].
  split; [eexists _, _, _; vm_compute; reflexivity|].
  eexists _, _. split; vm_compute; reflexivity.
Qed.

Lemma relay_nonce_fixed_node_nonce_per_move_witness :
  ∃ w0' r1 stamped1 w1' r2 stamped2 w2' r_i r mn'' r_b w_b',
    ForeignAgent_init demo_env 0 "FA123" (Some "192.168.2.1") demo_world0
      = Returns demo_fa123 w0'
    ∧ handle_registration_request demo_env demo_fa123 demo_mn1 0 demo_request1 demo_world1
      = Returns (r1, stamped1) w1'
    ∧ handle_registration_request demo_env demo_fa123 demo_mn2 0 demo_request2 demo_world3
      = Returns (r2, stamped2) w2'
    ∧ MobileNode_init demo_env 1 "MN1" 0 demo_world = Returns demo_mn1_new demo_world1
    ∧ initiate_registration demo_env demo_mn1_new 0 demo_fa123 demo_world1
      = Returns (r_i, demo_mn1) demo_world2
    ∧ move_to_new_network demo_env 5 demo_mn1 1 demo_fa123 demo_world2
      = Returns (r, demo_mn1_moved) demo_world4
    ∧ move_to_new_network demo_env 5 demo_mn1_moved 2 demo_fa456 demo_world4
      = Returns (r_b, mn'') w_b'
    ∧ Registration.nonce stamped1 = Some "token3"
    ∧ Registration.nonce stamped2 = Some "token3"
    ∧ MobileNode.nonce_mn demo_mn1 = MobileNode.nonce_mn demo_mn1_new
    ∧ MobileNode.nonce_mn demo_mn1_moved ≠ MobileNode.nonce_mn demo_mn1_new
    ∧ MobileNode.nonce_mn mn'' ≠ MobileNode.nonce_mn demo_mn1_moved
    ∧ MobileNode.nonce_mn mn'' ≠ MobileNode.nonce_mn demo_mn1_new.
Proof.
  assert (Ho : heap demo_world2 !! MobileNode.original_ha demo_mn1 = Some demo_ha123_bound)
    by (vm_compute; reflexivity).
  assert (Hn : heap demo_world2 !! 1 = Some demo_ha456) by (vm_compute; reflexivity).
  assert (Hfa : returned (ForeignAgent_init demo_env 0 "FA123" (Some "192.168.2.1") demo_world0)
                = Some demo_fa123)
    by (vm_compute; reflexivity).
  assert (H1 : is_Some (returned (handle_registration_request demo_env demo_fa123 demo_mn1 0
                                    demo_request1 demo_world1)))
    by (apply (bool_decide_unpack _); vm_compute; reflexivity).
  assert (H2 : is_Some (returned (handle_registration_request demo_env demo_fa123 demo_mn2 0
                                    demo_request2 demo_world3)))
    by (apply (bool_decide_unpack _); vm_compute; reflexivity).
  assert (Hc1 : not_before demo_world1 demo_world2) by (vm_compute; lia).
  assert (Hc2 : not_before demo_world4 demo_world4) by (unfold not_before; lia).
  destruct demo_mn1_life
    as (Hc & (r_i & Hi) & (r & Hmove) & (r_b & mn'' & w_b' & Hmoveb) & (o_b & n_b & Hob & Hnb)).
  apply returned_Some in Hfa as (w0' & Hfa).
  apply returned_is_Some in H1 as ([r1 stamped1] & w1' & H1).
  apply returned_is_Some in H2 as ([r2 stamped2] & w2' & H2).
  destruct (relay_nonce_fixed_node_nonce_per_move demo_env 0 "FA123" (Some "192.168.2.1")
              demo_world0 demo_fa123 w0'
              demo_mn1 0 demo_request1 demo_world1 r1 stamped1 w1'
              demo_mn2 0 demo_request2 demo_world3 r2 stamped2 w2'
              1 "MN1" 0 demo_world demo_mn1_new demo_world1
              0 demo_fa123 demo_world1 r_i demo_mn1 demo_world2
              5 demo_mn1 1 demo_fa123 demo_ha123_bound demo_ha456 demo_world2
              r demo_mn1_moved demo_world4
              5 demo_mn1_moved 2 demo_fa456 o_b n_b demo_world4 r_b mn'' w_b'
              Hfa H1 H2 Hc Hi Ho Hn Hmove Hob Hnb Hmoveb)
    as ((_ & Hs1 & Hs2 & _) & _ & (Hsame & _) & _ & Hfresh).
  destruct (Hfresh demo_token_hex_inj) as (Hf1 & Hf2 & Hf3).
  exists w0', r1, stamped1, w1', r2, stamped2, w2', r_i, r, mn'', r_b, w_b'.
  split; [exact Hfa|]. split; [exact H1|]. split; [exact H2|]. split; [exact Hc|].
  split; [exact Hi|]. split; [exact Hmove|]. split; [exact Hmoveb|].
  split; [exact Hs1|]. split; [exact Hs2|]. split; [exact Hsame|].
  split; [exact (Hf1 Hc1)|]. split; [exact (Hf2 Hc2)|exact (Hf3 Hc1 Hc2)].
Defined.

Lemma demo_registry_wf : registry_wf demo_world.
Proof.
  split.
  - vm_compute. repeat constructor; intros H; repeat (apply elem_of_cons in H as [H|H]; [discriminate H|]);
      by apply elem_of_nil in H.
  - intros l Hl. change (l ∈ [0; 1; 2]) in Hl. change (l < 3).
    repeat (apply elem_of_cons in Hl as [->|Hl]; [lia|]). by apply elem_of_nil in Hl.
Qed.

Lemma rebuild_gives_full_mesh_witness :
  registry_wf demo_world
  ∧ ∃ w', create_mesh_topology demo_world = Returns tt w'
          ∧ peers_with w' "HA123" "HA789" ∧ peers_with w' "HA789" "HA123"
          ∧ ¬ peers_with w' "HA456" "HA456".
Proof.
  split; [exact demo_registry_wf|].
  destruct (rebuild_gives_full_mesh demo_world demo_registry_wf)
    as (w' & Hrun & _ & Hchar & _ & Hirr & _).
  exists w'. split; [exact Hrun|].
  assert (Hkeys : (ha_registry demo_world).*1 = ["HA123"; "HA456"; "HA789"])
    by (vm_compute; reflexivity).
  split; [|split; [|apply Hirr]]; apply Hchar; rewrite Hkeys;
    (split; [|split; [|discriminate]]);
    repeat first [ apply list_elem_of_here | apply list_elem_of_further ].
Defined.

Lemma registration_replaces_binding_witness :
  heap demo_world2 !! 0 = Some demo_ha123_bound
  ∧ HomeAgent.bindings demo_ha123_bound !! MobileNode.identity demo_mn1 =
      Some (spec_binding demo_env demo_ha123 demo_fa123 (request_data demo_mn1))
  ∧ ∃ r w' ha',
      process_registration demo_env 0 demo_fa456 demo_mn1
        (Registration.init "re-registration" 0 (request_data demo_mn1)) demo_world2
      = Returns r w'
      ∧ heap w' !! 0 = Some ha'
      ∧ Response.binding r =
          spec_binding demo_env demo_ha123_bound demo_fa456 (request_data demo_mn1)
      ∧ HomeAgent.bindings ha' !! "MN1" = Some (Response.binding r)
      ∧ size (HomeAgent.bindings ha') = size (HomeAgent.bindings demo_ha123_bound).
Proof.
  assert (Hh : heap demo_world2 !! 0 = Some demo_ha123_bound) by (vm_compute; reflexivity).
  assert (Hold : HomeAgent.bindings demo_ha123_bound !! MobileNode.identity demo_mn1 =
                 Some (spec_binding demo_env demo_ha123 demo_fa123 (request_data demo_mn1)))
    by (vm_compute; reflexivity).
  split; [exact Hh|]. split; [exact Hold|].
  destruct (registration_replaces_binding demo_env 0 demo_ha123_bound demo_fa456 demo_mn1
              (Registration.init "re-registration" 0 (request_data demo_mn1)) demo_world2
              _ Hh Hold demo_request1_valid)
    as (r & w' & ha' & Hrun & Hha' & Hr & _ & Hb & _ & Hsize & _).
  exists r, w', ha'.
  split; [exact Hrun|]. split; [exact Hha'|]. split; [exact Hr|]. split; [exact Hb|exact Hsize].
Defined.

Lemma binding_stands_without_route_witness :
  heap demo_world1 !! 0 = Some demo_ha123
  ∧ ∃ r w1 w2,
      process_registration (with_subprocess_run demo_env (λ _ _, Completed)) 0 demo_fa123
        demo_mn1 demo_request1 demo_world1 = Returns r w1
      ∧ process_registration (with_subprocess_run demo_env route_always_fails) 0 demo_fa123
          demo_mn1 demo_request1 demo_world1 = Returns r w2
      ∧ Response.status r = "success"
      ∧ heap w1 = heap w2.
Proof.
  assert (H : heap demo_world1 !! 0 = Some demo_ha123) by (vm_compute; reflexivity).
  split; [exact H|].
  destruct (binding_stands_without_route demo_env 0 demo_ha123 demo_fa123 demo_mn1
              demo_request1 demo_world1 (λ _ _, Completed) H demo_request1_valid)
    as (r & w1 & w2 & ha' & Hrun1 & Hrun2 & Hstatus & Hheap & _).
  exists r, w1, w2. repeat split; [exact Hrun1|exact Hrun2|exact Hstatus|exact Hheap].
Defined.

Lemma session_key_under_one_secret_witness :
  ∃ l1 w1' l2 w2' r1 u1 r2 u2,
    HomeAgent_init demo_env 0 "HA123" (Some "192.168.1.1") empty_world = Returns l1 w1'
    ∧ HomeAgent_init demo_env 0 "HA456" (Some "192.168.1.2") empty_world = Returns l2 w2'
    ∧ process_registration demo_env l1 demo_fa123 demo_mn1 demo_request1 w1' = Returns r1 u1
    ∧ process_registration demo_env l2 demo_fa123 demo_mn1 demo_request1 w2' = Returns r2 u2
    ∧ Binding.shared_key_mn_fa (Response.binding r1) =
        Binding.shared_key_mn_fa (Response.binding r2).
Proof.
  assert (Hinit : ∃ l1 w1' l2 w2',
    HomeAgent_init demo_env 0 "HA123" (Some "192.168.1.1") empty_world = Returns l1 w1'
    ∧ HomeAgent_init demo_env 0 "HA456" (Some "192.168.1.2") empty_world = Returns l2 w2').
  { eexists _, _, _, _. split; vm_compute; reflexivity. }
  destruct Hinit as (l1 & w1' & l2 & w2' & H1 & H2).
  destruct (session_key_under_one_secret demo_env 0 "HA123" (Some "192.168.1.1") empty_world
              l1 w1' "HA456" (Some "192.168.1.2") empty_world l2 w2'
              demo_fa123 demo_mn1 demo_request1 H1 H2 demo_request1_valid)
    as (h1 & h2 & r1 & u1 & r2 & u2 & Hh1 & Hh2 & _ & _ & Hr1 & Hr2 & _ & _ & Heq).
  exists l1, w1', l2, w2', r1, u1, r2, u2.
  repeat split; [exact H1|exact H2|exact Hr1|exact Hr2|].
  apply Heq.
  apply HomeAgent_init_Returns in H1 as (a1 & -> & Hheap1 & _ & _).
  apply HomeAgent_init_Returns in H2 as (a2 & -> & Hheap2 & _ & _).
  rewrite Hheap1 in Hh1. rewrite Hheap2 in Hh2.
  injection Hh1 as <-. injection Hh2 as <-. reflexivity.
Defined.

(** ** More on dictionaries *)

Lemma dict_get_set_ne {V} k k' (v : V) d : k ≠ k' → dict_get k' (dict_set k v d) = dict_get k' d.
Proof.
  intros Hne. induction d as [|[k0 v0] d IH]; simpl.
  - by rewrite decide_False by (by intros ->).
  - destruct (decide (k = k0)) as [->|Hk]; simpl.
    + by rewrite !decide_False by (by intros ->).
    + case_decide; [done|]. exact IH.
Qed.

Lemma elem_of_dict_get {V} k (v : V) d : NoDup d.*1 → (k, v) ∈ d → dict_get k d = Some v.
Proof.
  induction d as [|[k0 v0] d IH]; simpl; intros Hnd Hin; [by apply elem_of_nil in Hin|].
  apply NoDup_cons in Hnd as [Hnot Hnd].
  apply elem_of_cons in Hin as [[= -> ->]|Hin]; [by rewrite decide_True|].
  rewrite decide_False; [by apply IH|]. intros ->. apply Hnot.
  apply list_elem_of_fmap. by exists (k0, v).
Qed.

Lemma dict_set_nonempty {V} k (v : V) d : dict_set k v d ≠ [].
Proof. destruct d as [|[k0 v0] d]; simpl; [done|]. by case_decide. Qed.

Lemma dict_set_length {V} k (v : V) d :
  length (dict_set k v d) = if decide (k ∈ d.*1) then length d else S (length d).
Proof.
  rewrite <- (length_fmap fst), dict_set_keys. case_decide; rewrite ?length_app, length_fmap.
  - done.
  - simpl. lia.
Qed.

(** The values of a dictionary after an assignment, seen through [f]. *)
Lemma dict_set_fmap_values {V B} (f : V → B) k (v : V) d x :
  x ∈ f <$> (dict_set k v d).*2 → x = f v ∨ x ∈ f <$> d.*2.
Proof.
  intros (y & -> & Hy)%list_elem_of_fmap.
  apply dict_set_values in Hy as [->|Hy]; [by left|]. right. by apply list_elem_of_fmap_2.
Qed.

Lemma dict_set_NoDup_fmap_values {V B} (f : V → B) k (v : V) d :
  f v ∉ f <$> d.*2 → NoDup (f <$> d.*2) → NoDup (f <$> (dict_set k v d).*2).
Proof.
  induction d as [|[k' v'] d IH]; simpl; intros Hfresh Hnd.
  - apply NoDup_singleton.
  - apply not_elem_of_cons in Hfresh as [Hne Hfresh]. apply NoDup_cons in Hnd as [Hnot Hnd].
    case_decide; simpl; apply NoDup_cons.
    + done.
    + split; [|by apply IH]. intros [?|Hin]%dict_set_fmap_values; [congruence|done].
Qed.

Lemma NoDup_app3 {A} (xs ys zs : list A) :
  NoDup (xs ++ ys ++ zs) ↔
  NoDup xs ∧ NoDup ys ∧ NoDup zs
  ∧ (∀ x, x ∈ xs → x ∉ ys) ∧ (∀ x, x ∈ xs → x ∉ zs) ∧ (∀ x, x ∈ ys → x ∉ zs).
Proof.
  rewrite !NoDup_app. setoid_rewrite elem_of_app. split.
  - intros (? & Hxs & ? & ? & ?). repeat split; try done.
    + intros x Hx Hy. apply (Hxs x Hx). by left.
    + intros x Hx Hz. apply (Hxs x Hx). by right.
  - intros (? & ? & ? & Hxy & Hxz & ?). repeat split; try done.
    intros x Hx [?|?]; [by eapply Hxy|by eapply Hxz].
Qed.

Lemma submseteq_NoDup {A} (l k : list A) : l ⊆+ k → NoDup k → NoDup l.
Proof. intros [k' ->]%submseteq_Permutation. by intros [? _]%NoDup_app. Qed.

Lemma dict_set_fmap_values_submseteq {V B} (f : V → B) k (v : V) d :
  f <$> (dict_set k v d).*2 ⊆+ f v :: (f <$> d.*2).
Proof.
  induction d as [|[k' v'] d IH]; simpl; [done|].
  case_decide; simpl.
  - apply submseteq_skip, submseteq_cons. done.
  - etrans; [apply submseteq_skip, IH|]. by rewrite Permutation_swap.
Qed.

(** ** The address pool, beyond the claims *)

Section PoolMore.
Context (E : Env).

Lemma network_id_map_None entity_type :
  network_id_map !! entity_type = None ↔ entity_type ∉ ["mn"; "fa"; "ha"].
Proof.
  unfold network_id_map. cbn [list_to_map foldr fst snd].
  rewrite !not_elem_of_cons, !lookup_insert_None.
  split.
  - intros (((_ & ?) & ?) & ?). repeat split; try done. apply not_elem_of_nil.
  - intros (? & ? & ? & _). by repeat split.
Qed.

(** X1.  [assign_ip] raises exactly for an entity type that is none of [mn],
    [fa] and [ha]; it then raises [ValueError] before any draw, and the
    world is as it was.  For the three known types it never raises. *)
Theorem assign_ip_unknown_type fuel entity_type w :
  (entity_type ∉ ["mn"; "fa"; "ha"] →
   assign_ip E fuel entity_type w =
   Raises (ValueError ("Unknown entity type: " +:+ entity_type)) w)
  ∧ (entity_type ∈ ["mn"; "fa"; "ha"] → ∀ e w', assign_ip E fuel entity_type w ≠ Raises e w').
Proof.
  split.
  - intros Hout%network_id_map_None. unfold assign_ip. by rewrite Hout.
  - intros Hin e w' Hrun.
    destruct (network_id_map !! entity_type) as [nid|] eqn:Hnid.
    + destruct (assign_ip_known_outcome E fuel entity_type nid w Hnid) as [(ip & w1 & Heq)|Heq];
        rewrite Heq in Hrun; discriminate.
    + by apply network_id_map_None in Hnid.
Qed.

(** X2.  Giving back the address [assign_ip] has just returned restores the set
    of assigned addresses; the two calls print one line each. *)
Theorem assign_then_release_restores_pool fuel entity_type w ip w1 :
  assign_ip E fuel entity_type w = Returns ip w1 →
  ∃ w2, release_ip ip w1 = Returns tt w2
        ∧ assigned_ips w2 = assigned_ips w
        ∧ stdout w2 = stdout w ++ ["Assigned IP " +:+ ip +:+ " to " +:+ entity_type;
                                   "Released IP " +:+ ip +:+ "."].
Proof.
  intros (nid & c & _ & _ & _ & Hfree & ->)%assign_ip_Returns.
  unfold release_ip. run. simpl assigned_ips.
  rewrite decide_True by (apply elem_of_union; right; by apply elem_of_singleton).
  run. eexists. split; [reflexivity|]. simpl. split.
  - apply set_eq. intros a.
    rewrite elem_of_difference, elem_of_union, elem_of_singleton.
    split; [by intros [[?|?] ?]|]. intros Ha. split; [by left|]. by intros ->.
  - by rewrite <- (assoc_L (++)).
Qed.

(** X3.  [release_ip] never raises, also for an address that is not held: the
    first call leaves the set without the address, a second call for the
    same address changes nothing and says so. *)
Theorem release_ip_twice ip w :
  ∃ w1 w2, release_ip ip w = Returns tt w1
           ∧ release_ip ip w1 = Returns tt w2
           ∧ assigned_ips w1 = assigned_ips w ∖ {[ip]}
           ∧ assigned_ips w2 = assigned_ips w1
           ∧ stdout w2 = stdout w1 ++ ["IP " +:+ ip +:+ " is not currently assigned."].
Proof.
  destruct (decide (ip ∈ assigned_ips w)) as [Hin|Hout].
  - eexists _, _.
    split; [unfold release_ip; run; rewrite decide_True by done; by run|].
    split.
    { unfold release_ip. run. cbn [assigned_ips set_stdout set_assigned_ips].
      rewrite decide_False
        by (rewrite elem_of_difference, elem_of_singleton; by intros [_ ?]).
      by run. }
    done.
  - eexists _, _.
    split; [unfold release_ip; run; rewrite decide_False by done; by run|].
    split; [unfold release_ip; run; simpl assigned_ips; rewrite decide_False by done; by run|].
    simpl. split; [|done].
    apply set_eq. intros a. rewrite elem_of_difference, elem_of_singleton.
    split; [|by intros [? _]]. intros Ha. split; [done|]. by intros ->.
Qed.

(** X4.  The three classes draw from disjoint ranges: two addresses assigned for
    different entity types are different, in whatever worlds the two calls
    were made. *)
Theorem address_classes_disjoint fuel1 entity_type1 w1 ip1 w1' fuel2 entity_type2 w2 ip2 w2' :
  assign_ip E fuel1 entity_type1 w1 = Returns ip1 w1' →
  assign_ip E fuel2 entity_type2 w2 = Returns ip2 w2' →
  entity_type1 ≠ entity_type2 →
  ip1 ≠ ip2.
Proof.
  intros (nid1 & c1 & Hnid1 & _ & -> & _)%assign_ip_Returns
         (nid2 & c2 & Hnid2 & _ & -> & _)%assign_ip_Returns Hne.
  unfold network_id_map in *. cbn [list_to_map foldr fst snd] in *.
  repeat match goal with
  | H : <[_ := _]> _ !! _ = Some _ |- _ =>
      apply lookup_insert_Some in H as [[<- <-]|[? H]]
  | H : ∅ !! _ = Some _ |- _ => by rewrite lookup_empty in H
  end; try done; simpl; discriminate.
Qed.

End PoolMore.

(** ** Routes and registrations, beyond the claims *)

Section RegistrationMore.
Context (E : Env).

(** The second world differs from the first in what was printed and in the
    number of subprocesses run, at most. *)
Lemma run_remove_route destination w :
  ∃ line, remove_route E destination w =
          Returns tt (set_stdout (λ out, out ++ [line]) (set_run_calls S w)).
Proof.
  unfold remove_route. rewrite run_bind, run_gets, run_bind, run_modify. cbv beta iota.
  destruct (subprocess_run _ _ _); rewrite run_print; eauto.
Qed.

(** X5.  Neither route helper lets a failure of the [route] command out:
    whatever the two subprocesses do, installing a route and removing it
    again returns, having run two commands and printed two lines, and
    leaves the store, the registries and the address pool alone. *)
Theorem route_helpers_never_raise destination gateway w :
  ∃ w1 w2,
    add_route E destination gateway w = Returns tt w1
    ∧ remove_route E destination w1 = Returns tt w2
    ∧ run_calls w2 = 2 + run_calls w
    ∧ length (stdout w2) = 2 + length (stdout w)
    ∧ heap w2 = heap w
    ∧ assigned_ips w2 = assigned_ips w
    ∧ ha_registry w2 = ha_registry w
    ∧ fa_registry w2 = fa_registry w
    ∧ mn_registry w2 = mn_registry w.
Proof.
  rewrite run_add_route.
  match goal with |- context [Returns tt ?w0 = _] =>
    destruct (run_remove_route destination w0) as [line Hrun]
  end.
  eexists _, _. split; [reflexivity|]. split; [exact Hrun|]. simpl.
  rewrite !length_app. simpl. repeat split; lia.
Qed.

(** X6.  Nothing protects against replay: the request that was just accepted
    is accepted again, with the same answer, and the second run leaves the
    store as the first did. *)
Theorem replayed_request_accepted_again self ha fa mn registration w :
  heap w !! self = Some ha →
  RequestData.temp_identity (Registration.data registration) =
    Some (spec_temp_identity E (MobileNode.identity mn)
            (RequestData.nonce_mn (Registration.data registration))) →
  ∃ r w1 w2,
    process_registration E self fa mn registration w = Returns r w1
    ∧ process_registration E self fa mn registration w1 = Returns r w2
    ∧ heap w2 = heap w1.
Proof.
  intros Hself Hid.
  assert (Hlen : self < length (heap w)) by (by eapply lookup_lt_Some).
  rewrite (run_process_registration_ok E _ _ _ _ _ _ Hself Hid).
  eexists _, _, _. split; [reflexivity|].
  erewrite run_process_registration_ok;
    [|simpl; by apply list_lookup_insert_eq|exact Hid].
  split; [reflexivity|]. simpl. rewrite list_insert_insert_eq. f_equal.
  unfold HomeAgent.set_bindings. simpl. f_equal. apply insert_insert_eq.
Qed.

(** X7.  What the authority does with a request depends on the relay only
    through its identity and address, and on the request only through its
    data: the nonce the relay stamps on it, the request type and the target
    written into it have no effect on the answer or on the world. *)
Theorem relay_nonce_and_request_type_unused fa fa' mn ha registration registration' w :
  ForeignAgent.identity fa' = ForeignAgent.identity fa →
  ForeignAgent.ip_address fa' = ForeignAgent.ip_address fa →
  Registration.data registration' = Registration.data registration →
  match handle_registration_request E fa mn ha registration w,
        handle_registration_request E fa' mn ha registration' w with
  | Returns (r, _) w1, Returns (r', _) w1' => r = r' ∧ w1 = w1'
  | Raises e w1, Raises e' w1' => e = e' ∧ w1 = w1'
  | OutOfFuel, OutOfFuel | BadRef, BadRef => True
  | _, _ => False
  end.
Proof.
  intros Hid Hip Hdata. unfold handle_registration_request. rewrite !run_bind.
  assert (process_registration E ha fa' mn
            (Registration.add_nonce registration' (ForeignAgent.nonce_fa fa')) w =
          process_registration E ha fa mn
            (Registration.add_nonce registration (ForeignAgent.nonce_fa fa)) w) as ->.
  { destruct fa, fa', registration, registration'. simpl in *. by subst. }
  destruct (process_registration E ha fa mn _ w); by run.
Qed.

(** X8.  The temporary identity a node derives in [initiate_registration] is
    the one the authority checks: a first registration at an allocated
    authority always succeeds, whatever the node's nonce and address are.
    The node comes back with that temporary identity and is otherwise
    unchanged, and the authority holds its Binding with its care-of
    address. *)
Theorem initiate_registration_accepted mn ha h fa w :
  heap w !! ha = Some h →
  ∃ r mn' w' h',
    initiate_registration E mn ha fa w = Returns (r, mn') w'
    ∧ Response.status r = "success"
    ∧ mn' = derive_temp_identity E mn
    ∧ heap w' !! ha = Some h'
    ∧ HomeAgent.bindings h' !! MobileNode.identity mn = Some (Response.binding r)
    ∧ Binding.coa (Response.binding r) = MobileNode.coa mn
    ∧ Binding.temp_identity (Response.binding r) =
        Some (generate_hash E (MobileNode.identity mn +:+ MobileNode.nonce_mn mn)).
Proof.
  intros Hh. unfold initiate_registration. rewrite run_bind.
  erewrite (run_handle_registration_request_ok E fa (derive_temp_identity E mn) ha h);
    [|exact Hh|reflexivity].
  run. eexists _, _, _, _. split; [reflexivity|]. split; [done|]. split; [done|]. simpl.
  split; [apply list_lookup_insert_eq; by eapply lookup_lt_Some|]. simpl.
  by rewrite lookup_insert_eq.
Qed.

(** X9.  A re-registration succeeds exactly when the node carries the temporary
    identity that matches its identity and its current nonce.  A node that
    was constructed but never registered has none: its re-registration
    prints the announcement, raises [Exception("Invalid registration
    data")] and changes nothing else. *)
Theorem re_registration_needs_temp_identity mn fa o w :
  heap w !! MobileNode.original_ha mn = Some o →
  ((∃ r w', re_register_with_original_ha E mn fa w = Returns r w') ↔
   MobileNode.temp_identity mn =
     Some (spec_temp_identity E (MobileNode.identity mn) (MobileNode.nonce_mn mn)))
  ∧ (MobileNode.temp_identity mn = None →
     re_register_with_original_ha E mn fa w =
       Raises (Exception "Invalid registration data")
         (set_stdout (λ out, out ++ ["Re-registering MN " +:+ MobileNode.identity mn
                                     +:+ " with original Home Agent "
                                     +:+ HomeAgent.identity o +:+ "."]) w)).
Proof.
  intros Ho.
  assert (Hfail : MobileNode.temp_identity mn ≠
            Some (spec_temp_identity E (MobileNode.identity mn) (MobileNode.nonce_mn mn)) →
          re_register_with_original_ha E mn fa w =
            Raises (Exception "Invalid registration data")
              (set_stdout (λ out, out ++ ["Re-registering MN " +:+ MobileNode.identity mn
                                          +:+ " with original Home Agent "
                                          +:+ HomeAgent.identity o +:+ "."]) w)).
  { intros Hne. unfold re_register_with_original_ha.
    rewrite run_bind, (run_deref _ _ _ Ho). run.
    unfold handle_registration_request. rewrite run_bind.
    by rewrite run_process_registration_fail. }
  split; [split|].
  - intros (r & w' & Hrun).
    destruct (decide (MobileNode.temp_identity mn =
      Some (spec_temp_identity E (MobileNode.identity mn) (MobileNode.nonce_mn mn))))
      as [|Hne]; [done|].
    rewrite (Hfail Hne) in Hrun. discriminate.
  - intros Hid. rewrite (run_re_register_with_original_ha E mn fa o w Ho Hid). eauto.
  - intros Hnone. apply Hfail. by rewrite Hnone.
Qed.

End RegistrationMore.

(** ** The selection menu *)

Section Menu.
Context (C : Curses).

Lemma network_selection_loop_in_range n keys selected_index i :
  (0 ≤ selected_index < Z.of_nat n)%Z →
  network_selection_loop C n keys selected_index = Some i →
  (0 ≤ i < Z.of_nat n)%Z.
Proof.
  revert selected_index. induction keys as [|key keys IH]; intros s Hs; [done|].
  cbn [network_selection_loop]. repeat case_decide.
  - apply IH. lia.
  - apply IH. lia.
  - by intros [= <-].
  - by apply IH.
Qed.

(** X10.  Whatever keys are pressed, and whatever codes the three special keys
    have, the index the menu returns is a position of the list it shows:
    the look-up [available_networks[selected_index]] that follows cannot
    fail. *)
Theorem network_selection_menu_in_range n keys i :
  0 < n →
  network_selection_menu C n keys = Some i →
  (0 ≤ i < Z.of_nat n)%Z.
Proof. intros Hn. apply network_selection_loop_in_range. lia. Qed.

End Menu.

Lemma network_selection_loop_up n u keys :
  network_selection_loop ncurses n (replicate u 259%Z ++ keys) 0
  = network_selection_loop ncurses n keys 0.
Proof.
  induction u as [|u IH]; [done|]. cbn [replicate app network_selection_loop].
  rewrite decide_False by (intros [_ ?]; lia).
  rewrite decide_False by (by intros [? _]).
  rewrite decide_False; [exact IH|].
  intros H. repeat (apply elem_of_cons in H as [H|H]; [discriminate H|]).
  by apply elem_of_nil in H.
Qed.

Lemma network_selection_loop_down n d selected_index :
  (0 ≤ selected_index < Z.of_nat n)%Z →
  network_selection_loop ncurses n (replicate d 258%Z ++ [10%Z]) selected_index
  = Some (Z.min (selected_index + Z.of_nat d) (Z.of_nat n - 1)).
Proof.
  revert selected_index. induction d as [|d IH]; intros s Hs.
  - cbn [replicate app network_selection_loop].
    rewrite decide_False by (by intros [? _]).
    rewrite decide_False by (by intros [? _]).
    rewrite decide_True by (apply list_elem_of_further, list_elem_of_here).
    f_equal. lia.
  - cbn [replicate app network_selection_loop].
    rewrite decide_False by (by intros [? _]).
    destruct (decide (258%Z = KEY_DOWN ncurses ∧ (s < Z.of_nat n - 1)%Z)) as [[_ Hlt]|Hlast].
    + rewrite IH by lia. f_equal. lia.
    + rewrite decide_False; cycle 1.
      { intros H. repeat (apply elem_of_cons in H as [H|H]; [discriminate H|]).
        by apply elem_of_nil in H. }
      rewrite IH by lia. f_equal.
      assert (¬ (s < Z.of_nat n - 1)%Z) by (intros ?; by apply Hlast). lia.
Qed.

(** X11.  With the key codes of ncurses the cursor does not wrap: the up arrow at
    the first entry is ignored, and [d] presses of the down arrow followed
    by Enter select the entry [d], or the last one when the list is
    shorter. *)
Theorem network_selection_menu_saturates n u d :
  0 < n →
  network_selection_menu ncurses n (replicate u 259%Z ++ replicate d 258%Z ++ [10%Z])
  = Some (Z.min (Z.of_nat d) (Z.of_nat n - 1)).
Proof.
  intros Hn. unfold network_selection_menu.
  rewrite network_selection_loop_up, network_selection_loop_down by lia. done.
Qed.

(** ** What each menu operation does to the world *)

Section Effects.
Context (E : Env).

Lemma assigned_address_nonempty network_id (n : nat) : network_id +:+ "." +:+ pretty n ≠ "".
Proof. destruct network_id; simpl; discriminate. Qed.

(** [add_network] that returns: two fresh addresses are held, one new
    authority is in the store and in the registry under [ha_id], one new
    relay is in the registry under [fa_id], the old authorities keep
    their Bindings, and the mesh is rebuilt over the new registry. *)
Lemma add_network_effect fuel ha_id fa_id w w' :
  registry_wf w →
  add_network E fuel ha_id fa_id w = Returns tt w' →
  ∃ ha_ip fa_ip nonce_ha nonce_fa,
    (ha_ip ∉ assigned_ips w) ∧ (fa_ip ∉ assigned_ips w) ∧ ha_ip ≠ fa_ip
    ∧ assigned_ips w' = assigned_ips w ∪ {[ha_ip]} ∪ {[fa_ip]}
    ∧ length (heap w') = S (length (heap w))
    ∧ (∃ h, heap w' !! length (heap w) = Some h
            ∧ HomeAgent.identity h = ha_id
            ∧ HomeAgent.ip_address h = ha_ip
            ∧ HomeAgent.shared_key_mn_ha h = "shared_secret_mn_ha"
            ∧ HomeAgent.nonce_ha h = nonce_ha
            ∧ HomeAgent.bindings h = ∅)
    ∧ (∀ l h, heap w !! l = Some h →
         ∃ h', heap w' !! l = Some h' ∧ ha_fixed h h'
               ∧ HomeAgent.bindings h' = HomeAgent.bindings h
               ∧ (l ∉ (ha_registry w').*2 → h' = h))
    ∧ ha_registry w' = dict_set ha_id (length (heap w)) (ha_registry w)
    ∧ fa_registry w' = dict_set fa_id (ForeignAgent.mk fa_id fa_ip nonce_fa) (fa_registry w)
    ∧ mn_registry w' = mn_registry w
    ∧ (∀ k l, (k, l) ∈ ha_registry w' →
         ∃ h, heap w' !! l = Some h ∧ HomeAgent.peers h = others k (ha_registry w')).
Proof.
  intros [Hnd Hval]. unfold add_network. rewrite run_bind.
  destruct (assign_ip E fuel "ha" w) as [ha_ip w1| | |] eqn:H1; try done.
  apply assign_ip_Returns in H1 as (nid1 & c1 & _ & _ & Hip1 & Hfree1 & ->). cbv beta iota.
  rewrite run_bind.
  destruct (assign_ip E fuel "fa" _) as [fa_ip w2| | |] eqn:H2; try done.
  apply assign_ip_Returns in H2 as (nid2 & c2 & _ & _ & Hip2 & Hfree2 & ->). cbv beta iota.
  simpl in Hfree2.
  rewrite run_bind, run_HomeAgent_init_given by (rewrite Hip1; apply assigned_address_nonempty).
  cbv beta iota.
  rewrite run_bind, run_ForeignAgent_init_given
    by (rewrite Hip2; apply assigned_address_nonempty).
  run.
  match goal with |- context [create_mesh_topology ?w0] =>
    destruct (create_mesh_topology_run w0) as (w5 & Hrun & Hlen & Hother & Hmesh & Hframe)
  end.
  { split; simpl.
    - apply dict_set_NoDup_values; [|done]. intros Hin. specialize (Hval _ Hin). lia.
    - intros l [->|Hin]%dict_set_values; rewrite length_app; simpl; [lia|].
      specialize (Hval _ Hin). lia. }
  rewrite Hrun. run. intros [= <-].
  destruct Hframe as (Hips & Hreg & Hfas & Hmns & _). simpl in *.
  eexists ha_ip, fa_ip, _, _.
  split; [done|].
  split; [intros Hin; apply Hfree2, elem_of_union; by left|].
  split; [intros ->; apply Hfree2, elem_of_union; right; by apply elem_of_singleton|].
  split; [done|].
  split; [by rewrite Hlen, length_app, Nat.add_1_r|].
  split.
  { destruct (Hmesh ha_id (length (heap w))) as (h0 & Hh0 & Hh').
    { apply dict_get_elem_of, dict_get_set_eq. }
    rewrite lookup_app_r, Nat.sub_diag in Hh0 by done. injection Hh0 as <-.
    eexists. split; [exact Hh'|]. done. }
  split.
  { intros l h Hl.
    assert (Hl0 : (heap w ++ [HomeAgent.mk ha_id ha_ip "shared_secret_mn_ha"
                                (token_hex_16 E (token_calls w)) ∅ ∅]) !! l = Some h)
      by (by apply lookup_app_l_Some).
    destruct (decide (l ∈ (dict_set ha_id (length (heap w)) (ha_registry w)).*2))
      as [Hin|Hout].
    - apply list_elem_of_fmap in Hin as ([k l'] & -> & Hin). simpl in *.
      destruct (Hmesh _ _ Hin) as (h0 & Hh0 & Hh'). rewrite Hl0 in Hh0. injection Hh0 as <-.
      eexists. split; [exact Hh'|]. split; [by repeat split|]. split; [done|].
      rewrite Hreg. intros Hout. destruct Hout. apply list_elem_of_fmap. by exists (k, l').
    - exists h. rewrite (Hother _ Hout). split; [done|]. by repeat split. }
  split; [done|]. split; [done|]. split; [done|].
  intros k l Hin. rewrite Hreg in Hin. destruct (Hmesh _ _ Hin) as (h0 & _ & Hh').
  eexists. split; [exact Hh'|]. simpl. by rewrite Hreg.
Qed.

(** [ping_mobile_node] always returns; it changes nothing but the output
    and the count of subprocesses. *)
Lemma ping_mobile_node_effect source_id target_id w :
  ∃ w', ping_mobile_node E source_id target_id w = Returns tt w'
        ∧ heap w' = heap w
        ∧ assigned_ips w' = assigned_ips w
        ∧ ha_registry w' = ha_registry w
        ∧ fa_registry w' = fa_registry w
        ∧ mn_registry w' = mn_registry w
        ∧ randbelow_calls w' = randbelow_calls w
        ∧ token_calls w' = token_calls w.
Proof.
  unfold ping_mobile_node. run.
  destruct (dict_get source_id (mn_registry w)) as [source|]; [|run; by eexists].
  destruct (dict_get target_id (mn_registry w)) as [target|]; [|run; by eexists].
  run. destruct (subprocess_run _ _ _); run; by eexists.
Qed.

(** [add_mobile_node] that returns: either the identifier was taken and a
    line was printed, or one fresh address is held by the new node, which
    is in the registry with the drawn authority as home and original
    authority, and that authority holds its Binding; no other Binding
    changed. *)
Lemma add_mobile_node_effect fuel mn_id w w' :
  registry_wf w →
  add_mobile_node E fuel mn_id w = Returns tt w' →
  (is_Some (dict_get mn_id (mn_registry w))
   ∧ w' = set_stdout (λ out, out ++ ["Error: MN already exists."]) w)
  ∨ (dict_get mn_id (mn_registry w) = None
     ∧ ∃ ha mn',
         ha ∈ (ha_registry w).*2
         ∧ MobileNode.identity mn' = mn_id
         ∧ MobileNode.home_agent mn' = ha
         ∧ MobileNode.original_ha mn' = ha
         ∧ (MobileNode.coa mn' ∉ assigned_ips w)
         ∧ assigned_ips w' = assigned_ips w ∪ {[MobileNode.coa mn']}
         ∧ mn_registry w' = dict_set mn_id mn' (mn_registry w)
         ∧ ha_registry w' = ha_registry w
         ∧ fa_registry w' = fa_registry w
         ∧ length (heap w') = length (heap w)
         ∧ ∀ l h, heap w !! l = Some h →
             ∃ h', heap w' !! l = Some h' ∧ ha_fixed h h'
                   ∧ HomeAgent.peers h' = HomeAgent.peers h
                   ∧ (∀ k, k ≠ mn_id → HomeAgent.bindings h' !! k = HomeAgent.bindings h !! k)
                   ∧ (l = ha → ∃ b, HomeAgent.bindings h' !! mn_id = Some b
                                    ∧ Binding.coa b = MobileNode.coa mn')
                   ∧ (l ≠ ha → HomeAgent.bindings h' !! mn_id = HomeAgent.bindings h !! mn_id)).
Proof.
  intros [_ Hval]. unfold add_mobile_node. rewrite run_bind, run_gets. cbv beta iota.
  destruct (dict_get mn_id (mn_registry w)) as [?|] eqn:Hget.
  { rewrite run_print. intros [= <-]. left. by split. }
  rewrite run_bind, run_gets. cbv beta iota. rewrite run_bind. unfold randbelow.
  destruct (length (ha_registry w)) as [|n] eqn:Hn; [done|]. run.
  destruct (ha_registry w !! _) as [[ha_id ha]|] eqn:Hha; [|done].
  rewrite run_bind, run_gets. cbv beta iota.
  change (fa_registry (set_randbelow_calls S w)) with (fa_registry w).
  destruct (fa_registry w !! _) as [[fa_id fa]|] eqn:Hfa; [|done].
  assert (Hin : ha ∈ (ha_registry w).*2).
  { apply list_elem_of_lookup_2 in Hha. apply list_elem_of_fmap. by exists (ha_id, ha). }
  assert (Hlt : ha < length (heap w)) by (by apply Hval).
  destruct (lookup_lt_is_Some_2 _ _ Hlt) as [h Hh].
  rewrite run_bind, (run_deref ha h); [|exact Hh]. run.
  unfold MobileNode_init. run.
  destruct (assign_ip E fuel "mn" _) as [coa w1| | |] eqn:Hassign; try done.
  apply assign_ip_Returns in Hassign as (? & ? & _ & _ & _ & Hfree & ->). run.
  unfold try_except. rewrite run_bind.
  erewrite run_initiate_registration; [|exact Hh]. run. intros [= <-].
  set (mn := MobileNode.mk mn_id None None _ coa ha ha).
  right. split; [done|]. exists ha, (derive_temp_identity E mn). simpl.
  split; [done|]. split; [done|]. split; [done|]. split; [done|]. split; [done|].
  split; [done|]. split; [by rewrite dict_set_dict_set|]. split; [done|]. split; [done|].
  split; [by rewrite length_insert|].
  intros l h0 Hl. destruct (decide (l = ha)) as [->|Hne].
  - rewrite Hh in Hl. injection Hl as <-.
    eexists. split; [by apply list_lookup_insert_eq|]. split; [by repeat split|]. simpl.
    split; [done|]. split; [by intros k Hk; apply lookup_insert_ne|].
    split; [|done]. intros _. eexists. by rewrite lookup_insert_eq.
  - exists h0. rewrite list_lookup_insert_ne by done. split; [done|].
    split; [by repeat split|]. by repeat split.
Qed.

(** A move between allocated authorities returns or is still drawing. *)
Lemma move_to_new_network_outcome fuel mn ha fa w o n :
  heap w !! MobileNode.original_ha mn = Some o →
  heap w !! ha = Some n →
  (∃ r mn' w', move_to_new_network E fuel mn ha fa w = Returns (r, mn') w')
  ∨ move_to_new_network E fuel mn ha fa w = OutOfFuel.
Proof.
  intros Ho Hn.
  destruct (assign_ip_known_outcome E fuel "mn" "10.1.0"
              (set_stdout (λ out, out ++ ["MobileNode " +:+ MobileNode.identity mn
                                          +:+ " moving to a new Foreign Network."]) w)
              network_id_map_mn) as [(coa & w1 & Hassign)|Hout].
  - left. rewrite (run_move_to_new_network E fuel mn ha fa w o n coa w1 Ho Hn Hassign).
    cbv zeta. eauto.
  - right. unfold move_to_new_network. run. by rewrite Hout.
Qed.

(** A move leaves the three registries alone. *)
Lemma move_to_new_network_registries fuel mn ha fa w o n r mn' w' :
  heap w !! MobileNode.original_ha mn = Some o →
  heap w !! ha = Some n →
  move_to_new_network E fuel mn ha fa w = Returns (r, mn') w' →
  ha_registry w' = ha_registry w ∧ fa_registry w' = fa_registry w
  ∧ mn_registry w' = mn_registry w.
Proof.
  intros Ho Hn Hrun.
  destruct (assign_ip_known_outcome E fuel "mn" "10.1.0"
              (set_stdout (λ out, out ++ ["MobileNode " +:+ MobileNode.identity mn
                                          +:+ " moving to a new Foreign Network."]) w)
              network_id_map_mn) as [(coa & w1 & Hassign)|Hout].
  - rewrite (run_move_to_new_network E fuel mn ha fa w o n coa w1 Ho Hn Hassign) in Hrun.
    cbv zeta in Hrun. injection Hrun as _ _ <-.
    by apply assign_ip_Returns in Hassign as (nid & c & _ & _ & _ & _ & ->).
  - unfold move_to_new_network in Hrun. revert Hrun. run. by rewrite Hout.
Qed.

(** The store after the two registrations of a move, seen from one
    reference. *)
Lemma moved_heap_lookup (hp : list HomeAgent.t) orig new o n id bA bB l h :
  hp !! orig = Some o → hp !! new = Some n → hp !! l = Some h →
  let B := HomeAgent.set_bindings (λ b, <[id := bB]> b) o in
  ∃ h1,
    <[new := HomeAgent.set_bindings (λ b, <[id := bA]> b) (if decide (new = orig) then B else n)]>
      (<[orig := B]> hp) !! l = Some h1
    ∧ ha_fixed h h1
    ∧ HomeAgent.peers h1 = HomeAgent.peers h
    ∧ (∀ k, k ≠ id → HomeAgent.bindings h1 !! k = HomeAgent.bindings h !! k)
    ∧ (l = new → HomeAgent.bindings h1 !! id = Some bA)
    ∧ (l = orig → l ≠ new → HomeAgent.bindings h1 !! id = Some bB)
    ∧ (l ≠ orig → l ≠ new → h1 = h).
Proof.
  intros Ho Hn Hl B.
  assert (Hlo : orig < length hp) by (by eapply lookup_lt_Some).
  assert (Hln : new < length hp) by (by eapply lookup_lt_Some).
  destruct (decide (l = new)) as [->|Hnew].
  - eexists. split; [apply list_lookup_insert_eq; by rewrite length_insert|].
    rewrite Hn in Hl. injection Hl as <-.
    case_decide as Heq.
    + subst new. rewrite Ho in Hn. injection Hn as <-. split; [by repeat split|]. simpl.
      split; [done|]. split; [by intros k Hk; rewrite !lookup_insert_ne|].
      split; [by intros _; rewrite lookup_insert_eq|]. done.
    + split; [by repeat split|]. simpl.
      split; [done|]. split; [by intros k Hk; rewrite lookup_insert_ne|].
      split; [by intros _; rewrite lookup_insert_eq|]. done.
  - rewrite list_lookup_insert_ne by done. destruct (decide (l = orig)) as [->|Horig].
    + eexists. split; [by apply list_lookup_insert_eq|].
      rewrite Ho in Hl. injection Hl as <-. split; [by repeat split|]. simpl.
      split; [done|]. split; [by intros k Hk; rewrite lookup_insert_ne|].
      split; [done|]. split; [by intros _ _; rewrite lookup_insert_eq|]. done.
    + rewrite list_lookup_insert_ne by done. exists h. split; [done|].
      split; [by repeat split|]. by repeat split.
Qed.

(** [move_mobile_node] that returns: either nothing moved, or one fresh
    address is held by the node, which is attached to another registered
    authority; its original and its new authority hold its Binding with
    the new address, the authority it left holds none unless it is the
    original one, and no Binding of another node changed. *)
Lemma move_mobile_node_effect fuel mn_id selected_index w w' :
  registry_wf w → registry_named w →
  (∀ mn, dict_get mn_id (mn_registry w) = Some mn → node_at_home w mn_id mn) →
  move_mobile_node E fuel mn_id selected_index w = Returns tt w' →
  (heap w' = heap w ∧ assigned_ips w' = assigned_ips w ∧ mn_registry w' = mn_registry w
   ∧ ha_registry w' = ha_registry w ∧ fa_registry w' = fa_registry w)
  ∨ ∃ mn mn',
      dict_get mn_id (mn_registry w) = Some mn
      ∧ MobileNode.identity mn' = mn_id
      ∧ MobileNode.original_ha mn' = MobileNode.original_ha mn
      ∧ MobileNode.home_agent mn' ∈ (ha_registry w).*2
      ∧ MobileNode.home_agent mn' ≠ MobileNode.home_agent mn
      ∧ (MobileNode.coa mn' ∉ assigned_ips w)
      ∧ assigned_ips w' = assigned_ips w ∪ {[MobileNode.coa mn']}
      ∧ mn_registry w' = dict_set mn_id mn' (mn_registry w)
      ∧ ha_registry w' = ha_registry w
      ∧ fa_registry w' = fa_registry w
      ∧ length (heap w') = length (heap w)
      ∧ ∀ l h, heap w !! l = Some h →
          ∃ h', heap w' !! l = Some h' ∧ ha_fixed h h'
                ∧ HomeAgent.peers h' = HomeAgent.peers h
                ∧ (∀ k, k ≠ mn_id → HomeAgent.bindings h' !! k = HomeAgent.bindings h !! k)
                ∧ (l = MobileNode.original_ha mn ∨ l = MobileNode.home_agent mn' →
                   ∃ b, HomeAgent.bindings h' !! mn_id = Some b
                        ∧ Binding.coa b = MobileNode.coa mn')
                ∧ (l ≠ MobileNode.original_ha mn → l ≠ MobileNode.home_agent mn' →
                   l = MobileNode.home_agent mn → HomeAgent.bindings h' !! mn_id = None)
                ∧ (l ≠ MobileNode.original_ha mn → l ≠ MobileNode.home_agent mn' →
                   l ≠ MobileNode.home_agent mn →
                   HomeAgent.bindings h' !! mn_id = HomeAgent.bindings h !! mn_id).
Proof.
  intros [_ Hval] Hnamed Hhome. unfold move_mobile_node.
  rewrite run_bind, run_gets. cbv beta iota.
  destruct (dict_get mn_id (mn_registry w)) as [mn|] eqn:Hget.
  2: { rewrite run_print. intros [= <-]. by left. }
  destruct (Hhome mn eq_refl) as (Hid & Hcurlt & o & b0 & Ho & _ & _).
  destruct (lookup_lt_is_Some_2 _ _ Hcurlt) as [cur Hcur].
  rewrite run_bind, (run_deref _ _ _ Hcur). run.
  simpl ha_registry. simpl fa_registry.
  destruct (available_networks _ _ _) as [|net nets] eqn:Hnets.
  { rewrite run_print. intros [= <-]. by left. }
  destruct ((net :: nets) !! selected_index) as [[[[new_ha_id new_ha] new_fa_id] new_fa]|]
    eqn:Hsel; [|done].
  apply list_elem_of_lookup_2 in Hsel. rewrite <- Hnets in Hsel.
  apply available_networks_elem in Hsel as (Hin & _ & Hother).
  destruct (Hnamed _ _ Hin) as (n & Hn & Hnid).
  assert (Hreg : new_ha ∈ (ha_registry w).*2)
    by (apply list_elem_of_fmap; by exists (new_ha_id, new_ha)).
  assert (Hne : new_ha ≠ MobileNode.home_agent mn).
  { intros ->. rewrite Hcur in Hn. injection Hn as <-. done. }
  rewrite run_bind, (run_deref new_ha n); [|exact Hn]. run.
  destruct (move_to_new_network E fuel mn new_ha new_fa _) as [[r mn'] w1| | |] eqn:Hmove;
    try done.
  pose proof Hmove as Hregs.
  apply (move_to_new_network_registries fuel mn new_ha new_fa _ o n) in Hregs
    as (Hhas & Hfas & Hmns); [|exact Ho|exact Hn].
  apply (move_to_new_network_Returns E fuel mn new_ha new_fa _ o n) in Hmove
    as (coa & c & _ & _ & Hfree & -> & -> & Hheap & Hips & _); [|exact Ho|exact Hn].
  simpl in Hheap, Hfree, Hips, Hhas, Hfas, Hmns. run.
  set (mn' := moved E mn new_ha coa _) in *.
  assert (Hlook : ∀ l h, heap w !! l = Some h →
    ∃ h1, heap w1 !! l = Some h1 ∧ ha_fixed h h1
          ∧ HomeAgent.peers h1 = HomeAgent.peers h
          ∧ (∀ k, k ≠ mn_id → HomeAgent.bindings h1 !! k = HomeAgent.bindings h !! k)
          ∧ (l = MobileNode.original_ha mn ∨ l = new_ha →
             ∃ b, HomeAgent.bindings h1 !! mn_id = Some b ∧ Binding.coa b = coa)
          ∧ (l ≠ MobileNode.original_ha mn → l ≠ new_ha → h1 = h)).
  { intros l h Hl. rewrite Hheap, Hid. unfold after_re_registration. simpl. rewrite Hid.
    destruct (moved_heap_lookup (heap w) (MobileNode.original_ha mn) new_ha o n mn_id
                (spec_binding E
                   (if decide (new_ha = MobileNode.original_ha mn)
                    then HomeAgent.set_bindings
                           (λ b, <[mn_id := spec_binding E o new_fa (request_data mn')]> b) o
                    else n) new_fa (request_data mn'))
                (spec_binding E o new_fa (request_data mn')) l h Ho Hn Hl)
      as (h1 & Hh1 & Hfix & Hpeers & Hkeep & Hnew & Horig & Hsame).
    exists h1. split; [exact Hh1|]. split; [done|]. split; [done|]. split; [done|].
    split; [|done]. intros Hcase. destruct (decide (l = new_ha)) as [->|Hnn].
    - eexists. split; [by apply Hnew|]. done.
    - destruct Hcase as [->|?]; [|done]. eexists. split; [by apply Horig|]. done. }
  assert (Hlen : length (heap w1) = length (heap w)) by (by rewrite Hheap, !length_insert).
  destruct (Hlook _ _ Hcur) as (cur1 & Hcur1 & _ & _ & _ & _ & Hcursame).
  rewrite (run_deref _ cur1); [|exact Hcur1]. cbv beta iota.
  rewrite run_bind.
  case_decide as Hclean.
  - destruct Hclean as [_ Horig]. run. rewrite (run_update _ _ cur1); [|exact Hcur1].
    cbv beta iota. rewrite decide_True by done. run. intros [= <-]. right.
    exists mn, mn'. simpl.
    split; [done|]. split; [done|]. split; [done|]. split; [exact Hreg|].
    split; [exact Hne|]. split; [exact Hfree|]. split; [exact Hips|].
    split; [by rewrite Hmns|]. split; [done|]. split; [done|].
    split; [by rewrite length_insert|].
    intros l h Hl. destruct (Hlook _ _ Hl) as (h1 & Hh1 & Hfix & Hpeers & Hkeep & Hnew & Hsame).
    destruct (decide (l = MobileNode.home_agent mn)) as [->|Hnc].
    + rewrite Hcur1 in Hh1. injection Hh1 as <-.
      eexists. split; [apply list_lookup_insert_eq; by rewrite Hlen|].
      split; [done|]. simpl. split; [done|].
      split; [by intros k Hk; rewrite lookup_delete_ne; [apply Hkeep|]|].
      split; [by intros [?|?]|]. split; [by intros; apply lookup_delete_eq|]. done.
    + exists h1. rewrite list_lookup_insert_ne by done. split; [done|].
      split; [done|]. split; [done|]. split; [done|]. split; [done|].
      split; [done|]. intros ? ? _. by rewrite (Hsame ltac:(done) ltac:(done)).
  - run. rewrite decide_True by done. run. intros [= <-]. right.
    exists mn, mn'. simpl.
    split; [done|]. split; [done|]. split; [done|]. split; [exact Hreg|].
    split; [exact Hne|]. split; [exact Hfree|]. split; [exact Hips|].
    split; [by rewrite Hmns|]. split; [done|]. split; [done|]. split; [done|].
    intros l h Hl. destruct (Hlook _ _ Hl) as (h1 & Hh1 & Hfix & Hpeers & Hkeep & Hnew & Hsame).
    exists h1. split; [done|]. split; [done|]. split; [done|]. split; [done|].
    split; [done|]. split.
    + intros Hno Hnn ->. rewrite Hcur1 in Hh1. injection Hh1 as <-.
      destruct (HomeAgent.bindings cur1 !! mn_id) as [b|] eqn:Hb; [|done].
      destruct Hclean. split; [by eexists|done].
    + intros ? ? _. by rewrite (Hsame ltac:(done) ltac:(done)).
Qed.

End Effects.

(** Worlds kept in normal form while the long run of [module_init] is
    followed. *)
Ltac world_cbn :=
  cbn [assigned_ips heap ha_registry fa_registry mn_registry stdout
       randbelow_calls token_calls run_calls
       set_assigned_ips set_heap set_ha_registry set_fa_registry set_mn_registry
       set_stdout set_randbelow_calls set_token_calls set_run_calls
       length app].

Ltac world_cbn_in H :=
  cbn [assigned_ips heap ha_registry fa_registry mn_registry stdout
       randbelow_calls token_calls run_calls
       set_assigned_ips set_heap set_ha_registry set_fa_registry set_mn_registry
       set_stdout set_randbelow_calls set_token_calls set_run_calls
       length app] in H.

Section Init.
Context (E : Env).

Lemma module_init_effect w :
  module_init E empty_world = Returns tt w →
  ha_registry w = [("HA123", 0); ("HA456", 1); ("HA789", 2)]
  ∧ ForeignAgent.ip_address <$> (fa_registry w).*2 = ["192.168.2.1"; "192.168.2.2"; "192.168.2.3"]
  ∧ mn_registry w = []
  ∧ HomeAgent.ip_address <$> heap w = ["192.168.1.1"; "192.168.1.2"; "192.168.1.3"]
  ∧ (∀ k l, (k, l) ∈ ha_registry w →
       ∃ h, heap w !! l = Some h ∧ HomeAgent.identity h = k
            ∧ HomeAgent.peers h = others k (ha_registry w))
  ∧ (∀ l h, heap w !! l = Some h → HomeAgent.bindings h = ∅)
  ∧ assigned_ips w = list_to_set ["192.168.1.1"; "192.168.1.2"; "192.168.1.3";
                                   "192.168.2.1"; "192.168.2.2"; "192.168.2.3"].
Proof.
  unfold module_init, empty_world.
  do 3 (rewrite run_bind, run_HomeAgent_init_given by done; cbv beta iota; world_cbn).
  rewrite run_bind, run_modify; cbv beta iota; world_cbn.
  do 3 (rewrite run_bind, run_ForeignAgent_init_given by done; cbv beta iota; world_cbn).
  do 2 (rewrite run_bind, run_modify; cbv beta iota; world_cbn).
  rewrite run_bind, run_gets; cbv beta iota; world_cbn.
  rewrite run_bind. cbn [for_each].
  do 3 (rewrite run_bind, run_bind; erewrite run_deref; [|world_cbn; reflexivity];
        cbv beta iota; rewrite run_modify; cbv beta iota; world_cbn).
  rewrite run_ret; cbv beta iota.
  rewrite run_bind, run_gets; cbv beta iota; world_cbn.
  rewrite run_bind. cbn [for_each].
  do 3 (rewrite run_bind, run_modify; cbv beta iota; world_cbn).
  rewrite run_ret; cbv beta iota.
  rewrite run_bind, run_gets; cbv beta iota; world_cbn.
  rewrite run_bind, run_print; cbv beta iota; world_cbn.
  match goal with |- context [create_mesh_topology ?w0] =>
    destruct (create_mesh_topology_run w0) as (w1 & Hrun & Hlen & Hother & Hmesh & Hframe)
  end.
  { split; world_cbn.
    - change (NoDup (seq 0 3)). apply NoDup_seq.
    - intros l Hl. change (l ∈ seq 0 3) in Hl. apply elem_of_seq in Hl. simpl. lia. }
  rewrite Hrun. intros [= <-]. 
  destruct Hframe as (Hips & Hreg & Hfas & Hmns & _).
  world_cbn_in Hips. world_cbn_in Hreg. world_cbn_in Hfas. world_cbn_in Hmns. world_cbn_in Hlen.
  world_cbn_in Hmesh. world_cbn_in Hother.
  assert (H0 := Hmesh "HA123" 0 ltac:(repeat constructor)).
  assert (H1 := Hmesh "HA456" 1 ltac:(repeat constructor)).
  assert (H2 := Hmesh "HA789" 2 ltac:(repeat constructor)).
  destruct H0 as (h0 & [= <-] & H0), H1 as (h1 & [= <-] & H1), H2 as (h2 & [= <-] & H2).
  destruct (heap w1) as [|a [|b [|c [|d hp]]]] eqn:Hheap; try discriminate Hlen.
  injection H0 as ->. injection H1 as ->. injection H2 as ->.
  split; [done|]. split; [by rewrite Hfas|]. split; [done|]. split; [done|].
  split; [|split].
  - rewrite Hreg. intros k l Hin.
    repeat (apply elem_of_cons in Hin as [[= -> ->]|Hin]; [eexists; by split|]).
    by apply elem_of_nil in Hin.
  - intros [|[|[|l]]] h; simpl; try (by intros [= <-]).
  - rewrite Hips. simpl. apply set_eq. intros x.
    rewrite !elem_of_union, !elem_of_singleton, elem_of_empty. tauto.
Qed.

End Init.

(** ** The invariant of the menu loop, continued *)

Section SystemInv.
Context (E : Env).

Lemma fmap_ip_address_fixed (hp hp' : list HomeAgent.t) :
  length hp' = length hp →
  (∀ l h, hp !! l = Some h → ∃ h', hp' !! l = Some h' ∧ ha_fixed h h') →
  HomeAgent.ip_address <$> hp' = HomeAgent.ip_address <$> hp.
Proof.
  intros Hlen Hfix. apply list_eq. intros l. rewrite !list_lookup_fmap.
  destruct (hp !! l) as [h|] eqn:Hl.
  - destruct (Hfix _ _ Hl) as (h' & -> & _ & Hip & _). simpl. by rewrite Hip.
  - apply lookup_ge_None in Hl. rewrite <- Hlen in Hl. apply lookup_ge_None in Hl.
    by rewrite Hl.
Qed.

(** The invariant looks at the store, the registries and the address set
    only. *)
Lemma system_inv_proper w w' :
  heap w' = heap w → assigned_ips w' = assigned_ips w → ha_registry w' = ha_registry w →
  fa_registry w' = fa_registry w → mn_registry w' = mn_registry w →
  system_inv w → system_inv w'.
Proof.
  unfold system_inv, registry_named, mesh_complete, node_attached, bindings_current,
    addresses_in_use.
  by intros -> -> -> -> ->.
Qed.

Lemma lookup_after (hp hp' : list HomeAgent.t) (P : loc → HomeAgent.t → HomeAgent.t → Prop) l h' :
  length hp' = length hp →
  (∀ l h, hp !! l = Some h → ∃ h', hp' !! l = Some h' ∧ P l h h') →
  hp' !! l = Some h' → ∃ h, hp !! l = Some h ∧ P l h h'.
Proof.
  intros Hlen Hall Hl'.
  destruct (lookup_lt_is_Some_2 hp l) as [h Hl].
  { rewrite <- Hlen. by eapply lookup_lt_Some. }
  destruct (Hall _ _ Hl) as (h'' & Hl'' & HP). rewrite Hl' in Hl''. injection Hl'' as <-.
  by exists h.
Qed.

(** A node enrolled or moved with a fresh care-of address keeps the
    addresses in use distinct and assigned. *)
Lemma addresses_after_node_update w w' mn_id mn' :
  NoDup (addresses_in_use w) →
  (∀ a, a ∈ addresses_in_use w → a ∈ assigned_ips w) →
  MobileNode.coa mn' ∉ assigned_ips w →
  assigned_ips w' = assigned_ips w ∪ {[MobileNode.coa mn']} →
  mn_registry w' = dict_set mn_id mn' (mn_registry w) →
  fa_registry w' = fa_registry w →
  length (heap w') = length (heap w) →
  (∀ l h, heap w !! l = Some h → ∃ h', heap w' !! l = Some h' ∧ ha_fixed h h') →
  NoDup (addresses_in_use w') ∧ (∀ a, a ∈ addresses_in_use w' → a ∈ assigned_ips w').
Proof.
  intros Hnd Hsub Hfree Hips Hmns Hfas Hlen Hlook.
  assert (Hused : ∀ a, a ∈ addresses_in_use w → a ≠ MobileNode.coa mn').
  { intros a Ha ->. by apply Hfree, Hsub. }
  unfold addresses_in_use in *.
  rewrite Hfas, Hmns, Hips, (fmap_ip_address_fixed (heap w) (heap w') Hlen Hlook). split.
  - apply NoDup_app3 in Hnd as (HA & HB & HC & HAB & HAC & HBC).
    apply (proj2 (NoDup_app3 _ _ _)).
    split; [done|]. split; [done|]. split; [|split; [done|split]].
    + apply dict_set_NoDup_fmap_values; [|done]. intros Hin.
      apply (Hused (MobileNode.coa mn')); [|done]. rewrite !elem_of_app. right. by right.
    + intros x Hx [->|Hin]%dict_set_fmap_values; [|by eapply HAC].
      apply (Hused (MobileNode.coa mn')); [|done]. rewrite !elem_of_app. by left.
    + intros x Hx [->|Hin]%dict_set_fmap_values; [|by eapply HBC].
      apply (Hused (MobileNode.coa mn')); [|done]. rewrite !elem_of_app. right. by left.
  - intros a. rewrite !elem_of_app, elem_of_union, elem_of_singleton.
    intros [Ha|[Ha|Ha]].
    + left. apply Hsub. rewrite !elem_of_app. by left.
    + left. apply Hsub. rewrite !elem_of_app. right. by left.
    + apply dict_set_fmap_values in Ha as [->|Ha]; [by right|].
      left. apply Hsub. rewrite !elem_of_app. right. by right.
Qed.

Lemma system_inv_add_mobile_node fuel mn_id w w' :
  world_inv w → system_inv w →
  add_mobile_node E fuel mn_id w = Returns tt w' →
  system_inv w'.
Proof.
  intros (Hwf & _ & Hmnd & _) Hinv Hrun.
  apply add_mobile_node_effect in Hrun
    as [[_ ->]|(Hnone & ha & mn' & Hha & Hid & Hhome & Horig & Hfree & Hips & Hmns & Hhas
                & Hfas & Hlen & Hlook)]; [| |exact Hwf].
  { by eapply system_inv_proper; [..|exact Hinv]. }
  destruct Hinv as (Hnamed & Hkeys & Hne & Hmesh & Hatt & Hcur & Hnd & Hsub).
  assert (Hhalt : ha < length (heap w)) by (by apply Hwf).
  destruct (lookup_lt_is_Some_2 _ _ Hhalt) as [hh Hhh].
  unfold system_inv, registry_named, mesh_complete. rewrite Hhas.
  split; [|split; [done|split; [done|split; [|split; [|split]]]]].
  - intros k l Hin. destruct (Hnamed _ _ Hin) as (h & Hh & Hidh).
    destruct (Hlook _ _ Hh) as (h' & Hh' & (Hi & _) & _). exists h'. split; [done|]. congruence.
  - intros k l Hin. destruct (Hmesh _ _ Hin) as (h & Hh & Hp).
    destruct (Hlook _ _ Hh) as (h' & Hh' & _ & Hpeers & _). exists h'.
    split; [done|]. congruence.
  - intros k mn Hin. rewrite Hmns in Hin.
    apply dict_set_elem_of in Hin as [[-> ->]|[Hk Hin]]; [| |exact Hmnd].
    + unfold node_attached. rewrite Hhome.
      destruct (Hlook _ _ Hhh) as (h' & Hh' & _ & _ & _ & Hnew & _).
      destruct (Hnew eq_refl) as (b & Hb & Hcoa). by exists h', b.
    + destruct (Hatt _ _ Hin) as (c & b & Hc & Hb & Hcoa).
      destruct (Hlook _ _ Hc) as (h' & Hh' & _ & _ & Hkeep & _).
      exists h', b. split; [done|]. split; [|done]. by rewrite Hkeep.
  - intros l h' k b Hl' Hb.
    destruct (lookup_after (heap w) (heap w') _ l h' Hlen Hlook Hl')
      as (h & Hl & _ & _ & Hkeep & Hnew & Hold).
    destruct (decide (k = mn_id)) as [->|Hk].
    + destruct (decide (l = ha)) as [->|Hl0].
      * exists mn'. rewrite Hmns, dict_get_set_eq. split; [done|]. split; [by left|].
        destruct (Hnew eq_refl) as (b' & Hb' & Hcoa). congruence.
      * rewrite (Hold Hl0) in Hb. destruct (Hcur _ _ _ _ Hl Hb) as (mn & Hget & _). congruence.
    + rewrite (Hkeep _ Hk) in Hb. destruct (Hcur _ _ _ _ Hl Hb) as (mn & Hget & Hwhere).
      exists mn. by rewrite Hmns, dict_get_set_ne.
  - eapply addresses_after_node_update; try done.
    intros l h Hl. destruct (Hlook _ _ Hl) as (h' & ? & ? & _). by exists h'.
Qed.

Lemma system_inv_move_mobile_node fuel mn_id selected_index w w' :
  world_inv w → system_inv w →
  move_mobile_node E fuel mn_id selected_index w = Returns tt w' →
  system_inv w'.
Proof.
  intros (Hwf & _ & Hmnd & Hnodes) Hinv Hrun.
  apply move_mobile_node_effect in Hrun
    as [(Hh & Hi & Hm & Hha & Hfa)
       |(mn & mn' & Hget & Hid & Horig & Hnewreg & Hnewne & Hfree & Hips & Hmns & Hhas
         & Hfas & Hlen & Hlook)];
    [| |exact Hwf|apply Hinv|intros mn Hget; apply Hnodes; by apply dict_get_elem_of].
  { by eapply system_inv_proper; [..|exact Hinv]. }
  destruct Hinv as (Hnamed & Hkeys & Hne & Hmesh & Hatt & Hcur & Hnd & Hsub).
  assert (Hnewlt : MobileNode.home_agent mn' < length (heap w)) by (by apply Hwf).
  destruct (lookup_lt_is_Some_2 _ _ Hnewlt) as [hn Hhn].
  unfold system_inv, registry_named, mesh_complete. rewrite Hhas.
  split; [|split; [done|split; [done|split; [|split; [|split]]]]].
  - intros k l Hin. destruct (Hnamed _ _ Hin) as (h & Hh & Hidh).
    destruct (Hlook _ _ Hh) as (h' & Hh' & (Hi & _) & _). exists h'. split; [done|]. congruence.
  - intros k l Hin. destruct (Hmesh _ _ Hin) as (h & Hh & Hp).
    destruct (Hlook _ _ Hh) as (h' & Hh' & _ & Hpeers & _). exists h'.
    split; [done|]. congruence.
  - intros k m Hin. rewrite Hmns in Hin.
    apply dict_set_elem_of in Hin as [[-> ->]|[Hk Hin]]; [| |exact Hmnd].
    + unfold node_attached.
      destruct (Hlook _ _ Hhn) as (h' & Hh' & _ & _ & _ & Hnew & _).
      destruct (Hnew ltac:(by right)) as (b & Hb & Hcoa). by exists h', b.
    + destruct (Hatt _ _ Hin) as (c & b & Hc & Hb & Hcoa).
      destruct (Hlook _ _ Hc) as (h' & Hh' & _ & _ & Hkeep & _).
      exists h', b. split; [done|]. split; [|done]. by rewrite Hkeep.
  - intros l h' k b Hl' Hb.
    destruct (lookup_after (heap w) (heap w') _ l h' Hlen Hlook Hl')
      as (h & Hl & _ & _ & Hkeep & Hnew & Hleft & Hold).
    destruct (decide (k = mn_id)) as [->|Hk].
    + destruct (decide (l = MobileNode.original_ha mn)) as [Ho|Hno].
      { exists mn'. rewrite Hmns, dict_get_set_eq, Horig. split; [done|]. split; [by left|].
        destruct (Hnew ltac:(by left)) as (b' & Hb' & Hcoa). congruence. }
      destruct (decide (l = MobileNode.home_agent mn')) as [Hn|Hnn].
      { exists mn'. rewrite Hmns, dict_get_set_eq. split; [done|]. split; [by right|].
        destruct (Hnew ltac:(by right)) as (b' & Hb' & Hcoa). congruence. }
      destruct (decide (l = MobileNode.home_agent mn)) as [Hc|Hnc].
      { rewrite (Hleft Hno Hnn Hc) in Hb. discriminate. }
      rewrite (Hold Hno Hnn Hnc) in Hb.
      destruct (Hcur _ _ _ _ Hl Hb) as (mn0 & Hget0 & [?|?] & _); congruence.
    + rewrite (Hkeep _ Hk) in Hb. destruct (Hcur _ _ _ _ Hl Hb) as (mn0 & Hget0 & Hwhere).
      exists mn0. by rewrite Hmns, dict_get_set_ne.
  - eapply addresses_after_node_update; try done.
    intros l h Hl. destruct (Hlook _ _ Hl) as (h' & ? & ? & _). by exists h'.
Qed.

Lemma fmap_ip_address_grown (hp hp' : list HomeAgent.t) hnew :
  length hp' = S (length hp) →
  (∀ l h, hp !! l = Some h → ∃ h', hp' !! l = Some h' ∧ ha_fixed h h') →
  hp' !! length hp = Some hnew →
  HomeAgent.ip_address <$> hp' = (HomeAgent.ip_address <$> hp) ++ [HomeAgent.ip_address hnew].
Proof.
  intros Hlen Hfix Hnew. apply list_eq. intros l.
  destruct (decide (l < length hp)) as [Hlt|Hge].
  - rewrite lookup_app_l by (by rewrite length_fmap). rewrite !list_lookup_fmap.
    destruct (lookup_lt_is_Some_2 _ _ Hlt) as [h Hl].
    destruct (Hfix _ _ Hl) as (h' & -> & _ & Hip & _). rewrite Hl. simpl. by rewrite Hip.
  - rewrite lookup_app_r by (rewrite length_fmap; lia). rewrite length_fmap, list_lookup_fmap.
    destruct (decide (l = length hp)) as [->|Hne].
    + by rewrite Hnew, Nat.sub_diag.
    + rewrite (proj2 (lookup_ge_None hp' l)) by lia.
      by rewrite (proj2 (lookup_ge_None _ _)) by (simpl; lia).
Qed.

Lemma system_inv_add_network fuel ha_id fa_id w w' :
  world_inv w → system_inv w →
  add_network E fuel ha_id fa_id w = Returns tt w' →
  system_inv w'.
Proof.
  intros (Hwf & _ & Hmnd & Hnodes) (Hnamed & Hkeys & Hne & Hmesh & Hatt & Hcur & Hnd & Hsub) Hrun.
  apply add_network_effect in Hrun
    as (ha_ip & fa_ip & nha & nfa & Hf1 & Hf2 & Hne12 & Hips & Hlen
        & (hnew & Hhnew & Hnid & Hnip & _ & _ & Hnb) & Hlook & Hhas & Hfas & Hmns & Hmesh');
    [|exact Hwf].
  unfold system_inv, registry_named. rewrite Hmns.
  split; [|split; [|split; [|split; [done|split; [|split]]]]].
  - intros k l Hin. rewrite Hhas in Hin.
    apply dict_set_elem_of in Hin as [[-> ->]|[Hk Hin]]; [by exists hnew| |exact Hkeys].
    destruct (Hnamed _ _ Hin) as (h & Hh & Hidh).
    destruct (Hlook _ _ Hh) as (h' & Hh' & (Hi & _) & _). exists h'. split; [done|]. congruence.
  - rewrite Hhas. by apply dict_set_NoDup_keys.
  - rewrite Hhas. apply dict_set_nonempty.
  - intros k mn Hin. destruct (Hatt _ _ Hin) as (c & b & Hc & Hb & Hcoa).
    destruct (Hlook _ _ Hc) as (h' & Hh' & _ & Hkeep & _).
    exists h', b. split; [done|]. split; [|done]. by rewrite Hkeep.
  - intros l h' k b Hl' Hb. destruct (decide (l = length (heap w))) as [->|Hl].
    + rewrite Hhnew in Hl'. injection Hl' as <-. by rewrite Hnb in Hb.
    + assert (Hlt : l < length (heap w)).
      { apply lookup_lt_Some in Hl'. lia. }
      destruct (lookup_lt_is_Some_2 _ _ Hlt) as [h Hh].
      destruct (Hlook _ _ Hh) as (h'' & Hh'' & _ & Hkeep & _).
      rewrite Hl' in Hh''. injection Hh'' as <-. rewrite Hkeep in Hb.
      rewrite Hmns. by eapply Hcur.
  - assert (Hsubm : addresses_in_use w' ⊆+ ha_ip :: fa_ip :: addresses_in_use w).
    { unfold addresses_in_use. rewrite Hfas, Hmns.
      rewrite (fmap_ip_address_grown (heap w) (heap w') hnew Hlen)
        by (try done; intros l h Hl; destruct (Hlook _ _ Hl) as (h' & ? & ? & _); by exists h').
      rewrite Hnip.
      etrans; [apply submseteq_skips_l, submseteq_skips_r,
                 (dict_set_fmap_values_submseteq ForeignAgent.ip_address)|].
      simpl. rewrite <- (assoc_L (++)). simpl.
      rewrite <- !Permutation_middle. done. }
    split.
    + eapply submseteq_NoDup; [exact Hsubm|].
      apply NoDup_cons. split.
      { intros [?|Hin]%elem_of_cons; [done|]. by apply Hf1, Hsub. }
      apply NoDup_cons. split; [|done]. intros Hin. by apply Hf2, Hsub.
    + intros a Ha. eapply elem_of_submseteq in Ha; [|exact Hsubm]. rewrite Hips.
      rewrite !elem_of_union, !elem_of_singleton.
      apply elem_of_cons in Ha as [->|Ha]; [left; by right|].
      apply elem_of_cons in Ha as [->|Ha]; [by right|]. left. left. by apply Hsub.
Qed.

Lemma system_inv_init w : module_init E empty_world = Returns tt w → system_inv w.
Proof.
  intros (Hhas & Hfas & Hmns & Hheap & Hreg & Hnb & Hips)%module_init_effect.
  unfold system_inv, registry_named, mesh_complete, bindings_current, addresses_in_use.
  rewrite Hmns, Hfas, Hheap, Hips.
  split; [|split; [|split; [|split; [|split; [|split; [|split]]]]]].
  - intros k l Hin. destruct (Hreg _ _ Hin) as (h & ? & ? & _). by exists h.
  - rewrite Hhas. apply (bool_decide_unpack _). by vm_compute.
  - by rewrite Hhas.
  - intros k l Hin. destruct (Hreg _ _ Hin) as (h & ? & _ & ?). by exists h.
  - by intros k mn Hin%elem_of_nil.
  - intros l h k b Hl Hb. by rewrite (Hnb _ _ Hl) in Hb.
  - apply (bool_decide_unpack _). by vm_compute.
  - intros a Ha. apply elem_of_list_to_set. exact Ha.
Qed.

(** Every world the menu loop goes through satisfies [system_inv]. *)
Lemma reachable_system_inv w : reachable E w → system_inv w.
Proof.
  induction 1 as [w Hinit|fuel mn_id w w' Hw IH Hrun|fuel ha_id fa_id w w' Hw IH Hrun
                  |fuel mn_id i w w' Hw IH Hrun|source_id target_id w w' Hw IH Hrun
                  |lines w Hw IH].
  - by apply system_inv_init.
  - eapply system_inv_add_mobile_node; [by apply (reachable_world_inv E)|done..].
  - eapply system_inv_add_network; [by apply (reachable_world_inv E)|done..].
  - eapply system_inv_move_mobile_node; [by apply (reachable_world_inv E)|done..].
  - destruct (ping_mobile_node_effect E source_id target_id w)
      as (w'' & Hrun' & ? & ? & ? & ? & ? & _).
    rewrite Hrun in Hrun'. injection Hrun' as <-. by eapply system_inv_proper.
  - by eapply system_inv_proper.
Qed.

End SystemInv.

(** ** What holds in every world of the menu loop *)

Section Everywhere.
Context (E : Env).

(** X12.  No Binding is ever stale.  In every world the menu loop reaches, a
    Binding held by any authority in the store belongs to a registered
    node, sits at that node's original or current authority, and carries
    the node's current care-of address: the clean-up of [move_mobile_node]
    removes the Binding at the authority the node left (unless that is the
    original one), and both registrations of a move carry the new
    address. *)
Theorem no_stale_binding w l h k b :
  reachable E w →
  heap w !! l = Some h →
  HomeAgent.bindings h !! k = Some b →
  ∃ mn, dict_get k (mn_registry w) = Some mn
        ∧ (l = MobileNode.original_ha mn ∨ l = MobileNode.home_agent mn)
        ∧ Binding.coa b = MobileNode.coa mn.
Proof. intros Hw. by apply (reachable_system_inv E w Hw). Qed.

(** X13.  Every registered node is bound twice over: in every world the menu
    loop reaches, a node of the registry is filed under its own identity,
    and both its original authority and the authority it is attached to
    hold a Binding for it with its current care-of address. *)
Theorem registered_node_is_bound w k mn :
  reachable E w →
  (k, mn) ∈ mn_registry w →
  MobileNode.identity mn = k
  ∧ dict_get k (mn_registry w) = Some mn
  ∧ (∃ o b, heap w !! MobileNode.original_ha mn = Some o
            ∧ HomeAgent.bindings o !! k = Some b
            ∧ Binding.coa b = MobileNode.coa mn)
  ∧ (∃ c b, heap w !! MobileNode.home_agent mn = Some c
            ∧ HomeAgent.bindings c !! k = Some b
            ∧ Binding.coa b = MobileNode.coa mn).
Proof.
  intros Hw Hin.
  destruct (reachable_world_inv E w Hw) as (_ & _ & Hnd & Hnodes).
  destruct (reachable_system_inv E w Hw) as (_ & _ & _ & _ & Hatt & _).
  destruct (Hnodes _ _ Hin) as (Hid & _ & Hhome).
  split; [done|]. split; [by apply elem_of_dict_get|]. split; [done|]. by apply Hatt.
Qed.

(** X14.  The addresses in use never collide.  In every world the menu loop
    reaches, the addresses of the authorities in the store, of the
    registered relays and of the registered nodes are pairwise different,
    and each of them is marked as assigned. *)
Theorem addresses_in_use_distinct w :
  reachable E w →
  NoDup (addresses_in_use w) ∧ ∀ a, a ∈ addresses_in_use w → a ∈ assigned_ips w.
Proof. intros Hw. apply (reachable_system_inv E w Hw). Qed.

(** X15.  The mesh is complete in every world the menu loop reaches, not only
    right after a rebuild: the registry names distinct allocated
    authorities by their own identities, and a registered authority peers
    with exactly the other registered identifiers. *)
Theorem mesh_complete_everywhere w :
  reachable E w →
  NoDup (ha_registry w).*1
  ∧ (∀ k l, (k, l) ∈ ha_registry w →
       ∃ h, heap w !! l = Some h ∧ HomeAgent.identity h = k
            ∧ ∀ b, b ∈ HomeAgent.peers h ↔ b ∈ (ha_registry w).*1 ∧ b ≠ k).
Proof.
  intros Hw.
  destruct (reachable_system_inv E w Hw) as (Hnamed & Hkeys & _ & Hmesh & _).
  split; [done|]. intros k l Hin.
  destruct (Hnamed _ _ Hin) as (h & Hh & Hid). destruct (Hmesh _ _ Hin) as (h' & Hh' & Hp).
  rewrite Hh in Hh'. injection Hh' as <-. exists h. split; [done|]. split; [done|].
  intros b. rewrite Hp. unfold others.
  rewrite elem_of_list_to_set, list_elem_of_filter. split; intros [? ?]; by split.
Qed.

(** X16.  The program never gives an address back.  When [move_mobile_node]
    returns in a world the menu loop reaches, either nothing moved and the
    set of assigned addresses is as it was, or the set grew by exactly the
    node's new care-of address, which was free, and the address the node
    had before the move is still marked as assigned: each move uses up one
    more address of the 255 of the class. *)
Theorem move_never_releases fuel mn_id selected_index w w' mn :
  reachable E w →
  dict_get mn_id (mn_registry w) = Some mn →
  move_mobile_node E fuel mn_id selected_index w = Returns tt w' →
  (assigned_ips w' = assigned_ips w ∧ mn_registry w' = mn_registry w)
  ∨ ∃ mn', dict_get mn_id (mn_registry w') = Some mn'
           ∧ (MobileNode.coa mn' ∉ assigned_ips w)
           ∧ assigned_ips w' = assigned_ips w ∪ {[MobileNode.coa mn']}
           ∧ MobileNode.coa mn ∈ assigned_ips w'
           ∧ size (assigned_ips w') = S (size (assigned_ips w)).
Proof.
  intros Hw Hget Hrun.
  destruct (reachable_world_inv E w Hw) as (Hwf & _ & Hnd & Hnodes).
  destruct (reachable_system_inv E w Hw) as (Hnamed & _ & _ & _ & _ & _ & _ & Hsub).
  assert (Hheld : MobileNode.coa mn ∈ assigned_ips w).
  { apply Hsub. unfold addresses_in_use. rewrite !elem_of_app. right. right.
    apply list_elem_of_fmap. exists mn. split; [done|]. apply list_elem_of_fmap.
    exists (mn_id, mn). split; [done|]. by apply dict_get_elem_of. }
  apply move_mobile_node_effect in Hrun
    as [(_ & Hi & Hm & _)|(mn0 & mn' & Hget0 & _ & _ & _ & _ & Hfree & Hips & Hmns & _)];
    [| |exact Hwf|exact Hnamed|intros m Hm; apply Hnodes; by apply dict_get_elem_of].
  - by left.
  - right. exists mn'. rewrite Hmns, dict_get_set_eq, Hips. split; [done|]. split; [done|].
    split; [done|]. split; [apply elem_of_union; by left|].
    rewrite size_union by (apply disjoint_singleton_r; exact Hfree).
    rewrite size_singleton. lia.
Qed.

End Everywhere.

(** ** Errors and edge cases of the menu operations *)

Section Edges.
Context (E : Env).

(** X17.  [add_mobile_node] cannot raise when there is an authority to draw and
    the registry of relays is at least as long as that of the
    authorities: the registration it makes is always accepted.  It returns
    unless the address loop is still drawing, which happens only while
    every draw names a held address. *)
Theorem add_mobile_node_never_raises fuel mn_id w :
  registry_wf w →
  ha_registry w ≠ [] →
  length (ha_registry w) ≤ length (fa_registry w) →
  (∀ n bound, 0 < bound → secrets_randbelow E n bound < bound) →
  match add_mobile_node E fuel mn_id w with
  | Returns _ _ => True
  | OutOfFuel =>
      ∀ k, k < fuel →
        "10.1.0" +:+ "." +:+ pretty (secrets_randbelow E (S (randbelow_calls w) + k) 255)
        ∈ assigned_ips w
  | Raises _ _ | BadRef => False
  end.
Proof.
  intros [_ Hval] Hne Hlen Hbound. unfold add_mobile_node.
  rewrite run_bind, run_gets. cbv beta iota.
  destruct (dict_get mn_id (mn_registry w)) as [?|] eqn:Hget; [by rewrite run_print|].
  rewrite run_bind, run_gets. cbv beta iota. rewrite run_bind. unfold randbelow.
  destruct (length (ha_registry w)) as [|n] eqn:Hn; [by destruct (ha_registry w)|]. run.
  assert (Hidx : secrets_randbelow E (randbelow_calls w) (S n) < S n) by (apply Hbound; lia).
  destruct (lookup_lt_is_Some_2 (ha_registry w) _ ltac:(rewrite Hn; exact Hidx))
    as [[ha_id ha] Hha].
  rewrite Hha. rewrite run_bind, run_gets. cbv beta iota.
  change (fa_registry (set_randbelow_calls S w)) with (fa_registry w).
  destruct (lookup_lt_is_Some_2 (fa_registry w) (secrets_randbelow E (randbelow_calls w) (S n))
              ltac:(lia)) as [[fa_id fa] Hfa].
  rewrite Hfa.
  assert (Hlt : ha < length (heap w)).
  { apply Hval. apply list_elem_of_lookup_2 in Hha. apply list_elem_of_fmap.
    by exists (ha_id, ha). }
  destruct (lookup_lt_is_Some_2 _ _ Hlt) as [h Hh].
  rewrite run_bind, (run_deref ha h); [|exact Hh]. run.
  unfold MobileNode_init. run.
  match goal with |- context [assign_ip E fuel "mn" ?w0] =>
    destruct (assign_ip_known_outcome E fuel "mn" "10.1.0" w0 network_id_map_mn)
      as [(coa & w1 & Hassign)|Hout]
  end.
  - rewrite Hassign. cbv beta iota.
    apply assign_ip_Returns in Hassign as (? & ? & _ & _ & _ & _ & ->). run.
    unfold try_except. rewrite run_bind.
    erewrite run_initiate_registration; [|exact Hh]. by run.
  - rewrite Hout. unfold assign_ip in Hout. rewrite network_id_map_mn in Hout.
    exact (proj1 (assign_ip_loop_OutOfFuel E fuel "10.1.0" "mn" _) Hout).
Qed.

(** X18.  The two registries are indexed with one random position.  When the
    registry of relays is shorter than that of the authorities and the
    position drawn lies beyond its end, [add_mobile_node] raises
    [IndexError]: one draw is used up, nothing else changes, and the node
    is not enrolled. *)
Theorem add_mobile_node_index_error fuel mn_id w :
  dict_get mn_id (mn_registry w) = None →
  secrets_randbelow E (randbelow_calls w) (length (ha_registry w)) < length (ha_registry w) →
  length (fa_registry w) ≤ secrets_randbelow E (randbelow_calls w) (length (ha_registry w)) →
  add_mobile_node E fuel mn_id w = Raises IndexError (set_randbelow_calls S w).
Proof.
  intros Hget Hidx Hshort. unfold add_mobile_node.
  rewrite run_bind, run_gets. cbv beta iota. rewrite Hget.
  rewrite run_bind, run_gets. cbv beta iota. rewrite run_bind. unfold randbelow.
  destruct (length (ha_registry w)) as [|n] eqn:Hn; [lia|]. run.
  destruct (lookup_lt_is_Some_2 (ha_registry w) _ ltac:(rewrite Hn; exact Hidx))
    as [[ha_id ha] Hha].
  rewrite Hha. rewrite run_bind, run_gets. cbv beta iota.
  change (fa_registry (set_randbelow_calls S w)) with (fa_registry w).
  by rewrite (proj2 (lookup_ge_None (fa_registry w) _) Hshort).
Qed.

(** X19.  [add_network] cannot raise in a world with a well-formed registry: it
    returns or one of its two address loops is still drawing. *)
Theorem add_network_never_raises fuel ha_id fa_id w :
  registry_wf w →
  match add_network E fuel ha_id fa_id w with
  | Returns _ _ | OutOfFuel => True
  | Raises _ _ | BadRef => False
  end.
Proof.
  intros [Hnd Hval]. unfold add_network. rewrite run_bind.
  destruct (assign_ip_known_outcome E fuel "ha" "192.168.1" w network_id_map_ha)
    as [(ha_ip & w1 & H1)|H1]; rewrite H1; [|done]. cbv beta iota.
  apply assign_ip_Returns in H1 as (nid1 & c1 & _ & _ & Hip1 & _ & ->).
  rewrite run_bind.
  match goal with |- context [assign_ip E fuel "fa" ?w0] =>
    destruct (assign_ip_known_outcome E fuel "fa" "192.168.2" w0 network_id_map_fa)
      as [(fa_ip & w2 & H2)|H2]
  end; rewrite H2; [|done]. cbv beta iota.
  apply assign_ip_Returns in H2 as (nid2 & c2 & _ & _ & Hip2 & _ & ->).
  rewrite run_bind, run_HomeAgent_init_given by (rewrite Hip1; apply assigned_address_nonempty).
  cbv beta iota.
  rewrite run_bind, run_ForeignAgent_init_given
    by (rewrite Hip2; apply assigned_address_nonempty).
  run.
  match goal with |- context [create_mesh_topology ?w0] =>
    destruct (create_mesh_topology_run w0) as (w5 & Hrun & _)
  end.
  { split; simpl.
    - apply dict_set_NoDup_values; [|done]. intros Hin. specialize (Hval _ Hin). lia.
    - intros l [->|Hin]%dict_set_values; rewrite length_app; simpl; [lia|].
      specialize (Hval _ Hin). lia. }
  rewrite Hrun. by run.
Qed.

Lemma dict_set_drops_old_value {V} k (v old : V) d :
  NoDup d.*1 → NoDup d.*2 → dict_get k d = Some old → v ≠ old → old ∉ (dict_set k v d).*2.
Proof.
  induction d as [|[k' v'] d IH]; simpl; [done|]. intros Hk Hv Hget Hne.
  apply NoDup_cons in Hk as [Hk' Hk]. apply NoDup_cons in Hv as [Hv' Hv].
  case_decide as Heq; simpl.
  - injection Hget as ->. apply not_elem_of_cons. by split.
  - apply not_elem_of_cons. split.
    + intros ->. apply Hv'. apply list_elem_of_fmap. exists (k, v'). split; [done|].
      by apply dict_get_elem_of.
    + by apply IH.
Qed.

(** X20.  Adding a network under an identifier that is already registered
    replaces the registry entry.  The authority that was registered stays
    in the store exactly as it was, Bindings and peers included, but no
    registry entry refers to it any more; the identifier names a new
    authority that holds no Binding. *)
Theorem add_network_orphans_old_authority fuel ha_id fa_id w w' old h :
  registry_wf w →
  NoDup (ha_registry w).*1 →
  dict_get ha_id (ha_registry w) = Some old →
  heap w !! old = Some h →
  add_network E fuel ha_id fa_id w = Returns tt w' →
  length (ha_registry w') = length (ha_registry w)
  ∧ (old ∉ (ha_registry w').*2)
  ∧ heap w' !! old = Some h
  ∧ ∃ new hnew, dict_get ha_id (ha_registry w') = Some new
                ∧ new ≠ old
                ∧ heap w' !! new = Some hnew
                ∧ HomeAgent.identity hnew = ha_id
                ∧ HomeAgent.bindings hnew = ∅.
Proof.
  intros Hwf Hkeys Hget Hh Hrun.
  apply add_network_effect in Hrun
    as (ha_ip & fa_ip & nha & nfa & _ & _ & _ & _ & Hlen
        & (hnew & Hhnew & Hnid & _ & _ & _ & Hnb) & Hlook & Hhas & _); [|exact Hwf].
  assert (Hold : old < length (heap w)) by (by eapply lookup_lt_Some).
  assert (Hout : old ∉ (ha_registry w').*2).
  { rewrite Hhas. apply dict_set_drops_old_value; [done|apply Hwf|done|lia]. }
  split.
  { rewrite Hhas, dict_set_length, decide_True; [done|].
    apply list_elem_of_fmap. exists (ha_id, old). split; [done|]. by apply dict_get_elem_of. }
  split; [done|]. split.
  { destruct (Hlook _ _ Hh) as (h' & Hh' & _ & _ & Hsame). by rewrite (Hsame Hout) in Hh'. }
  exists (length (heap w)), hnew. rewrite Hhas, dict_get_set_eq.
  split; [done|]. split; [lia|]. done.
Qed.

(** X21.  The two registries grow independently: an identifier that is new adds
    an entry, one that is registered already does not.  After an
    [add_network] with a new authority identifier and a registered relay
    identifier the registry of authorities is the longer one. *)
Theorem add_network_registry_lengths fuel ha_id fa_id w w' :
  registry_wf w →
  add_network E fuel ha_id fa_id w = Returns tt w' →
  length (ha_registry w') =
    (if decide (ha_id ∈ (ha_registry w).*1) then length (ha_registry w)
     else S (length (ha_registry w)))
  ∧ length (fa_registry w') =
      (if decide (fa_id ∈ (fa_registry w).*1) then length (fa_registry w)
       else S (length (fa_registry w))).
Proof.
  intros Hwf Hrun.
  apply add_network_effect in Hrun
    as (ha_ip & fa_ip & nha & nfa & _ & _ & _ & _ & _ & _ & _ & Hhas & Hfas & _); [|exact Hwf].
  by rewrite Hhas, Hfas, !dict_set_length.
Qed.

(** X22.  [ping_mobile_node] never raises, whatever the two subprocesses do.  An
    unknown source is reported before an unknown target, and then no
    command is run; with both nodes registered two commands are run.  The
    store, the registries and the address pool are left alone. *)
Theorem ping_mobile_node_never_raises source_id target_id w :
  ∃ w',
    ping_mobile_node E source_id target_id w = Returns tt w'
    ∧ heap w' = heap w ∧ assigned_ips w' = assigned_ips w
    ∧ ha_registry w' = ha_registry w ∧ fa_registry w' = fa_registry w
    ∧ mn_registry w' = mn_registry w
    ∧ (dict_get source_id (mn_registry w) = None →
       w' = set_stdout
              (λ out, out ++ ["Error: Source Mobile Node " +:+ source_id +:+ " not found."]) w)
    ∧ (is_Some (dict_get source_id (mn_registry w)) →
       dict_get target_id (mn_registry w) = None →
       w' = set_stdout
              (λ out, out ++ ["Error: Target Mobile Node " +:+ target_id +:+ " not found."]) w)
    ∧ (is_Some (dict_get source_id (mn_registry w)) →
       is_Some (dict_get target_id (mn_registry w)) →
       run_calls w' = 2 + run_calls w ∧ length (stdout w') = 3 + length (stdout w)).
Proof.
  unfold ping_mobile_node. run.
  destruct (dict_get source_id (mn_registry w)) as [source|].
  2: { run. eexists. split; [done|]. repeat split; try done; by intros []. }
  destruct (dict_get target_id (mn_registry w)) as [target|].
  2: { run. eexists. split; [done|]. repeat split; try done; by intros _ []. }
  run. destruct (subprocess_run _ _ _); run; (eexists; split; [done|]);
    simpl; rewrite !length_app; simpl; repeat split; try done; lia.
Qed.

End Edges.

(** ** The move, with the index the menu returns *)

Section MoveMenu.
Context (E : Env) (C : Curses).

(** X23.  In a world the menu loop reaches, [move_mobile_node] run with the index
    the selection menu returns cannot raise: the index is a position of
    the list of networks offered, the authorities involved are allocated,
    and both registrations of the move are accepted.  It returns unless the
    address loop is still drawing. *)
Theorem move_with_menu_choice_never_raises fuel mn_id keys i w :
  reachable E w →
  network_selection_menu C (length (networks_offered w mn_id)) keys = Some i →
  match move_mobile_node E fuel mn_id (Z.to_nat i) w with
  | Returns _ _ | OutOfFuel => True
  | Raises _ _ | BadRef => False
  end.
Proof.
  intros Hw Hmenu.
  destruct (reachable_world_inv E w Hw) as ((_ & Hval) & _ & _ & Hnodes).
  unfold move_mobile_node. rewrite run_bind, run_gets. cbv beta iota.
  unfold networks_offered in Hmenu.
  destruct (dict_get mn_id (mn_registry w)) as [mn|] eqn:Hget; [|by rewrite run_print].
  destruct (Hnodes mn_id mn (dict_get_elem_of _ _ _ Hget)) as (Hid & Hcurlt & o & b0 & Ho & _).
  destruct (lookup_lt_is_Some_2 _ _ Hcurlt) as [cur Hcur]. rewrite Hcur in Hmenu.
  rewrite run_bind, (run_deref _ _ _ Hcur). run.
  simpl ha_registry. simpl fa_registry.
  change (ha_registry (set_stdout _ (set_stdout _ (set_stdout _ w)))) with (ha_registry w).
  change (fa_registry (set_stdout _ (set_stdout _ (set_stdout _ w)))) with (fa_registry w).
  destruct (available_networks _ _ _) as [|net nets] eqn:Hnets; [by rewrite run_print|].
  unfold network_selection_menu in Hmenu.
  apply network_selection_loop_in_range in Hmenu; [|simpl; lia].
  destruct (lookup_lt_is_Some_2 (net :: nets) (Z.to_nat i) ltac:(lia))
    as [[[[new_ha_id new_ha] new_fa_id] new_fa] Hsel].
  rewrite Hsel.
  apply list_elem_of_lookup_2 in Hsel. rewrite <- Hnets in Hsel.
  apply available_networks_elem in Hsel as (Hin & _ & _).
  assert (Hnew : new_ha < length (heap w)).
  { apply Hval. apply list_elem_of_fmap. by exists (new_ha_id, new_ha). }
  destruct (lookup_lt_is_Some_2 _ _ Hnew) as [n Hn].
  rewrite run_bind, (run_deref new_ha n); [|exact Hn]. run.
  match goal with |- context [move_to_new_network E fuel mn new_ha new_fa ?w0] =>
    destruct (move_to_new_network_outcome E fuel mn new_ha new_fa w0 o n Ho Hn)
      as [(r & mn' & w1 & Hmove)|Hmove]
  end; rewrite Hmove; [|done].
  apply (move_to_new_network_Returns E fuel mn new_ha new_fa _ o n) in Hmove
    as (coa & c & _ & _ & _ & _ & -> & Hheap & _); [|exact Ho|exact Hn].
  cbv beta iota. run.
  destruct (lookup_lt_is_Some_2 (heap w1) (MobileNode.home_agent mn)) as [cur1 Hcur1];
    [by rewrite Hheap, !length_insert|].
  rewrite (run_deref _ cur1); [|exact Hcur1]. cbv beta iota. rewrite run_bind.
  case_decide.
  - run. rewrite (run_update _ _ cur1); [|exact Hcur1]. cbv beta iota.
    rewrite decide_True by done. by run.
  - run. rewrite decide_True by done. by run.
Qed.

End MoveMenu.

(** ** The rebuild of the mesh, beyond the claims *)

(** X24.  [create_mesh_topology] writes the peers of the registered authorities
    and nothing else: every authority keeps its identity, address, secret,
    nonce and Bindings, an authority that no registry entry refers to keeps
    its peers too, and the registries, the address pool and the counters
    of the outside are as they were. *)
Theorem rebuild_changes_only_peers w :
  registry_wf w →
  ∃ w', create_mesh_topology w = Returns tt w'
        ∧ frame w w'
        ∧ length (heap w') = length (heap w)
        ∧ ∀ l h, heap w !! l = Some h →
            ∃ h', heap w' !! l = Some h'
                  ∧ ha_fixed h h'
                  ∧ HomeAgent.bindings h' = HomeAgent.bindings h
                  ∧ (l ∉ (ha_registry w).*2 → h' = h).
Proof.
  intros Hwf.
  destruct (create_mesh_topology_run w Hwf) as (w' & Hrun & Hlen & Hother & Hmesh & Hframe).
  exists w'. split; [done|]. split; [done|]. split; [done|].
  intros l h Hl. destruct (decide (l ∈ (ha_registry w).*2)) as [Hin|Hout].
  - apply list_elem_of_fmap in Hin as ([k l'] & -> & Hin). simpl in *.
    destruct (Hmesh _ _ Hin) as (h0 & Hh0 & Hh'). rewrite Hl in Hh0. injection Hh0 as <-.
    eexists. split; [exact Hh'|]. split; [by repeat split|]. split; [done|].
    intros Hout. destruct Hout. apply list_elem_of_fmap. by exists (k, l').
  - exists h. rewrite (Hother _ Hout). split; [done|]. by repeat split.
Qed.

Lemma length_filter_ne (k : string) (ks : list string) :
  NoDup ks → k ∈ ks → S (length (filter (λ peer_id, k ≠ peer_id) ks)) = length ks.
Proof.
  induction ks as [|k' ks IH]; intros Hnd Hin; [by apply elem_of_nil in Hin|].
  apply NoDup_cons in Hnd as [Hnot Hnd].
  destruct (decide (k = k')) as [<-|Hne].
  - rewrite filter_cons_False by (by intros ?). simpl. f_equal.
    clear IH Hin Hnd. induction ks as [|k0 ks IH]; [done|].
    apply not_elem_of_cons in Hnot as [Hne Hnot].
    rewrite filter_cons_True by done. simpl. f_equal. by apply IH.
  - rewrite filter_cons_True by done. simpl. f_equal. apply IH; [done|].
    apply elem_of_cons in Hin as [?|?]; [done|done].
Qed.

(** X25.  After a rebuild over a registry of [n] authorities with distinct
    identifiers every registered authority has exactly [n - 1] peers; a
    single authority has none. *)
Theorem rebuild_peer_count w :
  registry_wf w →
  NoDup (ha_registry w).*1 →
  ∃ w', create_mesh_topology w = Returns tt w'
        ∧ ∀ k l, (k, l) ∈ ha_registry w →
            ∃ h', heap w' !! l = Some h'
                  ∧ S (size (HomeAgent.peers h')) = length (ha_registry w).
Proof.
  intros Hwf Hkeys.
  destruct (create_mesh_topology_run w Hwf) as (w' & Hrun & _ & _ & Hmesh & _).
  exists w'. split; [done|]. intros k l Hin.
  destruct (Hmesh _ _ Hin) as (h0 & _ & Hh'). eexists. split; [exact Hh'|]. simpl.
  unfold others. rewrite size_list_to_set by (by apply NoDup_filter).
  rewrite length_filter_ne, length_fmap; [done..|].
  apply list_elem_of_fmap. by exists (k, l).
Qed.

(** ** The table of the mesh *)

Section Table.
Context (E : Env).

(** The rows of the table, printed for the identifiers [ids] of a registry
    whose mesh is complete. *)
Lemma print_rows_run (ha_ids ids : list string) w :
  NoDup (ha_registry w).*1 →
  mesh_complete w →
  ids ⊆ (ha_registry w).*1 →
  ∃ w', for_each ids (λ ha_id,
          registry ← gets ha_registry;
          match dict_get ha_id registry with
          | None => raise (KeyError ha_id)
          | Some ha =>
              h ← deref ha;
              print (mesh_row ha_ids ha_id (HomeAgent.peers h))
          end) w = Returns tt w'
        ∧ stdout w' = stdout w
            ++ ((λ ha_id, mesh_row ha_ids ha_id (others ha_id (ha_registry w))) <$> ids)
        ∧ heap w' = heap w ∧ ha_registry w' = ha_registry w
        ∧ assigned_ips w' = assigned_ips w ∧ fa_registry w' = fa_registry w
        ∧ mn_registry w' = mn_registry w.
Proof.
  intros Hkeys Hmesh. revert w Hkeys Hmesh.
  induction ids as [|ha_id ids IH]; intros w Hkeys Hmesh Hsub.
  { exists w. split; [done|]. simpl. by rewrite app_nil_r. }
  assert (Hin : ha_id ∈ (ha_registry w).*1) by (apply Hsub, list_elem_of_here).
  apply list_elem_of_fmap in Hin as ([k l] & -> & Hin). simpl in *.
  destruct (Hmesh _ _ Hin) as (h & Hh & Hp).
  cbn [for_each]. rewrite run_bind, run_bind, run_gets. cbv beta iota.
  rewrite (elem_of_dict_get _ _ _ Hkeys Hin).
  rewrite run_bind, (run_deref _ _ _ Hh). cbv beta iota. rewrite run_print, Hp.
  match goal with |- context [for_each _ _ ?w0] =>
    destruct (IH w0) as (w' & Hrun & Hout & Hheap & Hreg & Hrest)
  end; [done|done|..].
  { intros x Hx. apply Hsub. by apply list_elem_of_further. }
  exists w'. split; [exact Hrun|]. simpl in *. rewrite Hout.
  split; [by rewrite <- (assoc_L (++))|]. done.
Qed.

(** X26.  In every world the menu loop reaches, [print_mesh_topology] returns and
    prints, between the two header lines and the legend, one row for each
    registered authority, in the order of the registry; the cell of the
    row of [a] under the column of [b] is blank when [b] is [a] and shows
    the mark otherwise.  Nothing but the output changes. *)
Theorem printed_mesh_is_complete w :
  reachable E w →
  ∃ w', print_mesh_topology w = Returns tt w'
        ∧ stdout w' =
            stdout w
            ++ [nl +:+ "Mesh Topology of Home Agents:" +:+ nl;
                "   " +:+ String.concat "" (rjust 8 <$> (ha_registry w).*1)]
            ++ ((λ a, ljust 3 a
                      +:+ String.concat ""
                            ((λ b, if decide (b = a) then rjust 8 " " else rjust 8 "✓")
                               <$> (ha_registry w).*1))
                  <$> (ha_registry w).*1)
            ++ [nl +:+ "Legend: ✓ indicates a connection between the Home Agents." +:+ nl]
        ∧ heap w' = heap w ∧ ha_registry w' = ha_registry w
        ∧ assigned_ips w' = assigned_ips w ∧ fa_registry w' = fa_registry w
        ∧ mn_registry w' = mn_registry w.
Proof.
  intros Hw.
  destruct (reachable_system_inv E w Hw) as (_ & Hkeys & Hne & Hmesh & _).
  unfold print_mesh_topology. rewrite run_bind, run_gets. cbv beta iota.
  rewrite decide_False by done. run.
  match goal with |- context [for_each ?ids _ ?w0] =>
    destruct (print_rows_run ids ids w0) as (w' & Hrun & Hout & Hheap & Hreg & Hrest)
  end; [done|done|done|].
  rewrite Hrun. cbv beta iota. run. eexists. split; [reflexivity|]. simpl in *.
  split; [|done]. rewrite Hout, <- !(assoc_L (++)). simpl. do 3 f_equal. f_equal.
  apply list_fmap_ext. intros i a Ha. unfold mesh_row. do 2 f_equal.
  apply list_fmap_ext. intros j b Hb. apply list_elem_of_lookup_2 in Hb.
  unfold others. destruct (decide (b = a)) as [->|Hne'].
  - rewrite decide_False; [done|]. rewrite elem_of_list_to_set, list_elem_of_filter.
    by intros [? _].
  - rewrite decide_True; [done|]. rewrite elem_of_list_to_set, list_elem_of_filter.
    split; [by intros ->|done].
Qed.

End Table.

(** ** More of the scenario, checked *)

Lemma demo_reachable : reachable demo_env demo_world.
Proof. apply reachable_init. vm_compute. reflexivity. Qed.

Lemma demo_reachable_enrolled : reachable demo_env demo_world_enrolled.
Proof.
  apply (reachable_add_mobile_node demo_env 5 "MN1" demo_world); [exact demo_reachable|].
  vm_compute. reflexivity.
Qed.

Lemma demo_reachable_moved : reachable demo_env demo_world_moved.
Proof.
  apply (reachable_move_mobile_node demo_env 5 "MN1" 0 demo_world_enrolled);
    [exact demo_reachable_enrolled|].
  vm_compute. reflexivity.
Qed.

Lemma demo_moved_twice :
  move_mobile_node demo_env 5 "MN1" 1 demo_world_moved = Returns tt demo_world_moved_twice.
Proof. vm_compute. reflexivity. Qed.

Lemma demo_reachable_moved_twice : reachable demo_env demo_world_moved_twice.
Proof.
  apply (reachable_move_mobile_node demo_env 5 "MN1" 1 demo_world_moved);
    [exact demo_reachable_moved|exact demo_moved_twice].
Qed.

Lemma demo_keys_NoDup : NoDup (ha_registry demo_world).*1.
Proof. apply (bool_decide_unpack _). vm_compute. reflexivity. Qed.

Lemma demo_randbelow_below n bound : 0 < bound → secrets_randbelow demo_env n bound < bound.
Proof. intros Hb. change (n `mod` bound < bound). apply Nat.mod_upper_bound. lia. Qed.

Lemma demo_world1_store : heap demo_world1 !! 0 = Some demo_ha123.
Proof. vm_compute. reflexivity. Qed.

Lemma assign_then_release_restores_pool_witness :
  ∃ ip w1 w2,
    assign_ip demo_env 1 "mn" demo_world = Returns ip w1
    ∧ release_ip ip w1 = Returns tt w2
    ∧ assigned_ips w2 = assigned_ips demo_world.
Proof.
  assert (H : is_Some (returned (assign_ip demo_env 1 "mn" demo_world)))
    by (apply (bool_decide_unpack _); vm_compute; reflexivity).
  apply returned_is_Some in H as (ip & w1 & Hrun).
  destruct (assign_then_release_restores_pool demo_env 1 "mn" demo_world ip w1 Hrun)
    as (w2 & Hrel & Hips & _).
  exists ip, w1, w2. repeat split; [exact Hrun|exact Hrel|exact Hips].
Defined.

Lemma address_classes_disjoint_witness :
  ∃ ip1 w1 ip2 w2,
    assign_ip demo_env 1 "mn" demo_world = Returns ip1 w1
    ∧ assign_ip demo_env 1 "ha" demo_world = Returns ip2 w2
    ∧ ip1 ≠ ip2.
Proof.
  assert (H1 : is_Some (returned (assign_ip demo_env 1 "mn" demo_world)))
    by (apply (bool_decide_unpack _); vm_compute; reflexivity).
  assert (H2 : is_Some (returned (assign_ip demo_env 1 "ha" demo_world)))
    by (apply (bool_decide_unpack _); vm_compute; reflexivity).
  apply returned_is_Some in H1 as (ip1 & w1 & H1).
  apply returned_is_Some in H2 as (ip2 & w2 & H2).
  exists ip1, w1, ip2, w2. repeat split; [exact H1|exact H2|].
  apply (address_classes_disjoint demo_env 1 "mn" demo_world ip1 w1 1 "ha" demo_world ip2 w2
           H1 H2).
  discriminate.
Defined.

Lemma replayed_request_accepted_again_witness :
  ∃ r w1 w2,
    process_registration demo_env 0 demo_fa123 demo_mn1 demo_request1 demo_world1 = Returns r w1
    ∧ process_registration demo_env 0 demo_fa123 demo_mn1 demo_request1 w1 = Returns r w2
    ∧ heap w2 = heap w1.
Proof.
  exact (replayed_request_accepted_again demo_env 0 demo_ha123 demo_fa123 demo_mn1
           demo_request1 demo_world1 demo_world1_store demo_request1_valid).
Defined.

Lemma relay_nonce_and_request_type_unused_witness :
  match handle_registration_request demo_env demo_fa123 demo_mn1 0 demo_request1 demo_world1,
        handle_registration_request demo_env (ForeignAgent.mk "FA123" "192.168.2.1" "token9")
          demo_mn1 0 (Registration.init "re-registration" 2 (request_data demo_mn1))
          demo_world1 with
  | Returns (r, _) w1, Returns (r', _) w1' => r = r' ∧ w1 = w1'
  | Raises e w1, Raises e' w1' => e = e' ∧ w1 = w1'
  | OutOfFuel, OutOfFuel | BadRef, BadRef => True
  | _, _ => False
  end.
Proof.
  apply (relay_nonce_and_request_type_unused demo_env demo_fa123
           (ForeignAgent.mk "FA123" "192.168.2.1" "token9")); reflexivity.
Defined.

Lemma initiate_registration_accepted_witness :
  ∃ r mn' w',
    initiate_registration demo_env demo_mn1_new 0 demo_fa123 demo_world1 = Returns (r, mn') w'
    ∧ Response.status r = "success"
    ∧ Binding.coa (Response.binding r) = MobileNode.coa demo_mn1_new.
Proof.
  destruct (initiate_registration_accepted demo_env demo_mn1_new 0 demo_ha123 demo_fa123
              demo_world1 demo_world1_store)
    as (r & mn' & w' & h' & Hrun & Hstatus & _ & _ & _ & Hcoa & _).
  exists r, mn', w'. repeat split; [exact Hrun|exact Hstatus|exact Hcoa].
Defined.

Lemma re_registration_needs_temp_identity_witness :
  re_register_with_original_ha demo_env demo_mn1_new demo_fa123 demo_world1 =
    Raises (Exception "Invalid registration data")
      (set_stdout (λ out, out ++ ["Re-registering MN MN1 with original Home Agent HA123."])
         demo_world1).
Proof.
  apply (proj2 (re_registration_needs_temp_identity demo_env demo_mn1_new demo_fa123
                  demo_ha123 demo_world1 demo_world1_store)).
  reflexivity.
Defined.

Lemma network_selection_menu_in_range_witness :
  network_selection_menu ncurses 3 [258; 258; 97; 258; 258; 259; 13; 258]%Z = Some 1%Z
  ∧ (0 ≤ 1 < Z.of_nat 3)%Z.
Proof.
  assert (H : network_selection_menu ncurses 3 [258; 258; 97; 258; 258; 259; 13; 258]%Z
              = Some 1%Z) by (vm_compute; reflexivity).
  split; [exact H|].
  apply (network_selection_menu_in_range ncurses 3
           [258; 258; 97; 258; 258; 259; 13; 258]%Z 1%Z); [lia|exact H].
Defined.

Lemma network_selection_menu_saturates_witness :
  network_selection_menu ncurses 3 (replicate 2 259%Z ++ replicate 5 258%Z ++ [10%Z])
  = Some (Z.min (Z.of_nat 5) (Z.of_nat 3 - 1)).
Proof. apply network_selection_menu_saturates. lia. Defined.

Lemma no_stale_binding_witness :
  ∃ h b mn,
    heap demo_world_moved_twice !! 2 = Some h
    ∧ HomeAgent.bindings h !! "MN1" = Some b
    ∧ dict_get "MN1" (mn_registry demo_world_moved_twice) = Some mn
    ∧ Binding.coa b = MobileNode.coa mn.
Proof.
  assert (Hb : is_Some (heap demo_world_moved_twice !! 2
                        ≫= λ h, HomeAgent.bindings h !! "MN1"))
    by (apply (bool_decide_unpack _); vm_compute; reflexivity).
  destruct (heap demo_world_moved_twice !! 2) as [h|] eqn:Hh; [|by destruct Hb].
  destruct Hb as [b Hb]. simpl in Hb.
  destruct (no_stale_binding demo_env demo_world_moved_twice 2 h "MN1" b
              demo_reachable_moved_twice Hh Hb) as (mn & Hget & _ & Hcoa).
  exists h, b, mn. repeat split; [exact Hb|exact Hget|exact Hcoa].
Defined.

Lemma registered_node_is_bound_witness :
  ∃ mn o b,
    dict_get "MN1" (mn_registry demo_world_moved_twice) = Some mn
    ∧ heap demo_world_moved_twice !! MobileNode.original_ha mn = Some o
    ∧ HomeAgent.bindings o !! "MN1" = Some b
    ∧ Binding.coa b = MobileNode.coa mn.
Proof.
  assert (Hm : is_Some (dict_get "MN1" (mn_registry demo_world_moved_twice)))
    by (apply (bool_decide_unpack _); vm_compute; reflexivity).
  destruct Hm as [mn Hget].
  destruct (registered_node_is_bound demo_env demo_world_moved_twice "MN1" mn
              demo_reachable_moved_twice (dict_get_elem_of _ _ _ Hget))
    as (_ & _ & (o & b & Ho & Hb & Hcoa) & _).
  exists mn, o, b. repeat split; [exact Hget|exact Ho|exact Hb|exact Hcoa].
Defined.

Lemma addresses_in_use_distinct_witness : NoDup (addresses_in_use demo_world_moved_twice).
Proof.
  exact (proj1 (addresses_in_use_distinct demo_env demo_world_moved_twice
                  demo_reachable_moved_twice)).
Defined.

Lemma mesh_complete_everywhere_witness : NoDup (ha_registry demo_world_moved_twice).*1.
Proof.
  exact (proj1 (mesh_complete_everywhere demo_env demo_world_moved_twice
                  demo_reachable_moved_twice)).
Defined.

Lemma move_never_releases_witness :
  ∃ mn,
    dict_get "MN1" (mn_registry demo_world_moved) = Some mn
    ∧ ((assigned_ips demo_world_moved_twice = assigned_ips demo_world_moved
        ∧ mn_registry demo_world_moved_twice = mn_registry demo_world_moved)
       ∨ ∃ mn', dict_get "MN1" (mn_registry demo_world_moved_twice) = Some mn'
                ∧ (MobileNode.coa mn' ∉ assigned_ips demo_world_moved)
                ∧ assigned_ips demo_world_moved_twice =
                    assigned_ips demo_world_moved ∪ {[MobileNode.coa mn']}
                ∧ MobileNode.coa mn ∈ assigned_ips demo_world_moved_twice
                ∧ size (assigned_ips demo_world_moved_twice)
                  = S (size (assigned_ips demo_world_moved))).
Proof.
  assert (Hm : is_Some (dict_get "MN1" (mn_registry demo_world_moved)))
    by (apply (bool_decide_unpack _); vm_compute; reflexivity).
  destruct Hm as [mn Hget]. exists mn. split; [exact Hget|].
  exact (move_never_releases demo_env 5 "MN1" 1 demo_world_moved demo_world_moved_twice mn
           demo_reachable_moved Hget demo_moved_twice).
Defined.

Lemma add_mobile_node_never_raises_witness :
  match add_mobile_node demo_env 5 "MN1" demo_world with
  | Returns _ _ => True
  | OutOfFuel =>
      ∀ k, k < 5 →
        "10.1.0" +:+ "." +:+ pretty (secrets_randbelow demo_env (S (randbelow_calls demo_world) + k) 255)
        ∈ assigned_ips demo_world
  | Raises _ _ | BadRef => False
  end.
Proof.
  apply (add_mobile_node_never_raises demo_env 5 "MN1" demo_world).
  - exact demo_registry_wf.
  - vm_compute. discriminate.
  - vm_compute. lia.
  - exact demo_randbelow_below.
Defined.

Lemma demo_reachable_uneven : reachable demo_env demo_world_uneven.
Proof.
  apply (reachable_add_mobile_node demo_env 5 "MN1"
           (world_after (add_network demo_env 5 "HA999" "FA123" demo_world))).
  - apply (reachable_add_network demo_env 5 "HA999" "FA123" demo_world); [exact demo_reachable|].
    vm_compute. reflexivity.
  - vm_compute. reflexivity.
Qed.

Lemma add_mobile_node_index_error_witness :
  reachable demo_env demo_world_uneven
  ∧ add_mobile_node demo_env 5 "MN2" demo_world_uneven =
      Raises IndexError (set_randbelow_calls S demo_world_uneven).
Proof.
  split; [exact demo_reachable_uneven|].
  apply (add_mobile_node_index_error demo_env 5 "MN2" demo_world_uneven).
  - vm_compute. reflexivity.
  - vm_compute. lia.
  - vm_compute. lia.
Defined.

Lemma add_network_never_raises_witness :
  match add_network demo_env 5 "HA999" "FA999" demo_world with
  | Returns _ _ | OutOfFuel => True
  | Raises _ _ | BadRef => False
  end.
Proof. exact (add_network_never_raises demo_env 5 "HA999" "FA999" demo_world demo_registry_wf). Defined.

Lemma demo_network_readded :
  ∃ w', add_network demo_env 5 "HA123" "FA999" demo_world = Returns tt w'.
Proof.
  assert (H : is_Some (returned (add_network demo_env 5 "HA123" "FA999" demo_world)))
    by (apply (bool_decide_unpack _); vm_compute; reflexivity).
  apply returned_is_Some in H as ([] & w' & Hrun). by exists w'.
Qed.

Lemma add_network_orphans_old_authority_witness :
  ∃ w' h new hnew,
    add_network demo_env 5 "HA123" "FA999" demo_world = Returns tt w'
    ∧ heap demo_world !! 0 = Some h
    ∧ heap w' !! 0 = Some h
    ∧ (0 ∉ (ha_registry w').*2)
    ∧ dict_get "HA123" (ha_registry w') = Some new
    ∧ heap w' !! new = Some hnew
    ∧ HomeAgent.bindings hnew = ∅.
Proof.
  destruct demo_network_readded as (w' & Hrun).
  assert (Hh : is_Some (heap demo_world !! 0))
    by (apply (bool_decide_unpack _); vm_compute; reflexivity).
  destruct Hh as [h Hh].
  assert (Hget : dict_get "HA123" (ha_registry demo_world) = Some 0)
    by (vm_compute; reflexivity).
  destruct (add_network_orphans_old_authority demo_env 5 "HA123" "FA999" demo_world w' 0 h
              demo_registry_wf demo_keys_NoDup Hget Hh Hrun)
    as (_ & Hout & Hsame & new & hnew & Hnew & _ & Hhnew & _ & Hnb).
  exists w', h, new, hnew.
  repeat split; [exact Hrun|exact Hh|exact Hsame|exact Hout|exact Hnew|exact Hhnew|exact Hnb].
Defined.

Lemma add_network_registry_lengths_witness :
  ∃ w', add_network demo_env 5 "HA999" "FA123" demo_world = Returns tt w'
        ∧ length (ha_registry w') = 4 ∧ length (fa_registry w') = 3.
Proof.
  assert (H : is_Some (returned (add_network demo_env 5 "HA999" "FA123" demo_world)))
    by (apply (bool_decide_unpack _); vm_compute; reflexivity).
  apply returned_is_Some in H as ([] & w' & Hrun).
  destruct (add_network_registry_lengths demo_env 5 "HA999" "FA123" demo_world w'
              demo_registry_wf Hrun) as [Hha Hfa].
  exists w'. split; [exact Hrun|]. split.
  - rewrite Hha. vm_compute. reflexivity.
  - rewrite Hfa. vm_compute. reflexivity.
Defined.

Lemma move_with_menu_choice_never_raises_witness :
  network_selection_menu ncurses (length (networks_offered demo_world_enrolled "MN1"))
    [258; 10]%Z = Some 1%Z
  ∧ match move_mobile_node demo_env 5 "MN1" (Z.to_nat 1) demo_world_enrolled with
    | Returns _ _ | OutOfFuel => True
    | Raises _ _ | BadRef => False
    end.
Proof.
  assert (H : network_selection_menu ncurses
                (length (networks_offered demo_world_enrolled "MN1")) [258; 10]%Z = Some 1%Z)
    by (vm_compute; reflexivity).
  split; [exact H|].
  exact (move_with_menu_choice_never_raises demo_env ncurses 5 "MN1" [258; 10]%Z 1%Z
           demo_world_enrolled demo_reachable_enrolled H).
Defined.

Lemma rebuild_changes_only_peers_witness :
  ∃ w', create_mesh_topology demo_world_moved_twice = Returns tt w'
        ∧ frame demo_world_moved_twice w'
        ∧ length (heap w') = length (heap demo_world_moved_twice).
Proof.
  destruct (rebuild_changes_only_peers demo_world_moved_twice
              (proj1 (reachable_world_inv demo_env _ demo_reachable_moved_twice)))
    as (w' & Hrun & Hframe & Hlen & _).
  exists w'. repeat split; [exact Hrun|apply Hframe..|exact Hlen].
Defined.

Lemma rebuild_peer_count_witness :
  ∃ w' h', create_mesh_topology demo_world = Returns tt w'
           ∧ heap w' !! 1 = Some h'
           ∧ S (size (HomeAgent.peers h')) = length (ha_registry demo_world).
Proof.
  destruct (rebuild_peer_count demo_world demo_registry_wf demo_keys_NoDup)
    as (w' & Hrun & Hcount).
  destruct (Hcount "HA456" 1) as (h' & Hh' & Hsize).
  { apply (dict_get_elem_of "HA456" 1). vm_compute. reflexivity. }
  exists w', h'. repeat split; [exact Hrun|exact Hh'|exact Hsize].
Defined.

Lemma printed_mesh_is_complete_witness :
  ∃ w', print_mesh_topology demo_world_moved_twice = Returns tt w'
        ∧ heap w' = heap demo_world_moved_twice
        ∧ drop (length (stdout demo_world_moved_twice) + 2) (stdout w') =
            ["HA123               ✓       ✓"; "HA456       ✓               ✓";
             "HA789       ✓       ✓        ";
             nl +:+ "Legend: ✓ indicates a connection between the Home Agents." +:+ nl].
Proof.
  destruct (printed_mesh_is_complete demo_env demo_world_moved_twice
              demo_reachable_moved_twice) as (w' & Hrun & Hout & Hheap & _).
  exists w'. split; [exact Hrun|]. split; [exact Hheap|].
  rewrite Hout, drop_app_add'; [|reflexivity].
  vm_compute. reflexivity.
Defined.
